(** * Chapter Master: story bible, consistency checker and status derivation

    A shallow embedding of the story-bible operations of the repository
    (check-consistency, get-story-status, create-character, generate-chapter,
    next-chapter and the element schemas) together with the properties the
    specification states about them.

    Conventions of the embedding:
    - JSON numbers that the code uses as identifiers, chapter numbers and
      counts are integers ([Z]); optional fields are [option]; the code's
      truthiness tests ([x || d], [!x], [x ? a : b]) are written out.  A
      property that needs the chapter numbers to be whole says so.
    - Strings are [string]; tags such as issue types, severities and statuses
      are the string literals of the source.  [toLowerCase] and [trim] are
      modelled on the ASCII range; a property that depends on what they do
      to a text is stated for ASCII texts ([Further.ascii_text]).
    - The file system is a trace of the mutating calls ([mkdir], [writeFile])
      an operation performs; the clock and the generation service are inputs. *)

From Stdlib Require Import ZArith List String Ascii Bool Lia Arith.
From Stdlib Require Import DecimalString Floats Uint63.
From Stdlib Require Import QArith Qround Qpower.
From Stdlib Require Import Sorting.Sorted Sorting.Permutation.
Import ListNotations.

Set Warnings "-register-all".

Local Open Scope string_scope.
Local Open Scope Z_scope.

(* ====================================================================== *)
(** ** JavaScript primitives used by the modelled code *)
(* ====================================================================== *)

Module JS.

(** The double-quote character, for the template strings that quote titles. *)
Definition dq : string := String (ascii_of_nat 34) EmptyString.

Definition quoted (s : string) : string := dq ++ s ++ dq.

(** [String(n)] for an integer. *)
Definition Number_toString (n : Z) : string :=
  NilZero.string_of_int (Z.to_int n).

(** Truthiness of an optional number: [undefined] and [0] are falsy. *)
Definition truthy_num (x : option Z) : bool :=
  match x with
  | Some n => negb (n =? 0)
  | None => false
  end.

(** Truthiness of an optional string: [undefined] and [''] are falsy. *)
Definition truthy_str (x : option string) : bool :=
  match x with
  | Some s => negb (String.eqb s "")
  | None => false
  end.

(** [l.filter((n) => n)] on optional numbers. *)
Definition truthy_numbers (l : list (option Z)) : list Z :=
  flat_map (fun x => match x with
                     | Some n => if n =? 0 then [] else [n]
                     | None => []
                     end) l.

(** [x || d] on an optional number. *)
Definition num_or (x : option Z) (d : Z) : Z :=
  match x with
  | Some n => if n =? 0 then d else n
  | None => d
  end.

(** [x || d] on an optional string. *)
Definition str_or (x : option string) (d : string) : string :=
  match x with
  | Some s => if String.eqb s "" then d else s
  | None => d
  end.

(** [x || []] on an optional array. *)
Definition arr_or {A : Type} (x : option (list A)) : list A :=
  match x with
  | Some l => l
  | None => []
  end.

(** [arr.includes(x)] on an array of numbers. *)
Definition includes (l : list Z) (x : Z) : bool := existsb (Z.eqb x) l.

(** [arr?.includes(x)]: [undefined] (falsy) when the array is missing. *)
Definition opt_includes (l : option (list Z)) (x : Z) : bool :=
  match l with
  | Some xs => includes xs x
  | None => false
  end.

(** [arr.indexOf(x)]: position of the first occurrence, [-1] if none. *)
Fixpoint indexOf (l : list Z) (x : Z) : Z :=
  match l with
  | [] => -1
  | y :: t =>
      if y =? x then 0
      else let i := indexOf t x in if i <? 0 then -1 else i + 1
  end.

(** [arr.filter((v, index) => f(v, index))], counting from [i]. *)
Fixpoint filteri_from {A : Type} (f : A -> Z -> bool) (i : Z) (l : list A)
  : list A :=
  match l with
  | [] => []
  | x :: t =>
      if f x i then x :: filteri_from f (i + 1) t else filteri_from f (i + 1) t
  end.

Definition filteri {A : Type} (f : A -> Z -> bool) (l : list A) : list A :=
  filteri_from f 0 l.

(** [arr.sort((a, b) => a - b)] on numbers: ascending order. *)
Fixpoint insert_sorted (x : Z) (l : list Z) : list Z :=
  match l with
  | [] => [x]
  | y :: t => if x <? y then x :: y :: t else y :: insert_sorted x t
  end.

Definition sort_numbers (l : list Z) : list Z :=
  fold_left (fun acc x => insert_sorted x acc) l [].

(** [Math.max(...l)] for a non-empty array ([-Infinity] on the empty one,
    which the callers exclude by testing the length first). *)
Definition Math_max (l : list Z) : option Z :=
  match l with
  | [] => None
  | x :: t => Some (fold_left Z.max t x)
  end.

(** [s.toLowerCase()], on the ASCII letters: [String.prototype.toLowerCase]
    for a text of ASCII characters. *)
Definition lower_ascii (c : ascii) : ascii :=
  let n := nat_of_ascii c in
  if andb (Nat.leb 65 n) (Nat.leb n 90) then ascii_of_nat (n + 32) else c.

Fixpoint toLowerCase (s : string) : string :=
  match s with
  | EmptyString => EmptyString
  | String c t => String (lower_ascii c) (toLowerCase t)
  end.

(** [s.includes(sub)]: substring test. *)
Fixpoint str_includes (s sub : string) : bool :=
  if String.prefix sub s then true
  else match s with
       | EmptyString => false
       | String _ t => str_includes t sub
       end.

End JS.

(* ====================================================================== *)
(** ** The story bible data model *)
(* ====================================================================== *)

Module Arc.
Record t := mk { summary : option string }.
End Arc.

Module Psychology.
Record t := mk {
  motivations : list string;
  fears : list string;
  goals : list string
}.
End Psychology.

Module Character.
Record t := mk {
  id : Z;
  type : string;
  title : string;
  description : string;
  characterType : string;
  status : string;
  priority : string;
  createdAt : string;
  updatedAt : string;
  psychology : option Psychology.t;
  traits : option (list string);
  arc : option Arc.t
}.
End Character.

Module CharacterMoment.
(** The chapter generator stores [{description: moment}] objects; the
    chapter schema asks for [{characterId, development}]. *)
Record t := mk {
  characterId : option Z;
  development : option string;
  description : option string
}.
End CharacterMoment.

Module Chapter.
Record t := mk {
  id : Z;
  type : string;
  title : string;
  chapterNumber : option Z;
  description : string;
  purpose : string;
  status : string;
  priority : string;
  characters : option (list Z);
  plotThreads : option (list Z);
  conflicts : option (list string);
  scenes : option (list Z);
  targetWordCount : option Z;
  plotAdvancement : option string;
  characterMoments : option (list CharacterMoment.t);
  pov : option string;
  createdAt : string;
  updatedAt : string
}.

Definition with_characters (c : t) (v : option (list Z)) : t :=
  mk (id c) (type c) (title c) (chapterNumber c) (description c) (purpose c)
     (status c) (priority c) v (plotThreads c) (conflicts c) (scenes c)
     (targetWordCount c) (plotAdvancement c) (characterMoments c) (pov c)
     (createdAt c) (updatedAt c).

Definition with_scenes (c : t) (v : option (list Z)) : t :=
  mk (id c) (type c) (title c) (chapterNumber c) (description c) (purpose c)
     (status c) (priority c) (characters c) (plotThreads c) (conflicts c) v
     (targetWordCount c) (plotAdvancement c) (characterMoments c) (pov c)
     (createdAt c) (updatedAt c).
End Chapter.

Module Scene.
Record t := mk {
  id : Z;
  type : string;
  title : string;
  description : string;
  sceneType : string;
  chapterId : Z;
  characters : option (list Z);
  setting : string;
  purpose : string;
  status : string;
  priority : string;
  createdAt : string;
  updatedAt : string
}.
End Scene.

Module PlotThread.
Record t := mk {
  id : Z;
  title : string;
  status : string;
  priority : string;
  resolution : option string
}.

Definition with_resolution (p : t) (r : option string) : t :=
  mk (id p) (title p) (status p) (priority p) r.
End PlotThread.

Module Premise.
Record t := mk {
  status : string;
  genre : string;
  content : string
}.
End Premise.

Module Meta.
Record t := mk {
  title : option string;
  genre : option string;
  createdAt : string;
  updatedAt : string
}.

Definition with_updatedAt (m : t) (now : string) : t :=
  mk (title m) (genre m) (createdAt m) now.
End Meta.

Module Style.
Record t := mk {
  pov : option string;
  tense : option string
}.
End Style.

Module StoryBible.
Record t := mk {
  meta : option Meta.t;
  premise : option Premise.t;
  characters : option (list Character.t);
  chapters : option (list Chapter.t);
  scenes : option (list Scene.t);
  plotThreads : option (list PlotThread.t);
  style : option Style.t
}.

Definition with_meta (sb : t) (m : option Meta.t) : t :=
  mk m (premise sb) (characters sb) (chapters sb) (scenes sb)
     (plotThreads sb) (style sb).

Definition with_characters (sb : t) (v : option (list Character.t)) : t :=
  mk (meta sb) (premise sb) v (chapters sb) (scenes sb)
     (plotThreads sb) (style sb).

Definition with_chapters (sb : t) (v : option (list Chapter.t)) : t :=
  mk (meta sb) (premise sb) (characters sb) v (scenes sb)
     (plotThreads sb) (style sb).

Definition with_scenes (sb : t) (v : option (list Scene.t)) : t :=
  mk (meta sb) (premise sb) (characters sb) (chapters sb) v
     (plotThreads sb) (style sb).
End StoryBible.

(* ====================================================================== *)
(** ** Issues *)
(* ====================================================================== *)

Module Issue.
Record t := mk {
  type : string;
  description : string;
  severity : string;
  characterId : option Z;
  chapterId : option Z;
  plotThreadId : option Z
}.

Definition has_type (ty : string) (i : t) : bool := String.eqb (type i) ty.
End Issue.

Module FixedIssue.
(** [{...issue, fixedAt, fixMode}] *)
Record t := mk {
  issue : Issue.t;
  fixedAt : string;
  fixMode : string
}.
End FixedIssue.

(* ====================================================================== *)
(** ** The consistency checker (check-consistency) *)
(* ====================================================================== *)

Module Checker.

(** The issue pushed for a scene whose parent chapter does not list the
    character. *)
Definition unlisted_issue (character : Character.t) (parentChapter : Chapter.t)
  : Issue.t :=
  Issue.mk "character-unlisted"
    ("Character " ++ JS.quoted (Character.title character)
      ++ " appears in scenes but not listed in chapter "
      ++ JS.quoted (Chapter.title parentChapter))
    "moderate"
    (Some (Character.id character))
    (Some (Chapter.id parentChapter))
    None.

Definition arc_undefined_issue (character : Character.t) : Issue.t :=
  Issue.mk "character-arc-undefined"
    ("Character " ++ JS.quoted (Character.title character)
      ++ " appears in multiple chapters but lacks defined character arc")
    "minor"
    (Some (Character.id character))
    None
    None.

(** The inner loop over the scenes the character appears in. *)
Definition unlisted_in_scene (character : Character.t)
    (chapters : list Chapter.t) (scene : Scene.t) : list Issue.t :=
  match find (fun c => Chapter.id c =? Scene.chapterId scene) chapters with
  | Some parentChapter =>
      if negb (JS.opt_includes (Chapter.characters parentChapter)
                 (Character.id character))
      then [unlisted_issue character parentChapter]
      else []
  | None => []
  end.

(** [!character.arc.summary || character.arc.summary === 'To be developed'] *)
Definition arc_summary_undefined (a : Arc.t) : bool :=
  negb (JS.truthy_str (Arc.summary a))
  || match Arc.summary a with
     | Some s => String.eqb s "To be developed"
     | None => false
     end.

(** The development-continuity test on one character. *)
Definition arc_check (character : Character.t)
    (characterChapters : list Chapter.t) : list Issue.t :=
  match Character.arc character with
  | Some a =>
      if (1 <? Z.of_nat (List.length characterChapters))
      then if arc_summary_undefined a
           then [arc_undefined_issue character]
           else []
      else []
  | None => []
  end.

(** The body of the loop over the characters. *)
Definition check_character (chapters : list Chapter.t) (scenes : list Scene.t)
    (character : Character.t) : list Issue.t :=
  let characterScenes :=
    filter (fun s => JS.opt_includes (Scene.characters s)
                       (Character.id character)) scenes in
  let characterChapters :=
    filter (fun c => JS.opt_includes (Chapter.characters c)
                       (Character.id character)) chapters in
  (flat_map (unlisted_in_scene character chapters) characterScenes
   ++ arc_check character characterChapters)%list.

Definition checkCharacterConsistency (characters : list Character.t)
    (chapters : list Chapter.t) (scenes : list Scene.t) : list Issue.t :=
  flat_map (check_character chapters scenes) characters.

(* -------------------------------------------------------------------- *)

Definition unused_issue (plotThread : PlotThread.t) : Issue.t :=
  Issue.mk "plot-thread-unused"
    ("Plot thread " ++ JS.quoted (PlotThread.title plotThread)
      ++ " is not referenced in any chapters")
    "minor" None None (Some (PlotThread.id plotThread)).

Definition unresolved_issue (plotThread : PlotThread.t) : Issue.t :=
  Issue.mk "plot-thread-unresolved"
    ("Plot thread " ++ JS.quoted (PlotThread.title plotThread)
      ++ " marked complete but no resolution specified")
    "moderate" None None (Some (PlotThread.id plotThread)).

(** Whether a chapter references the plot thread, by id or by a
    case-insensitive mention of its title in [plotAdvancement]. *)
Definition chapter_mentions (plotThread : PlotThread.t) (c : Chapter.t) : bool :=
  JS.opt_includes (Chapter.plotThreads c) (PlotThread.id plotThread)
  || match Chapter.plotAdvancement c with
     | Some text =>
         JS.str_includes (JS.toLowerCase text)
           (JS.toLowerCase (PlotThread.title plotThread))
     | None => false
     end.

Definition check_plotThread (chapters : list Chapter.t)
    (plotThread : PlotThread.t) : list Issue.t :=
  let relevantChapters := filter (chapter_mentions plotThread) chapters in
  ((if (Z.of_nat (List.length relevantChapters) =? 0)
       && negb (String.eqb (PlotThread.status plotThread) "completed")
    then [unused_issue plotThread] else [])
   ++
   (if String.eqb (PlotThread.status plotThread) "completed"
       && negb (JS.truthy_str (PlotThread.resolution plotThread))
    then [unresolved_issue plotThread] else []))%list.

Definition checkPlotConsistency (plotThreads : list PlotThread.t)
    (chapters : list Chapter.t) (scenes : list Scene.t) : list Issue.t :=
  flat_map (check_plotThread chapters) plotThreads.

(* -------------------------------------------------------------------- *)

Definition gap_issue (prev next : Z) : Issue.t :=
  Issue.mk "chapter-sequence-gap"
    ("Gap in chapter sequence: Chapter " ++ JS.Number_toString prev
      ++ " followed by Chapter " ++ JS.Number_toString next)
    "minor" None None None.

Definition duplicate_issue (num : Z) : Issue.t :=
  Issue.mk "duplicate-chapter-number"
    ("Duplicate chapter number: " ++ JS.Number_toString num)
    "critical" None None None.

(** [chapters.map((c) => c.chapterNumber).filter((n) => n)] *)
Definition numbered (chapters : list Chapter.t) : list Z :=
  JS.truthy_numbers (map Chapter.chapterNumber chapters).

(** The loop [for (i = 1; i < n; i++)] comparing [a[i]] with [a[i-1]]. *)
Fixpoint gaps_after (prev : Z) (rest : list Z) : list (Z * Z) :=
  match rest with
  | [] => []
  | x :: t =>
      ((if 1 <? x - prev then [(prev, x)] else []) ++ gaps_after x t)%list
  end.

Definition gaps (chapterNumbers : list Z) : list (Z * Z) :=
  match chapterNumbers with
  | [] => []
  | x :: t => gaps_after x t
  end.

(** [a.filter((num, index) => a.indexOf(num) !== index)] *)
Definition duplicates (chapterNumbers : list Z) : list Z :=
  JS.filteri (fun num index => negb (JS.indexOf chapterNumbers num =? index))
    chapterNumbers.

Definition checkTimelineConsistency (chapters : list Chapter.t)
    (scenes : list Scene.t) : list Issue.t :=
  let chapterNumbers := JS.sort_numbers (numbered chapters) in
  (map (fun g => gap_issue (fst g) (snd g)) (gaps chapterNumbers)
   ++ map duplicate_issue (duplicates chapterNumbers))%list.

(* -------------------------------------------------------------------- *)

Definition pov_issue (count : nat) : Issue.t :=
  Issue.mk "pov-undefined"
    (JS.Number_toString (Z.of_nat count)
      ++ " chapters don't specify POV character")
    "minor" None None None.

Definition checkStyleConsistency (chapters : list Chapter.t)
    (styleGuide : option Style.t) : list Issue.t :=
  match styleGuide with
  | Some sg =>
      if JS.truthy_str (Style.pov sg)
      then
        let chaptersWithoutPOV :=
          filter (fun c => negb (JS.truthy_str (Chapter.pov c))) chapters in
        if (0 <? Z.of_nat (List.length chaptersWithoutPOV))
        then [pov_issue (List.length chaptersWithoutPOV)]
        else []
      else []
  | None => []
  end.

(* -------------------------------------------------------------------- *)
(** *** Auto-fix *)

(** [chapters.find(c => c.id === id)] followed by a mutation of the chapter
    found: the chapter objects are shared with the story bible, so the
    mutation is an update of the first chapter with that id. *)
Fixpoint update_first (id : Z) (f : Chapter.t -> Chapter.t)
    (chapters : list Chapter.t) : list Chapter.t :=
  match chapters with
  | [] => []
  | c :: t =>
      if Chapter.id c =? id then f c :: t else c :: update_first id f t
  end.

(** [if (!chapter.characters) chapter.characters = [];
     chapter.characters.push(k)] *)
Definition push_character (k : Z) (c : Chapter.t) : Chapter.t :=
  Chapter.with_characters c
    (Some (JS.arr_or (Chapter.characters c) ++ [k])%list).

(** The [case 'character-unlisted'] arm: the updated story bible when the
    fix applies, [None] when it does not.  Issues of this type always carry
    both ids (see [unlisted_issue]).  Without a [chapterId] no chapter is
    found; without a [characterId] the source would push [undefined], which
    a list of numbers cannot hold: the model applies no fix there. *)
Definition fix_character_unlisted (storyBible : StoryBible.t) (issue : Issue.t)
  : option StoryBible.t :=
  match StoryBible.chapters storyBible, Issue.chapterId issue,
        Issue.characterId issue with
  | Some chapters, Some chId, Some k =>
      match find (fun c => Chapter.id c =? chId) chapters with
      | Some chapter =>
          if negb (JS.opt_includes (Chapter.characters chapter) k)
          then Some (StoryBible.with_chapters storyBible
                       (Some (update_first chId (push_character k) chapters)))
          else None
      | None => None
      end
  | _, _, _ => None
  end.

(** One iteration of the loop of [autoFixIssues]. *)
Definition autoFix_step (fixMode now : string)
    (acc : list FixedIssue.t * StoryBible.t) (issue : Issue.t)
  : list FixedIssue.t * StoryBible.t :=
  let (fixedIssues, storyBible) := acc in
  if String.eqb fixMode "conservative"
     && negb (String.eqb (Issue.severity issue) "minor")
  then acc
  else
    if String.eqb (Issue.type issue) "character-unlisted"
    then match fix_character_unlisted storyBible issue with
         | Some storyBible' =>
             ((fixedIssues ++ [FixedIssue.mk issue now fixMode])%list,
              storyBible')
         | None => acc
         end
    else acc.

(** [autoFixIssues(issues, storyBible, fixMode)]: the fixed issues and the
    story bible as mutated by the fixes; [now] is the clock's reading. *)
Definition autoFixIssues (issues : list Issue.t) (storyBible : StoryBible.t)
    (fixMode now : string) : list FixedIssue.t * StoryBible.t :=
  fold_left (autoFix_step fixMode now) issues ([], storyBible).

(* -------------------------------------------------------------------- *)
(** *** The rule evaluation of [checkConsistencyDirect] *)

Record Params := mkParams {
  checkType : string;
  characterId : option Z;
  plotThreadId : option Z;
  startChapter : Z;
  endChapter : option Z;
  generateReport : bool;
  autoFix : bool;
  fixMode : string;
  session : bool
}.

(** The defaults of the destructured parameter. *)
Definition defaults : Params :=
  mkParams "all" None None 1 None true false "conservative" false.

(** The range filter on the chapters. *)
Definition in_range (startChapter : Z) (endChapter : option Z)
    (c : Chapter.t) : bool :=
  let chapterNum := JS.num_or (Chapter.chapterNumber c) 0 in
  (startChapter <=? chapterNum)
  && (if JS.truthy_num endChapter
      then chapterNum <=? JS.num_or endChapter 0
      else true).

Definition targetChapters (storyBible : StoryBible.t) (p : Params)
  : list Chapter.t :=
  filter (in_range (startChapter p) (endChapter p))
    (JS.arr_or (StoryBible.chapters storyBible)).

Definition is_type (p : Params) (ty : string) : bool :=
  String.eqb (checkType p) ty || String.eqb (checkType p) "all".

(** [wanted ? l.filter((x) => x.id === wanted) : l] *)
Definition select_by_id {A : Type} (id : A -> Z) (wanted : option Z)
    (l : list A) : list A :=
  match wanted with
  | Some k => if k =? 0 then l else filter (fun x => id x =? k) l
  | None => l
  end.

(** The issue list built by the four rule families, in the order of the
    source. *)
Definition detectIssues (storyBible : StoryBible.t) (p : Params)
  : list Issue.t :=
  let characters := JS.arr_or (StoryBible.characters storyBible) in
  let scenes := JS.arr_or (StoryBible.scenes storyBible) in
  let plotThreads := JS.arr_or (StoryBible.plotThreads storyBible) in
  let target := targetChapters storyBible p in
  ((if is_type p "character"
    then checkCharacterConsistency
           (select_by_id Character.id (characterId p) characters)
           target scenes
    else [])
   ++ (if is_type p "plot"
       then checkPlotConsistency
              (select_by_id PlotThread.id (plotThreadId p) plotThreads)
              target scenes
       else [])
   ++ (if is_type p "timeline"
       then checkTimelineConsistency target scenes
       else [])
   ++ (if is_type p "style"
       then checkStyleConsistency target (StoryBible.style storyBible)
       else []))%list.

End Checker.

(* ====================================================================== *)
(** ** Binary64 arithmetic of the status derivation *)
(* ====================================================================== *)

Module F64.

(** A count (an array length) as a JavaScript number. *)
Definition of_nat (n : nat) : float :=
  PrimFloat.of_uint63 (Uint63.of_Z (Z.of_nat n)).

(** [Math.round(x)]: the nearest integer, ties towards +Infinity, read off
    the mantissa and exponent of [x].  The callers only round finite
    values; on NaN and the infinities the model answers [0]. *)
Definition Math_round (x : float) : Z :=
  match Prim2SF x with
  | S754_finite s m e =>
      let n := if s then Z.neg m else Z.pos m in
      if 0 <=? e then n * 2 ^ e
      else (2 * n + 2 ^ (- e)) / 2 ^ (1 - e)
  | _ => 0
  end.

End F64.

(* ====================================================================== *)
(** ** Status derivation (get-story-status) *)
(* ====================================================================== *)

Module ChapterStats.
Record t := mk {
  total : nat;
  draft : nat;
  inProgress : nat;
  completed : nat;
  review : nat;
  needsRevision : nat;
  published : nat
}.
End ChapterStats.

Module CharacterStats.
Record t := mk {
  total : nat;
  protagonist : nat;
  antagonist : nat;
  supporting : nat;
  minor : nat;
  completed : nat
}.
End CharacterStats.

Module Counted.
Record t := mk { total : nat; completed : nat }.
End Counted.

Module Stats.
Record t := mk {
  premise : nat;
  chapters : ChapterStats.t;
  characters : CharacterStats.t;
  scenes : Counted.t;
  plotThreads : Counted.t
}.
End Stats.

Module Completion.
Record t := mk {
  overall : Z;
  chapters : Z;
  characters : Z;
  scenes : Z;
  plotThreads : Z
}.
End Completion.

Module Status.

(** [l.filter((x) => x.f === v).length] *)
Definition count_where {A : Type} (f : A -> string) (v : string) (l : list A)
  : nat :=
  List.length (filter (fun x => String.eqb (f x) v) l).

(** The [stats] object of [getStoryStatusDirect]. *)
Definition getStats (storyBible : StoryBible.t) : Stats.t :=
  let chapters := JS.arr_or (StoryBible.chapters storyBible) in
  let characters := JS.arr_or (StoryBible.characters storyBible) in
  let scenes := JS.arr_or (StoryBible.scenes storyBible) in
  let plotThreads := JS.arr_or (StoryBible.plotThreads storyBible) in
  Stats.mk
    (match StoryBible.premise storyBible with
     | Some premise =>
         if String.eqb (Premise.status premise) "completed" then 1%nat
         else 0%nat
     | None => 0%nat
     end)
    (ChapterStats.mk
       (List.length chapters)
       (count_where Chapter.status "draft" chapters)
       (count_where Chapter.status "in-progress" chapters)
       (count_where Chapter.status "completed" chapters)
       (count_where Chapter.status "review" chapters)
       (count_where Chapter.status "needs-revision" chapters)
       (count_where Chapter.status "published" chapters))
    (CharacterStats.mk
       (List.length characters)
       (count_where Character.characterType "protagonist" characters)
       (count_where Character.characterType "antagonist" characters)
       (count_where Character.characterType "supporting" characters)
       (count_where Character.characterType "minor" characters)
       (count_where Character.status "completed" characters))
    (Counted.mk (List.length scenes)
       (count_where Scene.status "completed" scenes))
    (Counted.mk (List.length plotThreads)
       (count_where PlotThread.status "completed" plotThreads)).

(** The [weights] table. *)
Definition weight_premise : float := 10%float.
Definition weight_chapters : float := 60%float.
Definition weight_characters : float := 20%float.
Definition weight_plotThreads : float := 10%float.

(** One [if (total > 0) { totalWeight += w; completedWeight += ... }]
    block on the pair of accumulators. *)
Definition add_category (acc : float * float) (total completed : nat)
    (w : float) : float * float :=
  if (0 <? total)%nat
  then (fst acc + w,
        snd acc + (F64.of_nat completed / F64.of_nat total) * w)%float
  else acc.

Definition calculateOverallCompletion (stats : Stats.t) : Z :=
  let acc := (0%float, 0%float) in
  let acc :=
    if (0 <? Stats.premise stats)%nat
    then (fst acc + weight_premise, snd acc + weight_premise)%float
    else acc in
  let acc :=
    add_category acc (ChapterStats.total (Stats.chapters stats))
      (ChapterStats.completed (Stats.chapters stats)) weight_chapters in
  let acc :=
    add_category acc (CharacterStats.total (Stats.characters stats))
      (CharacterStats.completed (Stats.characters stats))
      weight_characters in
  let acc :=
    add_category acc (Counted.total (Stats.plotThreads stats))
      (Counted.completed (Stats.plotThreads stats)) weight_plotThreads in
  let totalWeight := fst acc in
  let completedWeight := snd acc in
  if (0 <? totalWeight)%float
  then F64.Math_round ((completedWeight / totalWeight) * 100)%float
  else 0.

(** [total > 0 ? Math.round((completed / total) * 100) : 0] *)
Definition percent (completed total : nat) : Z :=
  if (0 <? total)%nat
  then F64.Math_round ((F64.of_nat completed / F64.of_nat total) * 100)%float
  else 0.

Definition getCompletion (stats : Stats.t) : Completion.t :=
  Completion.mk
    (calculateOverallCompletion stats)
    (percent (ChapterStats.completed (Stats.chapters stats))
       (ChapterStats.total (Stats.chapters stats)))
    (percent (CharacterStats.completed (Stats.characters stats))
       (CharacterStats.total (Stats.characters stats)))
    (percent (Counted.completed (Stats.scenes stats))
       (Counted.total (Stats.scenes stats)))
    (percent (Counted.completed (Stats.plotThreads stats))
       (Counted.total (Stats.plotThreads stats))).

(** The decision ladder of the recommended next steps. *)
Inductive NextStep :=
| CreatePremise
| GenerateFirstChapter
| CreateMainCharacters
| ContinueInProgress
| StartDrafts
| AddressRevisions
| RunConsistencyCheck.

Definition nextStep (stats : Stats.t) : NextStep :=
  if (Stats.premise stats =? 0)%nat then CreatePremise
  else if (ChapterStats.total (Stats.chapters stats) =? 0)%nat
  then GenerateFirstChapter
  else if (CharacterStats.total (Stats.characters stats) =? 0)%nat
  then CreateMainCharacters
  else if (0 <? ChapterStats.inProgress (Stats.chapters stats))%nat
  then ContinueInProgress
  else if (0 <? ChapterStats.draft (Stats.chapters stats))%nat
  then StartDrafts
  else if (0 <? ChapterStats.needsRevision (Stats.chapters stats))%nat
  then AddressRevisions
  else RunConsistencyCheck.

End Status.

(* ====================================================================== *)
(** ** Files, errors and the operations' results *)
(* ====================================================================== *)

Module Suggestion.
(** [{type: 'ai-analysis', content}] *)
Record t := mk { type : string; content : string }.
End Suggestion.

Module Fs.

(** The paths the operations touch, relative to the project root. *)
Inductive Path :=
| StoryBibleJson                       (* story-bible/story-bible.json *)
| CharactersDir                        (* characters/ *)
| ChaptersDir                          (* chapters/ *)
| CharacterFile (fileName : string)    (* characters/<fileName> *)
| ChapterFile (fileName : string)      (* chapters/<fileName> *)
| ConsistencyReport (ms : Z).          (* story-bible/consistency-report-<ms>.md *)

(** What is written: the serialised story bible, or a Markdown rendering
    of the data it mirrors. *)
Inductive Content :=
| BibleJson (storyBible : StoryBible.t)
| CharacterMarkdown (character : Character.t)
| ChapterMarkdown (chapter : Chapter.t) (characterNames : list string)
| ReportMarkdown (issues : list Issue.t) (suggestions : list Suggestion.t)
    (fixedIssues : list FixedIssue.t).

(** The mutating calls. *)
Inductive Op :=
| Mkdir (dir : Path)
| WriteFile (file : Path) (content : Content).

(** The state of [story-bible/story-bible.json] when an operation starts:
    absent ([fs.access] rejects), present but not JSON ([JSON.parse]
    throws), or present with a document. *)
Inductive BibleFile :=
| Missing
| Unparsable (message : string)
| Stored (storyBible : StoryBible.t).

End Fs.

Inductive JsError :=
| TypeError (message : string)
| SyntaxError (message : string)
| ServiceError (message : string)
| IoError (message : string)
| ZodError (message : string)
| PlainError (message : string).

Definition error_message (e : JsError) : string :=
  match e with
  | TypeError m => m
  | SyntaxError m => m
  | ServiceError m => m
  | IoError m => m
  | ZodError m => m
  | PlainError m => m
  end.

(** Computations that may throw and that log their file-system mutations;
    what was written before a throw stays written. *)
Module Eff.

Inductive Outcome (A : Type) :=
| Returned (a : A)
| Thrown (e : JsError).
Arguments Returned {A} a.
Arguments Thrown {A} e.

Definition M (A : Type) : Type := list Fs.Op -> Outcome A * list Fs.Op.

Definition ret {A : Type} (a : A) : M A := fun tr => (Returned a, tr).

Definition bind {A B : Type} (m : M A) (k : A -> M B) : M B :=
  fun tr =>
    match m tr with
    | (Returned a, tr') => k a tr'
    | (Thrown e, tr') => (Thrown e, tr')
    end.

Definition throw {A : Type} (e : JsError) : M A := fun tr => (Thrown e, tr).

Definition perform (op : Fs.Op) : M unit :=
  fun tr => (Returned tt, (tr ++ [op])%list).

(** [try { body } catch (error) { return handler(error) }] at the boundary
    of an operation: the result and the mutations performed. *)
Definition try_boundary {A : Type} (body : M A) (handler : JsError -> A)
  : A * list Fs.Op :=
  match body [] with
  | (Returned a, tr) => (a, tr)
  | (Thrown e, tr) => (handler e, tr)
  end.

End Eff.

Notation "x <- c1 ;; c2" := (Eff.bind c1 (fun x => c2))
  (at level 61, c1 at next level, right associativity).
Notation "c1 ;;; c2" := (Eff.bind c1 (fun _ => c2))
  (at level 61, right associativity).

(** The external generation service, as the operations observe it. *)
Module Service.

(** A parsed response as the code reads it: a falsy value ([null], [0],
    [false], ['']), or a truthy one with the properties the code reads. *)
Inductive Value (A : Type) :=
| Falsy
| Truthy (fields : A).
Arguments Falsy {A}.
Arguments Truthy {A} fields.

(** What [await generateTextService(...)] does: reject, resolve to a string
    (with what [JSON.parse] makes of it: [None] when it throws), or resolve
    to a value that is not a string. *)
Inductive Outcome (A : Type) :=
| Rejects (message : string)
| ReturnsText (text : string) (parsed : option (Value A))
| ReturnsValue (value : Value A).
Arguments Rejects {A} message.
Arguments ReturnsText {A} text parsed.
Arguments ReturnsValue {A} value.

(** [await generateTextService(...)] followed by
    [try { typeof r === 'string' ? JSON.parse(r) : r } catch { null }]. *)
Definition await_parsed {A : Type} (o : Outcome A) : Eff.M (Value A) :=
  match o with
  | Rejects m => Eff.throw (ServiceError m)
  | ReturnsText _ (Some v) => Eff.ret v
  | ReturnsText _ None => Eff.ret Falsy
  | ReturnsValue v => Eff.ret v
  end.

End Service.

(** The messages of the results.  Fixed texts are reproduced; the long
    success templates are kept as the values they interpolate. *)
Inductive Message :=
| Text (text : string)
| CharacterCreated (name characterType : string) (id : Z) (status : string)
    (file : Fs.Path)
| ChapterGenerated (chapter : Chapter.t) (isNewChapter : bool) (file : Fs.Path)
    (targetWordCount : Z)
| ConsistencyComplete (issues : list Issue.t) (fixedCount : nat)
    (chaptersAnalyzed charactersAnalyzed : nat) (checkType : string)
    (reportPath : option Fs.Path)
| StoryStatus (format : string) (title : string) (stats : Stats.t)
    (completion : Completion.t) (nextStep : option Status.NextStep)
| NoChaptersYet
| CreateNextChapter (chapterNumber : Z)
| NextChapterToWorkOn (chapter : Chapter.t) (reason : string)
    (scenes : list Scene.t) (nextScene : option Scene.t)
    (characters : list Character.t).

Module Result.
Record t (D : Type) := mk {
  success : bool;
  message : Message;
  data : option D;
  error : option string
}.
Arguments mk {D} success message data error.
Arguments success {D} t.
Arguments message {D} t.
Arguments data {D} t.
Arguments error {D} t.
End Result.

Module Common.

(** The advisory of the operations that need a story bible.  The literal
    of create-character starts with the bytes of a mis-encoded cross mark,
    the other four with the cross mark itself. *)
Definition advice : string :=
  " No story bible found. Run " ++ JS.quoted "parse-premise"
    ++ " first to set up your story structure.".

Definition cross_mark : string := "❌".
Definition cross_mark_misencoded : string := "‚ùå".

Definition noStoryBible {D : Type} (glyph : string) : Result.t D :=
  Result.mk false (Text (glyph ++ advice)) None (Some "Story bible not found").

(** The [catch] at the boundary of an operation. *)
Definition failed {D : Type} (what : string) (e : JsError) : Result.t D :=
  Result.mk false (Text ("Failed to " ++ what ++ ": " ++ error_message e))
    None (Some (error_message e)).

(** [storyBible.meta.updatedAt = now]: a [TypeError] without [meta]. *)
Definition touch (storyBible : StoryBible.t) (now : string)
  : Eff.M StoryBible.t :=
  match StoryBible.meta storyBible with
  | Some m =>
      Eff.ret (StoryBible.with_meta storyBible
                 (Some (Meta.with_updatedAt m now)))
  | None =>
      Eff.throw
        (TypeError "Cannot set properties of undefined (setting 'updatedAt')")
  end.

(** [JSON.parse(await fs.readFile(path))] once [fs.access] has passed. *)
Definition load (file : Fs.BibleFile) : Eff.M StoryBible.t :=
  match file with
  | Fs.Stored sb => Eff.ret sb
  | Fs.Unparsable m => Eff.throw (SyntaxError m)
  | Fs.Missing => Eff.throw (IoError "ENOENT: no such file or directory")
  end.

(** [l.length > 0 ? Math.max(...l.map(f)) + 1 : 1] *)
Definition nextId {A : Type} (f : A -> Z) (l : list A) : Z :=
  match JS.Math_max (map f l) with
  | Some m => m + 1
  | None => 1
  end.

End Common.

(* ====================================================================== *)
(** ** create-character *)
(* ====================================================================== *)

Module CreateCharacter.

Record Params := mkParams {
  name : string;
  characterType : string;
  description : option string;
  generateProfile : bool;
  generateArc : bool;
  generateVoice : bool;
  priority : string
}.

(** The properties read off the service's answer, with the types that
    [AiCharacterSchema], the schema the service is called with, gives
    them.  The code does not check them: it copies what [JSON.parse]
    returned, so the embedding covers the answers of that shape. *)
Record AiCharacter := mkAi {
  ai_description : option string;
  ai_motivations : option (list string);
  ai_fears : option (list string);
  ai_goals : option (list string);
  ai_traits : option (list string);
  ai_arc : option string
}.

Record Data := mkData {
  character : Character.t;
  filePath : Fs.Path;
  id : Z
}.

(** The profile assembled from the caller's fields alone. *)
Definition baseline (nextId : Z) (now : string) (p : Params) : Character.t :=
  Character.mk nextId "character" (name p)
    (JS.str_or (description p) (characterType p ++ " character"))
    (characterType p) "draft" (priority p) now now None None None.

(** [{...characterProfile, description, psychology, traits, arc}] *)
Definition enrich (profile : Character.t) (ai : AiCharacter) : Character.t :=
  Character.mk (Character.id profile) (Character.type profile)
    (Character.title profile)
    (JS.str_or (ai_description ai) (Character.description profile))
    (Character.characterType profile) (Character.status profile)
    (Character.priority profile) (Character.createdAt profile)
    (Character.updatedAt profile)
    (Some (Psychology.mk (JS.arr_or (ai_motivations ai))
             (JS.arr_or (ai_fears ai)) (JS.arr_or (ai_goals ai))))
    (Some (JS.arr_or (ai_traits ai)))
    (Some (Arc.mk (Some (JS.str_or (ai_arc ai) "To be developed")))).

(** [name.toLowerCase().replace(/[^a-z0-9]/g, '-')] *)
Definition slug_char (c : ascii) : ascii :=
  let n := nat_of_ascii c in
  if (Nat.leb 97 n && Nat.leb n 122) || (Nat.leb 48 n && Nat.leb n 57)
  then c else "-"%char.

Fixpoint slug (s : string) : string :=
  match s with
  | EmptyString => EmptyString
  | String c t => String (slug_char (JS.lower_ascii c)) (slug t)
  end.

Definition body (file : Fs.BibleFile) (now : string)
    (service : Service.Outcome AiCharacter) (p : Params)
  : Eff.M (Result.t Data) :=
  match file with
  | Fs.Missing =>
      Eff.ret (Common.noStoryBible Common.cross_mark_misencoded)
  | _ =>
      storyBible <- Common.load file ;;
      match StoryBible.premise storyBible with
      | None =>
          Eff.ret
            (Result.mk false
               (Text (Common.cross_mark_misencoded
                        ++ " No premise found in story bible. "
                        ++ "Complete premise setup first."))
               None (Some "Premise not found"))
      | Some premise =>
          let existingCharacters :=
            JS.arr_or (StoryBible.characters storyBible) in
          let nextId := Common.nextId Character.id existingCharacters in
          Eff.perform (Fs.Mkdir Fs.CharactersDir) ;;;
          characterProfile <-
            (if generateProfile p || generateArc p || generateVoice p
             then
               aiCharacter <- Service.await_parsed service ;;
               match aiCharacter with
               | Service.Truthy ai =>
                   Eff.ret (enrich (baseline nextId now p) ai)
               | Service.Falsy => Eff.ret (baseline nextId now p)
               end
             else Eff.ret (baseline nextId now p)) ;;
          let characterFilePath := Fs.CharacterFile (slug (name p) ++ ".md") in
          Eff.perform
            (Fs.WriteFile characterFilePath
               (Fs.CharacterMarkdown characterProfile)) ;;;
          let storyBible :=
            StoryBible.with_characters storyBible
              (Some (existingCharacters ++ [characterProfile])%list) in
          storyBible <- Common.touch storyBible now ;;
          Eff.perform
            (Fs.WriteFile Fs.StoryBibleJson (Fs.BibleJson storyBible)) ;;;
          Eff.ret
            (Result.mk true
               (CharacterCreated (name p) (characterType p) nextId
                  (Character.status characterProfile) characterFilePath)
               (Some (mkData characterProfile characterFilePath nextId))
               None)
      end
  end.

Definition createCharacterDirect (file : Fs.BibleFile) (now : string)
    (service : Service.Outcome AiCharacter) (p : Params)
  : Result.t Data * list Fs.Op :=
  Eff.try_boundary (body file now service p)
    (Common.failed "create character").

End CreateCharacter.

(* ====================================================================== *)
(** ** generate-chapter *)
(* ====================================================================== *)

Module GenerateChapter.

Record Params := mkParams {
  chapterId : option Z;
  chapterNumber : option Z;
  title : option string;
  purpose : option string;
  targetWordCount : Z;
  generateScenes : bool;
  sceneCount : Z;
  characters : option (list Z);
  plotThreads : option (list Z);
  conflicts : option (list string);
  generateContent : bool;
  priority : string
}.

(** The properties read off the service's answer, typed as
    [AiChapterSchema] declares them. *)
Record AiChapter := mkAi {
  ai_title : option string;
  ai_description : option string;
  ai_purpose : option string;
  ai_conflicts : option (list string);
  ai_plotAdvancement : option string;
  ai_characterMoments : option (list string)
}.

Record Data := mkData {
  chapter : Chapter.t;
  filePath : Fs.Path;
  isNewChapter : bool;
  sceneCountOut : nat
}.

(** The chapter created when no [chapterId] is given. *)
Definition newChapter (existingChapters : list Chapter.t) (now : string)
    (p : Params) : Chapter.t :=
  let nextId := Common.nextId Chapter.id existingChapters in
  let nextChapterNum :=
    JS.num_or (chapterNumber p)
      (Common.nextId (fun c => JS.num_or (Chapter.chapterNumber c) 0)
         existingChapters) in
  Chapter.mk nextId "chapter"
    (JS.str_or (title p) ("Chapter " ++ JS.Number_toString nextChapterNum))
    (Some nextChapterNum)
    (JS.str_or (purpose p) "Chapter description to be developed")
    (JS.str_or (purpose p) "Chapter purpose to be defined")
    "draft" (priority p)
    (Some (JS.arr_or (characters p)))
    (Some (JS.arr_or (plotThreads p)))
    (Some (JS.arr_or (conflicts p)))
    (Some [])
    (Some (targetWordCount p))
    None None None now now.

(** The assignments made when the service's answer is truthy. *)
Definition enrich (c : Chapter.t) (ai : AiChapter) : Chapter.t :=
  Chapter.mk (Chapter.id c) (Chapter.type c)
    (JS.str_or (ai_title ai) (Chapter.title c))
    (Chapter.chapterNumber c)
    (JS.str_or (ai_description ai) (Chapter.description c))
    (JS.str_or (ai_purpose ai) (Chapter.purpose c))
    (Chapter.status c) (Chapter.priority c) (Chapter.characters c)
    (Chapter.plotThreads c)
    (match ai_conflicts ai with
     | Some l => Some l
     | None => Chapter.conflicts c
     end)
    (Chapter.scenes c) (Chapter.targetWordCount c)
    (ai_plotAdvancement ai)
    (Some (map (fun moment => CharacterMoment.mk None None (Some moment))
             (JS.arr_or (ai_characterMoments ai))))
    (Chapter.pov c) (Chapter.createdAt c) (Chapter.updatedAt c).

(** The placeholder scene number [i] of the chapter. *)
Definition placeholderScene (existingSceneCount : Z) (c : Chapter.t)
    (now : string) (i : Z) : Scene.t :=
  Scene.mk (existingSceneCount + i) "scene"
    (Chapter.title c ++ " - Scene " ++ JS.Number_toString i)
    ("Scene " ++ JS.Number_toString i ++ " of chapter "
      ++ match Chapter.chapterNumber c with
         | Some n => JS.Number_toString n
         | None => "undefined"
         end)
    "dialogue" (Chapter.id c) (Some (JS.arr_or (Chapter.characters c)))
    "To be determined"
    ("Advance chapter goals - scene " ++ JS.Number_toString i)
    "draft" "medium" now now.

(** [for (let i = 1; i <= sceneCount; i++)] *)
Definition sceneIndices (sceneCount : Z) : list Z :=
  map (fun k => Z.of_nat k + 1) (seq 0 (Z.to_nat sceneCount)).

(** The scene loop: the new scenes and the chapter with their ids pushed;
    [workingChapter.scenes.push] throws when the chapter has no [scenes]
    and at least one scene is generated. *)
Definition addScenes (storyBible : StoryBible.t) (c : Chapter.t)
    (now : string) (sceneCount : Z) : Eff.M (list Scene.t * Chapter.t) :=
  let existing :=
    match StoryBible.scenes storyBible with
    | Some l => Z.of_nat (List.length l)
    | None => 0
    end in
  let scenes := map (placeholderScene existing c now) (sceneIndices sceneCount) in
  match scenes, Chapter.scenes c with
  | [], _ => Eff.ret ([], c)
  | _ :: _, Some ids =>
      Eff.ret (scenes,
               Chapter.with_scenes c (Some (ids ++ map Scene.id scenes)%list))
  | _ :: _, None =>
      Eff.throw
        (TypeError "Cannot read properties of undefined (reading 'push')")
  end.

(** [n.toString().padStart(2, '0')] *)
Definition pad2 (n : Z) : string :=
  let s := JS.Number_toString n in
  if (String.length s <? 2)%nat then "0" ++ s else s.

Definition body (file : Fs.BibleFile) (now : string)
    (service : Service.Outcome AiChapter) (p : Params)
  : Eff.M (Result.t Data) :=
  match file with
  | Fs.Missing => Eff.ret (Common.noStoryBible Common.cross_mark)
  | _ =>
      storyBible <- Common.load file ;;
      let existingChapters := JS.arr_or (StoryBible.chapters storyBible) in
      let existingCharacters :=
        JS.arr_or (StoryBible.characters storyBible) in
      let selected :=
        if JS.truthy_num (chapterId p)
        then match find (fun c => Chapter.id c =? JS.num_or (chapterId p) 0)
                     existingChapters with
             | Some c => Some (c, false)
             | None => None
             end
        else Some (newChapter existingChapters now p, true) in
      match selected with
      | None =>
          Eff.ret
            (Result.mk false
               (Text (Common.cross_mark ++ " Chapter with ID "
                        ++ JS.Number_toString (JS.num_or (chapterId p) 0)
                        ++ " not found."))
               None (Some "Chapter not found"))
      | Some (workingChapter, isNew) =>
          Eff.perform (Fs.Mkdir Fs.ChaptersDir) ;;;
          let characterNames :=
            map Character.title
              (filter (fun c => JS.opt_includes
                                  (Chapter.characters workingChapter)
                                  (Character.id c)) existingCharacters) in
          aiChapter <- Service.await_parsed service ;;
          let workingChapter :=
            match aiChapter with
            | Service.Truthy ai => enrich workingChapter ai
            | Service.Falsy => workingChapter
            end in
          generated <-
            (if generateScenes p
             then
               r <- addScenes storyBible workingChapter now (sceneCount p) ;;
               Eff.ret
                 (StoryBible.with_scenes storyBible
                    (Some (JS.arr_or (StoryBible.scenes storyBible)
                             ++ fst r)%list),
                  snd r)
             else Eff.ret (storyBible, workingChapter)) ;;
          let storyBible := fst generated in
          let workingChapter := snd generated in
          match Chapter.chapterNumber workingChapter with
          | None =>
              Eff.throw
                (TypeError
                   "Cannot read properties of undefined (reading 'toString')")
          | Some number =>
              let chapterFilePath :=
                Fs.ChapterFile ("chapter-" ++ pad2 number ++ ".md") in
              Eff.perform
                (Fs.WriteFile chapterFilePath
                   (Fs.ChapterMarkdown workingChapter characterNames)) ;;;
              let storyBible :=
                if isNew
                then StoryBible.with_chapters storyBible
                       (Some (existingChapters ++ [workingChapter])%list)
                else StoryBible.with_chapters storyBible
                       (Some (Checker.update_first (Chapter.id workingChapter)
                                (fun _ => workingChapter) existingChapters)) in
              storyBible <- Common.touch storyBible now ;;
              Eff.perform
                (Fs.WriteFile Fs.StoryBibleJson (Fs.BibleJson storyBible)) ;;;
              Eff.ret
                (Result.mk true
                   (ChapterGenerated workingChapter isNew chapterFilePath
                      (targetWordCount p))
                   (Some (mkData workingChapter chapterFilePath isNew
                            (List.length
                               (JS.arr_or (Chapter.scenes workingChapter)))))
                   None)
          end
      end
  end.

Definition generateChapterDirect (file : Fs.BibleFile) (now : string)
    (service : Service.Outcome AiChapter) (p : Params)
  : Result.t Data * list Fs.Op :=
  Eff.try_boundary (body file now service p)
    (Common.failed "generate chapter").

End GenerateChapter.

(* ====================================================================== *)
(** ** next-chapter *)
(* ====================================================================== *)

Module NextChapter.

Record Params := mkParams {
  status : option string;
  priority : option string;
  includeScenes : bool;
  characterFocus : option string;
  plotThread : option string
}.

Record Data := mkData {
  nextChapter : option Chapter.t;
  reason : option string;
  scenes : option (list Scene.t);
  recommendation : option string;
  chapterNumber : option Z;
  completedChapters : option nat;
  totalChapters : option nat
}.

(** [priorityOrder[p] || 2] *)
Definition priorityOrder (p : string) : Z :=
  if String.eqb p "high" then 3
  else if String.eqb p "medium" then 2
  else if String.eqb p "low" then 1
  else 2.

(** The comparator of the sort of the draft chapters. *)
Definition compareDrafts (a b : Chapter.t) : Z :=
  let priorityDiff :=
    priorityOrder (Chapter.priority b) - priorityOrder (Chapter.priority a) in
  if negb (priorityDiff =? 0) then priorityDiff
  else JS.num_or (Chapter.chapterNumber a) 999
       - JS.num_or (Chapter.chapterNumber b) 999.

(** [Array.prototype.sort] with a comparator: a stable sort. *)
Fixpoint insert_by (cmp : Chapter.t -> Chapter.t -> Z) (x : Chapter.t)
    (l : list Chapter.t) : list Chapter.t :=
  match l with
  | [] => [x]
  | y :: t => if cmp x y <=? 0 then x :: y :: t else y :: insert_by cmp x t
  end.

Definition sort_by (cmp : Chapter.t -> Chapter.t -> Z) (l : list Chapter.t)
  : list Chapter.t :=
  fold_right (insert_by cmp) [] l.

Section WithParseInt.

(** [parseInt] of the runtime. *)
Variable parseInt : string -> option Z.

(** [focus && !ids?.includes(parseInt(focus))] *)
Definition excluded_by (focus : option string) (ids : option (list Z))
  : bool :=
  JS.truthy_str focus
  && negb match focus with
          | Some s =>
              match parseInt s with
              | Some k => JS.opt_includes ids k
              | None => false
              end
          | None => false
          end.

Definition candidate (p : Params) (chapter : Chapter.t) : bool :=
  if JS.truthy_str (status p)
     && negb (String.eqb (Chapter.status chapter) (JS.str_or (status p) ""))
  then false
  else if JS.truthy_str (priority p)
          && negb (String.eqb (Chapter.priority chapter)
                     (JS.str_or (priority p) ""))
  then false
  else if excluded_by (characterFocus p) (Chapter.characters chapter)
  then false
  else if excluded_by (plotThread p) (Chapter.plotThreads chapter)
  then false
  else true.

(** The workflow ladder: in progress, then needing revision, then the
    first draft in priority and chapter order. *)
Definition pick (candidateChapters : list Chapter.t)
  : option (Chapter.t * string) :=
  match filter (fun c => String.eqb (Chapter.status c) "in-progress")
          candidateChapters with
  | c :: _ => Some (c, "Continue working on chapter already in progress")
  | [] =>
      match filter (fun c => String.eqb (Chapter.status c) "needs-revision")
              candidateChapters with
      | c :: _ => Some (c, "Address revision feedback")
      | [] =>
          match sort_by compareDrafts
                  (filter (fun c => String.eqb (Chapter.status c) "draft")
                     candidateChapters) with
          | c :: _ => Some (c, "Continue story progression")
          | [] => None
          end
      end
  end.

Definition body (file : Fs.BibleFile) (p : Params)
  : Eff.M (Result.t Data) :=
  match file with
  | Fs.Missing => Eff.ret (Common.noStoryBible Common.cross_mark)
  | _ =>
      storyBible <- Common.load file ;;
      let chapters := JS.arr_or (StoryBible.chapters storyBible) in
      match chapters with
      | [] =>
          Eff.ret
            (Result.mk true NoChaptersYet
               (Some (mkData None None None (Some "Create first chapter")
                        (Some 1) None None))
               None)
      | _ :: _ =>
          match pick (filter (candidate p) chapters) with
          | None =>
              let nextChapterNumber :=
                Common.nextId
                  (fun c => JS.num_or (Chapter.chapterNumber c) 0)
                  chapters in
              Eff.ret
                (Result.mk true (CreateNextChapter nextChapterNumber)
                   (Some (mkData None None None (Some "Create next chapter")
                            (Some nextChapterNumber)
                            (Some (Status.count_where Chapter.status
                                     "completed" chapters))
                            (Some (List.length chapters))))
                   None)
          | Some (next, why) =>
              let allScenes := JS.arr_or (StoryBible.scenes storyBible) in
              let chapterScenes :=
                filter (fun s => JS.opt_includes (Chapter.scenes next)
                                   (Scene.id s)) allScenes in
              let shownScenes :=
                if includeScenes p then chapterScenes else [] in
              let nextScene :=
                find (fun s => String.eqb (Scene.status s) "draft"
                               || String.eqb (Scene.status s) "in-progress")
                  shownScenes in
              let chapterCharacters :=
                filter (fun c => JS.opt_includes (Chapter.characters next)
                                   (Character.id c))
                  (JS.arr_or (StoryBible.characters storyBible)) in
              Eff.ret
                (Result.mk true
                   (NextChapterToWorkOn next why shownScenes nextScene
                      chapterCharacters)
                   (Some (mkData (Some next) (Some why)
                            (if includeScenes p then Some chapterScenes
                             else None)
                            None None None None))
                   None)
          end
      end
  end.

Definition nextChapterDirect (file : Fs.BibleFile) (p : Params)
  : Result.t Data * list Fs.Op :=
  Eff.try_boundary (body file p) (Common.failed "find next chapter").

End WithParseInt.

End NextChapter.

(* ====================================================================== *)
(** ** get-story-status *)
(* ====================================================================== *)

Module GetStoryStatus.

Record Params := mkParams {
  includeChapters : bool;
  includeCharacters : bool;
  includePlotThreads : bool;
  includeWordCounts : bool;
  includeNextSteps : bool;
  format : string
}.

Record Data := mkData {
  stats : Stats.t;
  completion : Completion.t;
  meta : option Meta.t;
  chapters : option (list Chapter.t);
  characters : option (list Character.t);
  plotThreads : option (list PlotThread.t)
}.

Definition body (file : Fs.BibleFile) (p : Params) : Eff.M (Result.t Data) :=
  match file with
  | Fs.Missing => Eff.ret (Common.noStoryBible Common.cross_mark)
  | _ =>
      storyBible <- Common.load file ;;
      let stats := Status.getStats storyBible in
      let completion := Status.getCompletion stats in
      let title :=
        JS.str_or match StoryBible.meta storyBible with
                  | Some m => Meta.title m
                  | None => None
                  end "Untitled Story" in
      let detailed :=
        negb (String.eqb (format p) "summary")
        && negb (String.eqb (format p) "table") in
      Eff.ret
        (Result.mk true
           (StoryStatus (format p) title stats completion
              (if detailed && includeNextSteps p
               then Some (Status.nextStep stats) else None))
           (Some (mkData stats completion (StoryBible.meta storyBible)
                    (if includeChapters p
                     then Some (JS.arr_or (StoryBible.chapters storyBible))
                     else None)
                    (if includeCharacters p
                     then Some (JS.arr_or (StoryBible.characters storyBible))
                     else None)
                    (if includePlotThreads p
                     then Some (JS.arr_or (StoryBible.plotThreads storyBible))
                     else None)))
           None)
  end.

Definition getStoryStatusDirect (file : Fs.BibleFile) (p : Params)
  : Result.t Data * list Fs.Op :=
  Eff.try_boundary (body file p) (Common.failed "get story status").

End GetStoryStatus.

(* ====================================================================== *)
(** ** check-consistency *)
(* ====================================================================== *)

Module CheckConsistency.

Record RunStats := mkStats {
  totalIssues : nat;
  fixedIssuesCount : nat;
  chaptersAnalyzed : nat;
  charactersAnalyzed : nat
}.

Record Data := mkData {
  issues : list Issue.t;
  suggestions : list Suggestion.t;
  fixedIssues : list FixedIssue.t;
  reportPath : option Fs.Path;
  stats : RunStats
}.

(** The clock and the generation service as this operation reads them:
    [analysis] is the answer to the advisory request, [None] when the
    request rejects. *)
Record Env := mkEnv {
  now : string;
  nowMs : Z;
  analysis : option string
}.

Definition body (file : Fs.BibleFile) (env : Env) (p : Checker.Params)
  : Eff.M (Result.t Data) :=
  match file with
  | Fs.Missing => Eff.ret (Common.noStoryBible Common.cross_mark)
  | _ =>
      storyBible <- Common.load file ;;
      let characters := JS.arr_or (StoryBible.characters storyBible) in
      let target := Checker.targetChapters storyBible p in
      let issues := Checker.detectIssues storyBible p in
      let suggestions :=
        match issues with
        | _ :: _ =>
            if Checker.session p
            then match analysis env with
                 | Some content => [Suggestion.mk "ai-analysis" content]
                 | None => []
                 end
            else []
        | [] => []
        end in
      fixedIssues <-
        (match issues with
         | _ :: _ =>
             if Checker.autoFix p
             then
               let r := Checker.autoFixIssues issues storyBible
                          (Checker.fixMode p) (now env) in
               match fst r with
               | _ :: _ =>
                   storyBible' <- Common.touch (snd r) (now env) ;;
                   Eff.perform
                     (Fs.WriteFile Fs.StoryBibleJson
                        (Fs.BibleJson storyBible')) ;;;
                   Eff.ret (fst r)
               | [] => Eff.ret []
               end
             else Eff.ret []
         | [] => Eff.ret []
         end) ;;
      reportPath <-
        (if Checker.generateReport p
         then
           Eff.perform
             (Fs.WriteFile (Fs.ConsistencyReport (nowMs env))
                (Fs.ReportMarkdown issues suggestions fixedIssues)) ;;;
           Eff.ret (Some (Fs.ConsistencyReport (nowMs env)))
         else Eff.ret None) ;;
      Eff.ret
        (Result.mk true
           (ConsistencyComplete issues (List.length fixedIssues)
              (List.length target) (List.length characters)
              (Checker.checkType p) reportPath)
           (Some (mkData issues suggestions fixedIssues reportPath
                    (mkStats (List.length issues) (List.length fixedIssues)
                       (List.length target) (List.length characters))))
           None)
  end.

Definition checkConsistencyDirect (file : Fs.BibleFile) (env : Env)
    (p : Checker.Params) : Result.t Data * list Fs.Op :=
  Eff.try_boundary (body file env p) (Common.failed "check consistency").

End CheckConsistency.

(* ====================================================================== *)
(** ** Element schemas (story-schema.js) *)
(* ====================================================================== *)

Module Json.

(** JSON values; the numbers of the model are integers. *)
Inductive t :=
| Null
| Bool (b : bool)
| Num (n : Z)
| Str (s : string)
| Arr (items : list t)
| Obj (fields : list (string * t)).

Fixpoint lookup {A : Type} (k : string) (fields : list (string * A))
  : option A :=
  match fields with
  | [] => None
  | (k', v) :: rest => if String.eqb k' k then Some v else lookup k rest
  end.

End Json.

Module Zod.

(** The schema combinators the source uses. *)
Inductive Schema :=
| ZString (minLength : nat)            (* z.string(), z.string().min(n) *)
| ZNumber (positive : bool)            (* z.number().int(), with .positive() *)
| ZBoolean                             (* z.boolean() *)
| ZEnum (options : list string)        (* z.enum([...]) *)
| ZLiteral (value : string)            (* z.literal('...') *)
| ZArray (item : Schema)               (* z.array(item) *)
| ZObject (shape : list (string * Schema))   (* z.object({...}) *)
| ZOptional (inner : Schema).          (* inner.optional() *)

Definition is_optional (s : Schema) : bool :=
  match s with
  | ZOptional _ => true
  | _ => false
  end.

(** Whether [schema.parse(v)] succeeds. *)
Fixpoint accepts (s : Schema) (v : Json.t) {struct s} : bool :=
  match s with
  | ZString n =>
      match v with
      | Json.Str x => (n <=? String.length x)%nat
      | _ => false
      end
  | ZNumber positive =>
      match v with
      | Json.Num n => if positive then 0 <? n else true
      | _ => false
      end
  | ZBoolean =>
      match v with
      | Json.Bool _ => true
      | _ => false
      end
  | ZEnum options =>
      match v with
      | Json.Str x => existsb (String.eqb x) options
      | _ => false
      end
  | ZLiteral value =>
      match v with
      | Json.Str x => String.eqb x value
      | _ => false
      end
  | ZArray item =>
      match v with
      | Json.Arr items => forallb (accepts item) items
      | _ => false
      end
  | ZObject shape =>
      match v with
      | Json.Obj fields =>
          (fix all (sh : list (string * Schema)) : bool :=
             match sh with
             | [] => true
             | (k, fs) :: rest =>
                 match Json.lookup k fields with
                 | Some x => accepts fs x
                 | None => is_optional fs
                 end && all rest
             end) shape
      | _ => false
      end
  | ZOptional inner => accepts inner v
  end.

(** The value [schema.parse(v)] returns on success: objects keep the keys
    of the shape only. *)
Fixpoint strip (s : Schema) (v : Json.t) {struct s} : Json.t :=
  match s with
  | ZArray item =>
      match v with
      | Json.Arr items => Json.Arr (map (strip item) items)
      | _ => v
      end
  | ZObject shape =>
      match v with
      | Json.Obj fields =>
          Json.Obj
            ((fix keep (sh : list (string * Schema))
                : list (string * Json.t) :=
                match sh with
                | [] => []
                | (k, fs) :: rest =>
                    match Json.lookup k fields with
                    | Some x => (k, strip fs x) :: keep rest
                    | None => keep rest
                    end
                end) shape)
      | _ => v
      end
  | ZOptional inner => strip inner v
  | _ => v
  end.

Definition parse (s : Schema) (v : Json.t) : option Json.t :=
  if accepts s v then Some (strip s v) else None.

(** [base.extend(ext)]: the keys of [ext] replace those of [base]. *)
Definition extend (base ext : list (string * Schema))
  : list (string * Schema) :=
  (map (fun kv => match Json.lookup (fst kv) ext with
                  | Some s => (fst kv, s)
                  | None => kv
                  end) base
   ++ filter (fun kv => match Json.lookup (fst kv) base with
                        | Some _ => false
                        | None => true
                        end) ext)%list.

Definition zstring : Schema := ZString 0.
Definition zint : Schema := ZNumber false.
Definition zposint : Schema := ZNumber true.

End Zod.

Module Schemas.
Import Zod.

(** story-elements.js *)
Definition STORY_ELEMENT_TYPES : list string :=
  ["premise"; "outline"; "character"; "chapter"; "scene"; "plot-thread"].

Definition STORY_STRUCTURE_TYPES : list string :=
  ["save-the-cat"; "hero-journey"; "three-act"; "seven-point";
   "genre-specific"].

Definition CHARACTER_TYPES : list string :=
  ["protagonist"; "antagonist"; "supporting"; "minor"].

Definition SCENE_TYPES : list string :=
  ["action"; "dialogue"; "exposition"; "climax"; "transition"; "flashback"].

Definition GENRE_TYPES : list string :=
  ["fantasy"; "romance"; "thriller"; "mystery"; "science-fiction";
   "literary"; "young-adult"; "horror"; "historical"].

(** Modelled from the spec: [STORY_STATUS_OPTIONS] of story-status.js, a
    file that is not among the sources; the specification enumerates the
    status values as draft, in-progress, review, needs-revision, completed
    and published. *)
Definition STORY_STATUS_OPTIONS : list string :=
  ["draft"; "in-progress"; "review"; "needs-revision"; "completed";
   "published"].

Definition PRIORITIES : list string := ["high"; "medium"; "low"].

Definition BaseStoryElementShape : list (string * Schema) :=
  [("id", zposint);
   ("type", ZEnum STORY_ELEMENT_TYPES);
   ("title", ZString 1);
   ("description", zstring);
   ("status", ZEnum STORY_STATUS_OPTIONS);
   ("priority", ZEnum PRIORITIES);
   ("dependencies", ZOptional (ZArray zint));
   ("tags", ZOptional (ZArray zstring));
   ("notes", ZOptional zstring);
   ("createdAt", zstring);
   ("updatedAt", zstring)].

Definition BaseStoryElementSchema : Schema := ZObject BaseStoryElementShape.

Definition PremiseSchema : Schema :=
  ZObject (extend BaseStoryElementShape
    [("type", ZLiteral "premise");
     ("content", zstring);
     ("genre", ZEnum GENRE_TYPES);
     ("targetAudience", ZOptional zstring);
     ("themes", ZOptional (ZArray zstring));
     ("wordCountTarget", ZOptional zposint)]).

Definition OutlineSchema : Schema :=
  ZObject (extend BaseStoryElementShape
    [("type", ZLiteral "outline");
     ("structureType", ZEnum STORY_STRUCTURE_TYPES);
     ("acts", ZOptional (ZArray (ZObject
        [("id", zposint);
         ("title", zstring);
         ("description", zstring);
         ("chapters", ZOptional (ZArray zint))])));
     ("plotThreads", ZOptional (ZArray zint));
     ("characterArcs", ZOptional (ZArray zint));
     ("pacing", ZOptional (ZObject
        [("openingHook", ZOptional zstring);
         ("incitingIncident", ZOptional zstring);
         ("midpoint", ZOptional zstring);
         ("climax", ZOptional zstring);
         ("resolution", ZOptional zstring)]))]).

Definition CharacterSchema : Schema :=
  ZObject (extend BaseStoryElementShape
    [("type", ZLiteral "character");
     ("characterType", ZEnum CHARACTER_TYPES);
     ("biography", ZOptional (ZObject
        [("age", ZOptional zint);
         ("background", ZOptional zstring);
         ("occupation", ZOptional zstring);
         ("relationships", ZOptional (ZArray (ZObject
            [("characterId", zint);
             ("relationship", zstring)])))]));
     ("psychology", ZOptional (ZObject
        [("motivations", ZOptional (ZArray zstring));
         ("fears", ZOptional (ZArray zstring));
         ("goals", ZOptional (ZArray zstring));
         ("flaws", ZOptional (ZArray zstring));
         ("strengths", ZOptional (ZArray zstring))]));
     ("arc", ZOptional (ZObject
        [("startingState", ZOptional zstring);
         ("midpointState", ZOptional zstring);
         ("endingState", ZOptional zstring);
         ("keyMoments", ZOptional (ZArray zstring))]));
     ("voice", ZOptional (ZObject
        [("speechPatterns", ZOptional (ZArray zstring));
         ("vocabulary", ZOptional zstring);
         ("tone", ZOptional zstring);
         ("distinctiveFeatures", ZOptional (ZArray zstring))]));
     ("appearance", ZOptional zstring);
     ("traits", ZOptional (ZArray zstring))]).

Definition ChapterSchema : Schema :=
  ZObject (extend BaseStoryElementShape
    [("type", ZLiteral "chapter");
     ("chapterNumber", zposint);
     ("scenes", ZOptional (ZArray zint));
     ("purpose", zstring);
     ("conflicts", ZOptional (ZArray zstring));
     ("characterMoments", ZOptional (ZArray (ZObject
        [("characterId", zint);
         ("development", zstring)])));
     ("plotAdvancement", ZOptional zstring);
     ("wordCountTarget", ZOptional zposint);
     ("content", ZOptional zstring)]).

Definition SceneSchema : Schema :=
  ZObject (extend BaseStoryElementShape
    [("type", ZLiteral "scene");
     ("sceneType", ZEnum SCENE_TYPES);
     ("chapterId", zint);
     ("characters", ZArray zint);
     ("setting", zstring);
     ("purpose", zstring);
     ("conflict", ZOptional zstring);
     ("dialogue", ZOptional ZBoolean);
     ("action", ZOptional ZBoolean);
     ("pov", ZOptional zint);
     ("content", ZOptional zstring);
     ("beats", ZOptional (ZArray zstring))]).

Definition PlotThreadSchema : Schema :=
  ZObject (extend BaseStoryElementShape
    [("type", ZLiteral "plot-thread");
     ("threadType", ZEnum ["main"; "subplot"; "character-arc"]);
     ("introduction", ZOptional zstring);
     ("development", ZOptional (ZArray zstring));
     ("resolution", ZOptional zstring);
     ("characters", ZOptional (ZArray zint));
     ("chapters", ZOptional (ZArray zint))]).

(** The [schemas] table of [validateStoryElement]. *)
Definition schemas : list (string * Schema) :=
  [("premise", PremiseSchema);
   ("outline", OutlineSchema);
   ("character", CharacterSchema);
   ("chapter", ChapterSchema);
   ("scene", SceneSchema);
   ("plot-thread", PlotThreadSchema)].

(** [validateStoryElement(element, type)]: the parsed element, or the
    error thrown. *)
Definition validateStoryElement (element : Json.t) (type : string)
  : Eff.Outcome Json.t :=
  match Json.lookup type schemas with
  | None => Eff.Thrown (PlainError ("Unknown story element type: " ++ type))
  | Some schema =>
      match parse schema element with
      | Some parsed => Eff.Returned parsed
      | None => Eff.Thrown (ZodError "Invalid input")
      end
  end.

(* -------------------------------------------------------------------- *)
(** *** The serialised form of a character ([JSON.stringify]) *)

Definition strings (l : list string) : Json.t := Json.Arr (map Json.Str l).

Definition optional_field {A : Type} (k : string) (f : A -> Json.t)
    (x : option A) : list (string * Json.t) :=
  match x with
  | Some a => [(k, f a)]
  | None => []
  end.

Definition psychologyToJson (p : Psychology.t) : Json.t :=
  Json.Obj [("motivations", strings (Psychology.motivations p));
            ("fears", strings (Psychology.fears p));
            ("goals", strings (Psychology.goals p))].

Definition arcToJson (a : Arc.t) : Json.t :=
  Json.Obj (optional_field "summary" Json.Str (Arc.summary a)).

Definition characterToJson (c : Character.t) : Json.t :=
  Json.Obj
    ([("id", Json.Num (Character.id c));
      ("type", Json.Str (Character.type c));
      ("title", Json.Str (Character.title c));
      ("description", Json.Str (Character.description c));
      ("characterType", Json.Str (Character.characterType c));
      ("status", Json.Str (Character.status c));
      ("priority", Json.Str (Character.priority c));
      ("createdAt", Json.Str (Character.createdAt c));
      ("updatedAt", Json.Str (Character.updatedAt c))]
     ++ optional_field "psychology" psychologyToJson (Character.psychology c)
     ++ optional_field "traits" strings (Character.traits c)
     ++ optional_field "arc" arcToJson (Character.arc c))%list.

End Schemas.

(* ====================================================================== *)
(** ** The specification's wording of the rules, for comparison *)
(* ====================================================================== *)

Module SpecWording.

(** The character check on a whole story bible. *)
Definition characterCheck (storyBible : StoryBible.t) : list Issue.t :=
  Checker.checkCharacterConsistency
    (JS.arr_or (StoryBible.characters storyBible))
    (JS.arr_or (StoryBible.chapters storyBible))
    (JS.arr_or (StoryBible.scenes storyBible)).

(** Whether auto-fix has anything to do with an issue in [conservative]
    mode: the issue passes the severity gate and its type has a fix. *)
Definition conservative_candidate (i : Issue.t) : bool :=
  String.eqb (Issue.severity i) "minor"
  && String.eqb (Issue.type i) "character-unlisted".

(** A [plot-thread-unresolved] issue naming the thread [id]. *)
Definition unresolved_for (id : Z) (i : Issue.t) : bool :=
  Issue.has_type "plot-thread-unresolved" i
  && match Issue.plotThreadId i with
     | Some k => k =? id
     | None => false
     end.

(** "Ascending-sorted distinct chapter numbers". *)
Definition sorted_distinct (nums : list Z) : list Z :=
  JS.sort_numbers (nodup Z.eq_dec nums).

(** The adjacent pairs of a list. *)
Definition adjacent_pairs (l : list Z) : list (Z * Z) := combine l (tl l).

(** "Differing by more than 1". *)
Definition wide (ab : Z * Z) : bool := 1 <? snd ab - fst ab.

(** "Any adjacent pair differing by more than 1". *)
Definition gap_pairs (nums : list Z) : list (Z * Z) :=
  filter wide (adjacent_pairs (sorted_distinct nums)).

(** "Chapter numbers occurring more than once". *)
Definition repeated_numbers (nums : list Z) : list Z :=
  filter (fun n => (1 <? count_occ Z.eq_dec nums n)%nat) (sorted_distinct nums).

(** The arc summary of a character, absent when the character has no arc. *)
Definition arc_summary (c : Character.t) : option string :=
  match Character.arc c with
  | Some a => Arc.summary a
  | None => None
  end.

(** "Its arc summary is empty or the literal placeholder". *)
Definition arc_summary_empty_or_placeholder (c : Character.t) : bool :=
  negb (JS.truthy_str (arc_summary c))
  || match arc_summary c with
     | Some s => String.eqb s "To be developed"
     | None => false
     end.

(** "Appears in more than one chapter": listed by more than one of them. *)
Definition appears_in_several (c : Character.t) (chapters : list Chapter.t)
  : bool :=
  (1 <? List.length
          (filter (fun ch => JS.opt_includes (Chapter.characters ch)
                               (Character.id c)) chapters))%nat.

(** A chapter without a number: [chapterNumber] missing or [0]. *)
Definition unnumbered (c : Chapter.t) : bool :=
  JS.num_or (Chapter.chapterNumber c) 0 =? 0.

(** The story bible without its unnumbered chapters. *)
Definition numbered_only (storyBible : StoryBible.t) : StoryBible.t :=
  StoryBible.with_chapters storyBible
    (Some (filter (fun c => negb (unnumbered c))
             (JS.arr_or (StoryBible.chapters storyBible)))).










(** The exact value of a binary64 number, when it is finite. *)
Definition value (x : float) : option Q :=
  match Prim2SF x with
  | S754_zero _ => Some 0%Q
  | S754_finite s m e =>
      Some (inject_Z (if s then Z.neg m else Z.pos m) * 2 ^ e)%Q
  | _ => None
  end.



(** "The generation service fails": its call errors, or it returns text
    that cannot be parsed. *)
Definition service_failed {A : Type} (o : Service.Outcome A) : bool :=
  match o with
  | Service.Rejects _ => true
  | Service.ReturnsText _ None => true
  | _ => false
  end.

(** "The element satisfies its schema", for a character as persisted. *)
Definition character_valid (c : Character.t) : bool :=
  Zod.accepts Schemas.CharacterSchema (Schemas.characterToJson c).

(** The characters of the story bible documents an operation wrote. *)
Definition persisted_characters (trace : list Fs.Op) : list Character.t :=
  flat_map (fun op => match op with
                      | Fs.WriteFile Fs.StoryBibleJson (Fs.BibleJson sb) =>
                          JS.arr_or (StoryBible.characters sb)
                      | _ => []
                      end) trace.

(** Whether an operation wrote the story bible document. *)
Definition writes_story_bible (trace : list Fs.Op) : bool :=
  existsb (fun op => match op with
                     | Fs.WriteFile Fs.StoryBibleJson _ => true
                     | _ => false
                     end) trace.

End SpecWording.

(* ====================================================================== *)
(** ** Auxiliary definitions of the proofs *)
(* ====================================================================== *)

Module ProofAux.

(** The shapes of the issues the four rule families push, the
    [character-unlisted] one for a chapter of [chapters]. *)
Definition emitted_form (chapters : list Chapter.t) (i : Issue.t) : Prop :=
  (exists c ch, In ch chapters /\ i = Checker.unlisted_issue c ch)
  \/ (exists c, i = Checker.arc_undefined_issue c)
  \/ (exists t, i = Checker.unused_issue t)
  \/ (exists t, i = Checker.unresolved_issue t)
  \/ (exists a b, i = Checker.gap_issue a b)
  \/ (exists n, i = Checker.duplicate_issue n)
  \/ (exists k, i = Checker.pov_issue k).

(** A list without its adjacent repetitions. *)
Fixpoint uniq (l : list Z) : list Z :=
  match l with
  | [] => []
  | x :: t =>
      match t with
      | [] => [x]
      | y :: _ => if x =? y then uniq t else x :: uniq t
      end
  end.

(** The elements of [rest] that occur earlier, in [seen] or in [rest]. *)
Fixpoint seen_before (seen rest : list Z) : list Z :=
  match rest with
  | [] => []
  | x :: t =>
      if JS.includes seen x then x :: seen_before (seen ++ [x]) t
      else seen_before (seen ++ [x]) t
  end.

(** The outcome of a create-character run that reaches its end with the
    profile [profile]: the success result, and the directory and the two
    files written. *)
Definition character_created (sb : StoryBible.t) (m : Meta.t) (now : string)
    (p : CreateCharacter.Params) (profile : Character.t)
  : Result.t CreateCharacter.Data * list Fs.Op :=
  let nextId :=
    Common.nextId Character.id (JS.arr_or (StoryBible.characters sb)) in
  let file :=
    Fs.CharacterFile (CreateCharacter.slug (CreateCharacter.name p) ++ ".md") in
  (Result.mk true
     (CharacterCreated (CreateCharacter.name p)
        (CreateCharacter.characterType p) nextId (Character.status profile)
        file)
     (Some (CreateCharacter.mkData profile file nextId)) None,
   [Fs.Mkdir Fs.CharactersDir;
    Fs.WriteFile file (Fs.CharacterMarkdown profile);
    Fs.WriteFile Fs.StoryBibleJson
      (Fs.BibleJson
         (StoryBible.with_meta
            (StoryBible.with_characters sb
               (Some (JS.arr_or (StoryBible.characters sb) ++ [profile])%list))
            (Some (Meta.with_updatedAt m now))))]).

End ProofAux.

(* ====================================================================== *)
(** ** Sample story bibles *)
(* ====================================================================== *)

Module Samples.

Definition character (id : Z) (title : string) (arc : option Arc.t)
  : Character.t :=
  Character.mk id "character" title "A character" "supporting" "draft"
    "medium" "2025-01-01T00:00:00.000Z" "2025-01-01T00:00:00.000Z"
    None None arc.

Definition chapter (id : Z) (number : option Z) (status : string)
    (characters : list Z) : Chapter.t :=
  Chapter.mk id "chapter" "A chapter" number "About" "Purpose" status "medium"
    (Some characters) (Some []) (Some []) (Some []) (Some 3000) None None None
    "2025-01-01T00:00:00.000Z" "2025-01-01T00:00:00.000Z".

Definition scene (id chapterId : Z) (characters : list Z) : Scene.t :=
  Scene.mk id "scene" "A scene" "Scene" "dialogue" chapterId (Some characters)
    "To be determined" "Purpose" "draft" "medium"
    "2025-01-01T00:00:00.000Z" "2025-01-01T00:00:00.000Z".

Definition plotThread (id : Z) (status : string) (resolution : option string)
  : PlotThread.t :=
  PlotThread.mk id "The heist" status "medium" resolution.

Definition meta : Meta.t :=
  Meta.mk (Some "Untitled Story") (Some "fantasy")
    "2025-01-01T00:00:00.000Z" "2025-01-01T00:00:00.000Z".

Definition premise (status : string) : Premise.t :=
  Premise.mk status "fantasy" "A thief steals a crown.".

Definition bible (characters : list Character.t) (chapters : list Chapter.t)
    (scenes : list Scene.t) (plotThreads : list PlotThread.t)
  : StoryBible.t :=
  StoryBible.mk (Some meta) (Some (premise "completed")) (Some characters)
    (Some chapters) (Some scenes) (Some plotThreads) None.

Definition now : string := "2025-06-01T12:00:00.000Z".

(** One character, one chapter that lists nobody, one scene with the
    character. *)
Definition K : Character.t := character 7 "Mira" None.
Definition C : Chapter.t := chapter 3 (Some 1) "draft" [].
Definition S : Scene.t := scene 1 3 [7].
Definition unlisted_bible : StoryBible.t := bible [K] [C] [S] [].

(** Chapters numbered 1, 2, 2, 4. *)
Definition numbered_chapters (numbers : list Z) : list Chapter.t :=
  map (fun n => chapter n (Some n) "draft" []) numbers.

(** A character without an arc, listed by two chapters. *)
Definition two_chapters : list Chapter.t :=
  [chapter 1 (Some 1) "draft" [7]; chapter 2 (Some 2) "draft" [7]].

Definition placeholder_character : Character.t :=
  character 7 "Mira" (Some (Arc.mk (Some "To be developed"))).



(** A chapter without a number and a scene of it with the character. *)
Definition unnumbered_chapter : Chapter.t := chapter 3 None "draft" [].
Definition unnumbered_bible : StoryBible.t :=
  bible [K] [unnumbered_chapter] [S] [].

Definition character_params : CreateCharacter.Params :=
  CreateCharacter.mkParams "Mira" "protagonist" None true true true "medium".

Definition villain_params : CreateCharacter.Params :=
  CreateCharacter.mkParams "Mira" "villain" None false false false "urgent".

Definition empty_bible : StoryBible.t := bible [] [] [] [].

Definition conservative_autofix : Checker.Params :=
  Checker.mkParams "all" None None 1 None true true "conservative" false.

Definition env : CheckConsistency.Env :=
  CheckConsistency.mkEnv now 1748779200000 None.

End Samples.

(* ====================================================================== *)
(** ** Element types and their hierarchy (story-elements.js) *)
(* ====================================================================== *)

Module StoryElements.

(** [LIST.includes(type)] on a list of string constants. *)
Definition isValidStoryElementType (type : string) : bool :=
  existsb (String.eqb type) Schemas.STORY_ELEMENT_TYPES.

Definition isValidStoryStructureType (type : string) : bool :=
  existsb (String.eqb type) Schemas.STORY_STRUCTURE_TYPES.

Definition isValidCharacterType (type : string) : bool :=
  existsb (String.eqb type) Schemas.CHARACTER_TYPES.

Definition isValidSceneType (type : string) : bool :=
  existsb (String.eqb type) Schemas.SCENE_TYPES.

Definition isValidGenreType (type : string) : bool :=
  existsb (String.eqb type) Schemas.GENRE_TYPES.

(** The [hierarchy] table. *)
Definition hierarchy : list (string * string) :=
  [("scene", "chapter");
   ("chapter", "outline");
   ("character", "outline");
   ("plot-thread", "outline");
   ("outline", "premise")].

(** [hierarchy[elementType] || null], for the strings that are not names
    of [Object.prototype] (on those the table lookup of the source finds
    an inherited member). *)
Definition getParentElementType (elementType : string) : option string :=
  Json.lookup elementType hierarchy.

(** The [children] table. *)
Definition children : list (string * list string) :=
  [("premise", ["outline"]);
   ("outline", ["character"; "chapter"; "plot-thread"]);
   ("chapter", ["scene"]);
   ("character", []);
   ("scene", []);
   ("plot-thread", [])].

(** [children[elementType] || []], with the same proviso. *)
Definition getChildElementTypes (elementType : string) : list string :=
  match Json.lookup elementType children with
  | Some l => l
  | None => []
  end.

End StoryElements.

(* ====================================================================== *)
(** ** The story bible schema and the generation schemas (story-schema.js) *)
(* ====================================================================== *)

Module BibleSchemas.
Import Zod.

Definition MetaSchema : Schema :=
  ZObject
    [("title", zstring);
     ("author", ZOptional zstring);
     ("genre", ZEnum Schemas.GENRE_TYPES);
     ("targetWordCount", ZOptional zposint);
     ("createdAt", zstring);
     ("updatedAt", zstring);
     ("version", ZOptional zstring)].

Definition StoryBibleSchema : Schema :=
  ZObject
    [("meta", MetaSchema);
     ("premise", ZOptional Schemas.PremiseSchema);
     ("outline", ZOptional Schemas.OutlineSchema);
     ("characters", ZOptional (ZArray Schemas.CharacterSchema));
     ("chapters", ZOptional (ZArray Schemas.ChapterSchema));
     ("scenes", ZOptional (ZArray Schemas.SceneSchema));
     ("plotThreads", ZOptional (ZArray Schemas.PlotThreadSchema));
     ("research", ZOptional (ZArray (ZObject
        [("id", zposint);
         ("topic", zstring);
         ("content", zstring);
         ("sources", ZOptional (ZArray zstring));
         ("tags", ZOptional (ZArray zstring))])));
     ("style", ZOptional (ZObject
        [("voice", ZOptional zstring);
         ("tense", ZOptional zstring);
         ("pov", ZOptional zstring);
         ("tone", ZOptional zstring);
         ("styleNotes", ZOptional (ZArray zstring))]))].

Definition AiPremiseSchema : Schema :=
  ZObject
    [("content", zstring);
     ("genre", ZEnum Schemas.GENRE_TYPES);
     ("themes", ZArray zstring);
     ("targetAudience", zstring);
     ("wordCountTarget", zposint)].

(** [validateStoryBible(storyBible)] *)
Definition validateStoryBible (storyBible : Json.t) : Eff.Outcome Json.t :=
  match parse StoryBibleSchema storyBible with
  | Some parsed => Eff.Returned parsed
  | None => Eff.Thrown (ZodError "Invalid input")
  end.

(** Whether a list of keys names no key twice. *)
Fixpoint distinct_keys (keys : list string) : bool :=
  match keys with
  | [] => true
  | k :: rest => negb (existsb (String.eqb k) rest) && distinct_keys rest
  end.

(** A schema as [z.object] builds it from an object literal: no shape names
    a key twice. *)
Fixpoint well_formed (s : Schema) : bool :=
  match s with
  | ZArray item => well_formed item
  | ZObject shape =>
      distinct_keys (map fst shape)
      && (fix all (sh : list (string * Schema)) : bool :=
            match sh with
            | [] => true
            | (_, fs) :: rest => well_formed fs && all rest
            end) shape
  | ZOptional inner => well_formed inner
  | _ => true
  end.

(** The field test of [z.object(shape).parse] on the fields of an object. *)
Definition accepts_fields (fields : list (string * Json.t))
    (shape : list (string * Schema)) : bool :=
  forallb (fun kv => match Json.lookup (fst kv) fields with
                     | Some x => accepts (snd kv) x
                     | None => is_optional (snd kv)
                     end) shape.

(** The fields [z.object(shape).parse] keeps. *)
Definition kept_fields (fields : list (string * Json.t))
    (shape : list (string * Schema)) : list (string * Json.t) :=
  flat_map (fun kv => match Json.lookup (fst kv) fields with
                      | Some x => [(fst kv, strip (snd kv) x)]
                      | None => []
                      end) shape.

End BibleSchemas.

(* ====================================================================== *)
(** ** parse-premise *)
(* ====================================================================== *)

Module ParsePremise.

Record Params := mkParams {
  premise : option string;
  filePath : string;
  targetWordCount : Z;
  generateOutline : bool;
  structureType : string
}.

(** The defaults of the destructured parameter. *)
Definition defaults (premise : option string) : Params :=
  mkParams premise "PREMISE.md" 80000 true "three-act".

(** What [await generateTextService(...)] does. *)
Inductive Response :=
| Rejects (message : string)
| Resolves (value : Json.t).

(** What the operation reads: the clock, the premise file (its text, or
    the message of the read error), [path.resolve(projectRoot, _)], and the
    answers of the generation service to the two requests. *)
Record Env := mkEnv {
  now : string;
  resolve : string -> string;
  premiseFile : string + string;
  analysis : Response;
  outline : Response
}.

Inductive Dir := StoryBibleDir | CharactersDir | ChaptersDir.

Inductive File := PremiseMd | OutlineMd | StoryBibleJson.

(** What is written: the two Markdown documents, kept as the values they
    interpolate, and the serialised story bible. *)
Inductive Content :=
| PremiseDocument (premiseText : string) (validatedAnalysis : Json.t)
    (targetWordCount : Z) (structureType now : string)
| OutlineDocument (structureType : string) (outlineResponse : Json.t)
    (now : string)
| BibleDocument (storyBible : Json.t).

Inductive Op :=
| Mkdir (dir : Dir)
| WriteFile (file : File) (content : Content).

Record Data := mkData {
  premiseData : Json.t;
  storyBiblePath : File;
  premisePath : File;
  outlinePath : option File
}.

Inductive Message :=
| Failure (text : string)
| PremiseParsed (validatedAnalysis : Json.t) (outlineWritten : bool).

Record Result := mkResult {
  success : bool;
  message : Message;
  data : option Data;
  error : option string
}.

(** The [catch] at the boundary of the operation. *)
Definition failed (e : JsError) : Result :=
  mkResult false (Failure ("Failed to parse premise: " ++ error_message e))
    None (Some (error_message e)).

(** White space as [String.prototype.trim] removes it, on the ASCII
    range. *)
Definition is_space (c : ascii) : bool :=
  let n := nat_of_ascii c in
  (n =? 32)%nat || (Nat.leb 9 n && Nat.leb n 13).

(** [s.trim().length === 0], for a text [s] of ASCII characters. *)
Fixpoint blank (s : string) : bool :=
  match s with
  | EmptyString => true
  | String c t => is_space c && blank t
  end.

(** The premise text: the parameter, or the content of the premise file
    when the parameter is missing or empty and a file path is given. *)
Definition premiseText (env : Env) (p : Params)
  : Eff.Outcome (option string) :=
  if negb (JS.truthy_str (premise p)) && negb (String.eqb (filePath p) "")
  then match premiseFile env with
       | inl text => Eff.Returned (Some text)
       | inr message =>
           Eff.Thrown
             (PlainError ("Could not read premise file at "
                            ++ resolve env (filePath p) ++ ": " ++ message))
       end
  else Eff.Returned (premise p).

(** [validatedAnalysis.key], as a property of the object literal that
    [JSON.stringify] serialises: a property that is [undefined] is left
    out. *)
Definition property (k : string) (v : Json.t) (key : string)
  : list (string * Json.t) :=
  match v with
  | Json.Obj fields =>
      match Json.lookup key fields with
      | Some x => [(k, x)]
      | None => []
      end
  | _ => []
  end.

(** The initial story bible. *)
Definition initialStoryBible (now : string) (validatedAnalysis : Json.t)
  : Json.t :=
  Json.Obj
    [("meta",
      Json.Obj
        ([("title", Json.Str "Untitled Story")]
         ++ property "genre" validatedAnalysis "genre"
         ++ property "targetWordCount" validatedAnalysis "wordCountTarget"
         ++ [("createdAt", Json.Str now);
             ("updatedAt", Json.Str now);
             ("version", Json.Str "0.1.0")])%list);
     ("premise",
      Json.Obj
        ([("id", Json.Num 1);
          ("type", Json.Str "premise");
          ("title", Json.Str "Story Premise");
          ("description", Json.Str "Core story premise and foundation");
          ("status", Json.Str "completed");
          ("priority", Json.Str "high")]
         ++ property "content" validatedAnalysis "content"
         ++ property "genre" validatedAnalysis "genre"
         ++ property "targetAudience" validatedAnalysis "targetAudience"
         ++ property "themes" validatedAnalysis "themes"
         ++ property "wordCountTarget" validatedAnalysis "wordCountTarget"
         ++ [("createdAt", Json.Str now);
             ("updatedAt", Json.Str now)])%list)].

Section WithJsonParse.

(** [JSON.parse] of the runtime: the value, or the message of the
    [SyntaxError]. *)
Variable JSON_parse : string -> Json.t + string.

(** [await generateTextService(...)] followed by
    [typeof r === 'string' ? JSON.parse(r) : r], a parse error rethrown. *)
Definition analysisOf (r : Response) : Eff.Outcome Json.t :=
  match r with
  | Rejects m => Eff.Thrown (ServiceError m)
  | Resolves (Json.Str text) =>
      match JSON_parse text with
      | inl v => Eff.Returned v
      | inr m => Eff.Thrown (PlainError ("Failed to parse AI analysis: " ++ m))
      end
  | Resolves v => Eff.Returned v
  end.

(** The operation: its result and the mutating calls it made, in order. *)
Definition parsePremiseDirect (env : Env) (p : Params) : Result * list Op :=
  match premiseText env p with
  | Eff.Thrown e => (failed e, [])
  | Eff.Returned text =>
      if match text with
         | Some s => String.eqb s "" || blank s
         | None => true
         end
      then (failed (PlainError "No premise text provided"), [])
      else
        let dirs :=
          [Mkdir StoryBibleDir; Mkdir CharactersDir; Mkdir ChaptersDir] in
        match analysisOf (analysis env) with
        | Eff.Thrown e => (failed e, dirs)
        | Eff.Returned analysis =>
            match Zod.parse BibleSchemas.AiPremiseSchema analysis with
            | None => (failed (ZodError "Invalid input"), dirs)
            | Some validatedAnalysis =>
                let premiseWritten :=
                  (dirs ++
                   [WriteFile PremiseMd
                      (PremiseDocument (JS.str_or text "") validatedAnalysis
                         (targetWordCount p) (structureType p) (now env))])%list
                in
                match
                  (if generateOutline p
                   then match outline env with
                        | Rejects m => Eff.Thrown (ServiceError m)
                        | Resolves outlineResponse =>
                            Eff.Returned
                              [WriteFile OutlineMd
                                 (OutlineDocument (structureType p)
                                    outlineResponse (now env))]
                        end
                   else Eff.Returned [])
                with
                | Eff.Thrown e => (failed e, premiseWritten)
                | Eff.Returned outlineWritten =>
                    let storyBible :=
                      initialStoryBible (now env) validatedAnalysis in
                    (mkResult true
                       (PremiseParsed validatedAnalysis (generateOutline p))
                       (Some (mkData validatedAnalysis StoryBibleJson PremiseMd
                                (if generateOutline p then Some OutlineMd
                                 else None)))
                       None,
                     (premiseWritten ++ outlineWritten
                      ++ [WriteFile StoryBibleJson
                            (BibleDocument storyBible)])%list)
                end
            end
        end
  end.

End WithJsonParse.

End ParsePremise.

(* ====================================================================== *)
(** ** The tool adapters (mcp-server/src/tools) *)
(* ====================================================================== *)

Module Tools.

(** [{content: [{type: 'text', text}], isError}] *)
Record Response := mkResponse {
  text : Message;
  isError : bool
}.

(** [result.message || fallback] *)
Definition message_or (m : Message) (fallback : string) : Message :=
  match m with
  | Text "" => Text fallback
  | _ => m
  end.

(** A destructuring default: it replaces [undefined] only. *)
Definition default {A : Type} (x : option A) (d : A) : A :=
  match x with
  | Some a => a
  | None => d
  end.

Module CheckConsistencyTool.

(** The arguments object: a property that is absent is [undefined]. *)
Record Args := mkArgs {
  checkType : option string;
  characterId : option Z;
  plotThreadId : option Z;
  startChapter : option Z;
  endChapter : option Z;
  generateReport : option bool;
  autoFix : option bool;
  fixMode : option string
}.

Definition no_arguments : Args :=
  mkArgs None None None None None None None None.

Definition params (args : Args) (session : bool) : Checker.Params :=
  Checker.mkParams
    (default (checkType args) "all")
    (characterId args)
    (plotThreadId args)
    (default (startChapter args) 1)
    (endChapter args)
    (default (generateReport args) true)
    (default (autoFix args) false)
    (default (fixMode args) "conservative")
    session.

(** The handler on an arguments object; [checkConsistencyDirect] catches
    what it throws, so the handler's own [catch] is not reached. *)
Definition handler (file : Fs.BibleFile) (env : CheckConsistency.Env)
    (args : Args) (session : bool) : Response * list Fs.Op :=
  let r := CheckConsistency.checkConsistencyDirect file env
             (params args session) in
  (mkResponse
     (message_or (Result.message (fst r)) "Consistency check completed")
     false,
   snd r).

End CheckConsistencyTool.

Module CreateCharacterTool.

Record Args := mkArgs {
  name : string;
  characterType : string;
  description : option string;
  generateProfile : option bool;
  generateArc : option bool;
  generateVoice : option bool;
  priority : option string
}.

Definition params (args : Args) : CreateCharacter.Params :=
  CreateCharacter.mkParams (name args) (characterType args)
    (description args)
    (default (generateProfile args) true)
    (default (generateArc args) true)
    (default (generateVoice args) true)
    (default (priority args) "medium").

Definition handler (file : Fs.BibleFile) (now : string)
    (service : Service.Outcome CreateCharacter.AiCharacter) (args : Args)
  : Response * list Fs.Op :=
  let r := CreateCharacter.createCharacterDirect file now service
             (params args) in
  (mkResponse
     (message_or (Result.message (fst r)) "Character created successfully")
     false,
   snd r).

End CreateCharacterTool.

End Tools.

(* ====================================================================== *)
(** ** Auxiliary definitions of the further properties *)
(* ====================================================================== *)

Module Further.

(** A chapter as auto-fix may leave it: the same chapter but for its
    [characters], which list whoever was listed before. *)
Definition grown (c c' : Chapter.t) : Prop :=
  c' = Chapter.with_characters c (Chapter.characters c')
  /\ forall k, JS.opt_includes (Chapter.characters c) k = true ->
               JS.opt_includes (Chapter.characters c') k = true.

(** Two story bibles that differ in their chapters at most. *)
Definition same_but_chapters (sb sb' : StoryBible.t) : Prop :=
  sb' = StoryBible.with_chapters sb (StoryBible.chapters sb').

(** The number of character listings of the chapters. *)
Definition listings (chapters : list Chapter.t) : nat :=
  list_sum (map (fun c => List.length (JS.arr_or (Chapter.characters c)))
              chapters).

(** The run of [n] consecutive integers that starts at [m]. *)
Definition run (m : Z) (n : nat) : list Z :=
  map (fun i => m + Z.of_nat i) (seq 0 n).

(** Numbers that are pairwise distinct and consecutive, in any order. *)
Definition consecutive (nums : list Z) : Prop :=
  exists m, Permutation nums (run m (List.length nums)).

(** The characters a generated file name is made of: lower-case letters,
    digits and the hyphen. *)
Definition file_name_char (c : ascii) : bool :=
  let n := nat_of_ascii c in
  (Nat.leb 97 n && Nat.leb n 122) || (Nat.leb 48 n && Nat.leb n 57)
  || (n =? 45)%nat.

(** generate-chapter: the working chapter once the service has answered. *)
Definition answered (c : Chapter.t)
    (v : Service.Value GenerateChapter.AiChapter) : Chapter.t :=
  match v with
  | Service.Truthy ai => GenerateChapter.enrich c ai
  | Service.Falsy => c
  end.

(** generate-chapter: the scenes a run generates for the working chapter. *)
Definition generatedScenes (sb : StoryBible.t) (c : Chapter.t) (now : string)
    (p : GenerateChapter.Params) : list Scene.t :=
  if GenerateChapter.generateScenes p
  then map (GenerateChapter.placeholderScene
              (Z.of_nat (List.length (JS.arr_or (StoryBible.scenes sb))))
              c now)
         (GenerateChapter.sceneIndices (GenerateChapter.sceneCount p))
  else [].

(** generate-chapter: the working chapter with the ids of its new scenes. *)
Definition withScenes (c : Chapter.t) (scenes : list Scene.t) : Chapter.t :=
  match scenes with
  | [] => c
  | _ :: _ =>
      Chapter.with_scenes c
        (Some (JS.arr_or (Chapter.scenes c) ++ map Scene.id scenes)%list)
  end.

(** generate-chapter: the story bible a successful run writes. *)
Definition generatedBible (sb : StoryBible.t) (m : Meta.t) (now : string)
    (p : GenerateChapter.Params) (scenes : list Scene.t) (c : Chapter.t)
    (isNew : bool) : StoryBible.t :=
  let existingChapters := JS.arr_or (StoryBible.chapters sb) in
  StoryBible.with_meta
    (StoryBible.with_chapters
       (if GenerateChapter.generateScenes p
        then StoryBible.with_scenes sb
               (Some (JS.arr_or (StoryBible.scenes sb) ++ scenes)%list)
        else sb)
       (Some (if isNew then (existingChapters ++ [c])%list
              else Checker.update_first (Chapter.id c) (fun _ => c)
                     existingChapters)))
    (Some (Meta.with_updatedAt m now)).

(** The parameters of a check with another [checkType]. *)
Definition with_checkType (p : Checker.Params) (checkType : string)
  : Checker.Params :=
  Checker.mkParams checkType (Checker.characterId p) (Checker.plotThreadId p)
    (Checker.startChapter p) (Checker.endChapter p) (Checker.generateReport p)
    (Checker.autoFix p) (Checker.fixMode p) (Checker.session p).

(** Numbers none of which stands apart: each of them but the least has
    another one less than it and at most 1 below it. *)
Definition closely_spaced (nums : list Z) : Prop :=
  forall x, In x nums ->
    (forall y, In y nums -> x <= y)
    \/ exists y, In y nums /\ x - 1 <= y < x.

(** A text of ASCII characters only.  On such a text [JS.toLowerCase] is
    [String.prototype.toLowerCase] and [ParsePremise.blank] decides
    [trim().length === 0]; outside ASCII JavaScript also folds the case of
    other letters and trims other spaces. *)
Fixpoint ascii_text (s : string) : bool :=
  match s with
  | EmptyString => true
  | String c t => (nat_of_ascii c <? 128)%nat && ascii_text t
  end.

(** The capital letters [A] to [Z]. *)
Definition capital (c : ascii) : Prop :=
  (65 <= nat_of_ascii c <= 90)%nat.

(** The same character when the case of a letter is ignored: a small
    letter stands 32 places after its capital. *)
Definition same_letter (a b : ascii) : Prop :=
  a = b
  \/ (capital a /\ nat_of_ascii b = (nat_of_ascii a + 32)%nat)
  \/ (capital b /\ nat_of_ascii a = (nat_of_ascii b + 32)%nat).

(** The same text when the case of the letters is ignored. *)
Fixpoint same_text (s t : string) : Prop :=
  match s, t with
  | EmptyString, EmptyString => True
  | String a s', String b t' => same_letter a b /\ same_text s' t'
  | _, _ => False
  end.

(** [sub] occurs in [s] when the case of the letters is ignored. *)
Definition occurs_ignoring_case (sub s : string) : Prop :=
  exists before found after,
    s = before ++ found ++ after /\ same_text found sub.

(** A chapter references a plot thread: it lists the thread's id, or its
    [plotAdvancement] mentions the thread's title in whatever case. *)
Definition references (plotThread : PlotThread.t) (c : Chapter.t) : Prop :=
  (exists ids, Chapter.plotThreads c = Some ids
               /\ In (PlotThread.id plotThread) ids)
  \/ (exists text, Chapter.plotAdvancement c = Some text
                   /\ occurs_ignoring_case (PlotThread.title plotThread) text).

(** A message that [result.message || fallback] passes on. *)
Definition passed_on (m : Message) : Prop :=
  match m with
  | Text "" => False
  | _ => True
  end.

End Further.

Module MoreSamples.

(** The story bible of [Samples.unlisted_bible] without its [meta]. *)
Definition without_meta : StoryBible.t :=
  StoryBible.mk None (Some (Samples.premise "completed")) (Some [Samples.K])
    (Some [Samples.C]) (Some [Samples.S]) (Some []) None.

Definition aggressive_autofix : Checker.Params :=
  Checker.mkParams "all" None None 1 None true true "aggressive" false.

Definition mistyped_check : Checker.Params :=
  Checker.mkParams "characters" None None 1 None true true "aggressive" false.

Definition chapter_params : GenerateChapter.Params :=
  GenerateChapter.mkParams None None None None 3000 true 3 (Some [7]) None
    None false "medium".

Definition missing_chapter_params : GenerateChapter.Params :=
  GenerateChapter.mkParams (Some 9) None None None 3000 true 3 None None
    None false "medium".

Definition one_character_check : Checker.Params :=
  Checker.mkParams "character" (Some 7) None 1 None true false "conservative"
    false.

Definition next_params : NextChapter.Params :=
  NextChapter.mkParams None None true None None.

(** A [parseInt] that reads no number; the sample passes no focus. *)
Definition no_parseInt (s : string) : option Z := None.

Definition all_completed : StoryBible.t :=
  Samples.bible []
    [Samples.chapter 1 (Some 1) "completed" [];
     Samples.chapter 2 (Some 2) "completed" []]
    [] [].

(** A premise element with a key the schema does not declare. *)
Definition premise_json : Json.t :=
  Json.Obj
    [("id", Json.Num 1);
     ("type", Json.Str "premise");
     ("title", Json.Str "Story Premise");
     ("description", Json.Str "A heist");
     ("status", Json.Str "completed");
     ("priority", Json.Str "high");
     ("mood", Json.Str "grim");
     ("content", Json.Str "A thief steals a crown.");
     ("genre", Json.Str "fantasy");
     ("createdAt", Json.Str "2025-01-01T00:00:00.000Z");
     ("updatedAt", Json.Str "2025-01-01T00:00:00.000Z")].

(** The answer of the service to the analysis request of parse-premise. *)
Definition analysis_json : Json.t :=
  Json.Obj
    [("content", Json.Str "A thief steals a crown.");
     ("genre", Json.Str "fantasy");
     ("themes", Json.Arr [Json.Str "greed"; Json.Str "loyalty"]);
     ("targetAudience", Json.Str "adult");
     ("wordCountTarget", Json.Num 90000);
     ("confidence", Json.Str "high")].

Definition premise_env : ParsePremise.Env :=
  ParsePremise.mkEnv Samples.now (fun path => path)
    (inr "ENOENT: no such file or directory")
    (ParsePremise.Resolves analysis_json)
    (ParsePremise.Resolves (Json.Str "Act one"))
.

(** The generation service is down. *)
Definition unavailable_env : ParsePremise.Env :=
  ParsePremise.mkEnv Samples.now (fun path => path)
    (inr "ENOENT: no such file or directory")
    (ParsePremise.Rejects "503 Service Unavailable")
    (ParsePremise.Resolves (Json.Str "Act one")).

(** An open plot thread titled [The heist] and a chapter that does not
    list it but mentions it, capitalised otherwise. *)
Definition heist_thread : PlotThread.t := Samples.plotThread 1 "active" None.

Definition heist_chapter : Chapter.t :=
  Chapter.mk 1 "chapter" "A chapter" (Some 1) "About" "Purpose" "draft"
    "medium" (Some []) (Some []) (Some []) (Some []) (Some 3000)
    (Some "They plan The Heist at dawn") None None
    "2025-01-01T00:00:00.000Z" "2025-01-01T00:00:00.000Z".

(** A [JSON.parse] that rejects everything; the sample's analysis is not a
    string. *)
Definition no_JSON_parse (s : string) : Json.t + string :=
  inr "Unexpected token".

End MoreSamples.

(* ====================================================================== *)
(** * Properties *)
(* ====================================================================== *)
(* ====================================================================== *)
(** ** The primitives on small inputs *)
(* ====================================================================== *)

Example sort_numbers_example :
  JS.sort_numbers [4; 2; 1; 2] = [1; 2; 2; 4].
Proof. reflexivity. Qed.

Example indexOf_example :
  JS.indexOf [1; 2; 2; 4] 2 = 1 /\ JS.indexOf [1; 2; 2; 4] 3 = -1.
Proof. split; reflexivity. Qed.

Example duplicates_example :
  Checker.duplicates [1; 2; 2; 4] = [2]
  /\ Checker.duplicates [2; 2; 2] = [2; 2].
Proof. split; reflexivity. Qed.

Example gaps_example :
  Checker.gaps [1; 2; 2; 4; 7] = [(2, 4); (4, 7)].
Proof. reflexivity. Qed.

Example mentions_example :
  JS.str_includes (JS.toLowerCase "They plan The Heist at dawn")
    (JS.toLowerCase "the heist") = true.
Proof. reflexivity. Qed.

Example slug_example :
  CreateCharacter.slug "Mira O'Neil 2" = "mira-o-neil-2".
Proof. reflexivity. Qed.

(** [Math.round] rounds ties upwards, also below zero, and is exact next to
    a tie. *)
Example Math_round_examples :
  F64.Math_round 2.5 = 3
  /\ F64.Math_round (-2.5) = -2
  /\ F64.Math_round 0x1.c924924924924p+5 = 57
  /\ F64.Math_round 0x1.fffffffffffffp-2 = 0
  /\ F64.Math_round 0 = 0.
Proof. repeat split; reflexivity. Qed.

Example percent_example :
  Status.percent 2 4 = 50 /\ Status.percent 1 3 = 33 /\ Status.percent 0 0 = 0.
Proof. repeat split; reflexivity. Qed.

(* ====================================================================== *)
(** ** Properties of the character rule and of auto-fix *)
(* ====================================================================== *)

Section UnlistedCharacter.

Variables (K : Character.t) (C : Chapter.t) (S : Scene.t).
Hypothesis C_lists_nobody : Chapter.characters C = Some [].
Hypothesis S_in_C : Scene.chapterId S = Chapter.id C.
Hypothesis K_in_S :
  JS.opt_includes (Scene.characters S) (Character.id K) = true.

Lemma check_character_unlisted :
  Checker.checkCharacterConsistency [K] [C] [S] = [Checker.unlisted_issue K C].
Proof using C_lists_nobody S_in_C K_in_S.
  unfold Checker.checkCharacterConsistency, Checker.check_character.
  cbn [flat_map filter].
  rewrite K_in_S, C_lists_nobody.
  cbn [JS.opt_includes JS.includes existsb flat_map app].
  unfold Checker.unlisted_in_scene, Checker.arc_check.
  cbn [find]. rewrite S_in_C, Z.eqb_refl, C_lists_nobody.
  cbn [JS.opt_includes JS.includes existsb negb List.length].
  destruct (Character.arc K); reflexivity.
Qed.

Lemma fix_unlisted (sb : StoryBible.t) :
  StoryBible.chapters sb = Some [C] ->
  Checker.fix_character_unlisted sb (Checker.unlisted_issue K C)
  = Some (StoryBible.with_chapters sb
            (Some [Chapter.with_characters C (Some [Character.id K])])).
Proof using C_lists_nobody.
  intros Hch. unfold Checker.fix_character_unlisted.
  rewrite Hch. cbn [Checker.unlisted_issue Issue.chapterId Issue.characterId].
  cbn [find Checker.update_first]. rewrite Z.eqb_refl, C_lists_nobody.
  unfold Checker.push_character. rewrite C_lists_nobody. reflexivity.
Qed.

Lemma recheck_after_fix :
  Checker.checkCharacterConsistency [K]
    [Chapter.with_characters C (Some [Character.id K])] [S] = [].
Proof using S_in_C K_in_S.
  unfold Checker.checkCharacterConsistency, Checker.check_character.
  cbn [flat_map filter].
  rewrite K_in_S.
  cbn [Chapter.with_characters Chapter.characters JS.opt_includes JS.includes
       existsb].
  rewrite Z.eqb_refl.
  cbn [orb flat_map app].
  unfold Checker.unlisted_in_scene, Checker.arc_check.
  cbn [find Chapter.id Chapter.with_characters].
  rewrite S_in_C, Z.eqb_refl.
  unfold Chapter.with_characters at 1.
  cbn [Chapter.characters JS.opt_includes JS.includes existsb].
  rewrite Z.eqb_refl.
  cbn [orb negb List.length app].
  destruct (Character.arc K); reflexivity.
Qed.

End UnlistedCharacter.

(** C1. For a story bible holding a character K, a chapter C that lists no
    character and a scene S of C in which K appears, the character check
    yields exactly one issue, a [character-unlisted] of severity [moderate]
    naming K and C; auto-fix in a mode other than [conservative] (such as
    [aggressive]) records the fix and appends K's id to C's characters; and
    the character check on the fixed story bible yields no issue at all, so
    no [character-unlisted] one. *)
Theorem unlisted_character_detected_fixed_and_cleared :
  forall (K : Character.t) (C : Chapter.t) (S : Scene.t)
         (sb : StoryBible.t) (fixMode now : string),
    Chapter.characters C = Some [] ->
    Scene.chapterId S = Chapter.id C ->
    JS.opt_includes (Scene.characters S) (Character.id K) = true ->
    StoryBible.characters sb = Some [K] ->
    StoryBible.chapters sb = Some [C] ->
    StoryBible.scenes sb = Some [S] ->
    String.eqb fixMode "conservative" = false ->
    let issue := Checker.unlisted_issue K C in
    let fixed := Checker.autoFixIssues (SpecWording.characterCheck sb) sb
                   fixMode now in
    SpecWording.characterCheck sb = [issue]
    /\ Issue.type issue = "character-unlisted"
    /\ Issue.severity issue = "moderate"
    /\ Issue.characterId issue = Some (Character.id K)
    /\ Issue.chapterId issue = Some (Chapter.id C)
    /\ fst fixed = [FixedIssue.mk issue now fixMode]
    /\ StoryBible.chapters (snd fixed)
       = Some [Chapter.with_characters C (Some [Character.id K])]
    /\ SpecWording.characterCheck (snd fixed) = []
    /\ filter (Issue.has_type "character-unlisted")
         (SpecWording.characterCheck (snd fixed)) = [].
Proof.
  intros K C S sb fixMode now HC HS HK Hchars Hchaps Hscenes Hmode issue fixed.
  assert (Hcheck : SpecWording.characterCheck sb = [issue]).
  { unfold SpecWording.characterCheck. rewrite Hchars, Hchaps, Hscenes.
    cbn [JS.arr_or]. now apply check_character_unlisted. }
  assert (Hfixed : fixed
            = ([FixedIssue.mk issue now fixMode],
               StoryBible.with_chapters sb
                 (Some [Chapter.with_characters C (Some [Character.id K])]))).
  { unfold fixed. rewrite Hcheck. unfold Checker.autoFixIssues.
    cbn [fold_left]. unfold Checker.autoFix_step.
    rewrite Hmode. cbn [andb].
    change (Issue.type issue) with "character-unlisted".
    cbn [String.eqb Ascii.eqb Bool.eqb].
    unfold issue. rewrite (fix_unlisted K C HC sb Hchaps). reflexivity. }
  rewrite Hfixed. cbn [fst snd].
  assert (Hre : SpecWording.characterCheck
                  (StoryBible.with_chapters sb
                     (Some [Chapter.with_characters C (Some [Character.id K])]))
                = []).
  { unfold SpecWording.characterCheck.
    cbn [StoryBible.with_chapters StoryBible.characters StoryBible.chapters
         StoryBible.scenes].
    rewrite Hchars, Hscenes. cbn [JS.arr_or].
    now apply recheck_after_fix. }
  repeat split; try assumption; try reflexivity.
  rewrite Hre. reflexivity.
Qed.

(** C1 on the sample story bible: character 7 (Mira), chapter 3 listing
    nobody, and a scene of chapter 3 with character 7, fixed in
    [aggressive] mode. *)
Lemma unlisted_character_sample :
  Chapter.characters Samples.C = Some []
  /\ Scene.chapterId Samples.S = Chapter.id Samples.C
  /\ JS.opt_includes (Scene.characters Samples.S) (Character.id Samples.K)
     = true
  /\ SpecWording.characterCheck Samples.unlisted_bible
     = [Checker.unlisted_issue Samples.K Samples.C]
  /\ StoryBible.chapters
       (snd (Checker.autoFixIssues
               (SpecWording.characterCheck Samples.unlisted_bible)
               Samples.unlisted_bible "aggressive" Samples.now))
     = Some [Chapter.with_characters Samples.C (Some [7])]
  /\ filter (Issue.has_type "character-unlisted")
       (SpecWording.characterCheck
          (snd (Checker.autoFixIssues
                  (SpecWording.characterCheck Samples.unlisted_bible)
                  Samples.unlisted_bible "aggressive" Samples.now)))
     = [].
Proof.
  pose proof (unlisted_character_detected_fixed_and_cleared
                Samples.K Samples.C Samples.S Samples.unlisted_bible
                "aggressive" Samples.now
                eq_refl eq_refl eq_refl eq_refl eq_refl eq_refl eq_refl) as H.
  cbv zeta in H.
  destruct H as (H1 & _ & _ & _ & _ & _ & H7 & _ & H9).
  repeat split; assumption.
Defined.


(** The same run through the operation: with the chapter in range, the
    story bible's metadata in place and the character check selected,
    check-consistency with auto-fix in a mode other than [conservative]
    reports the one issue, records the fix and writes the story bible with
    the character appended to the chapter. *)
Lemma unlisted_character_end_to_end :
  forall (K : Character.t) (C : Chapter.t) (S : Scene.t) (sb : StoryBible.t)
         (m : Meta.t) (env : CheckConsistency.Env) (p : Checker.Params),
    Chapter.characters C = Some [] ->
    Scene.chapterId S = Chapter.id C ->
    JS.opt_includes (Scene.characters S) (Character.id K) = true ->
    StoryBible.characters sb = Some [K] ->
    StoryBible.chapters sb = Some [C] ->
    StoryBible.scenes sb = Some [S] ->
    StoryBible.meta sb = Some m ->
    Checker.in_range (Checker.startChapter p) (Checker.endChapter p) C = true ->
    Checker.checkType p = "character" ->
    Checker.characterId p = None ->
    Checker.autoFix p = true ->
    Checker.generateReport p = false ->
    String.eqb (Checker.fixMode p) "conservative" = false ->
    let issue := Checker.unlisted_issue K C in
    let run := CheckConsistency.checkConsistencyDirect (Fs.Stored sb) env p in
    Result.success (fst run) = true
    /\ option_map CheckConsistency.issues (Result.data (fst run))
       = Some [issue]
    /\ option_map CheckConsistency.fixedIssues (Result.data (fst run))
       = Some [FixedIssue.mk issue (CheckConsistency.now env)
                 (Checker.fixMode p)]
    /\ snd run
       = [Fs.WriteFile Fs.StoryBibleJson
            (Fs.BibleJson
               (StoryBible.with_meta
                  (StoryBible.with_chapters sb
                     (Some [Chapter.with_characters C
                              (Some [Character.id K])]))
                  (Some (Meta.with_updatedAt m (CheckConsistency.now env)))))].
Proof.
  intros K C S sb m env p HC HS HK Hchars Hchaps Hscenes Hmeta Hrange Htype
    Hid Hfix Hreport Hmode issue run.
  assert (Hdetect : Checker.detectIssues sb p = [issue]).
  { unfold Checker.detectIssues, Checker.is_type, Checker.targetChapters.
    rewrite Htype, Hid, Hchars, Hchaps, Hscenes.
    cbn [JS.arr_or filter Checker.select_by_id String.eqb Ascii.eqb Bool.eqb
         orb].
    rewrite Hrange. cbn [app].
    rewrite (check_character_unlisted K C S HC HS HK). reflexivity. }
  assert (Hfixed : Checker.autoFixIssues [issue] sb (Checker.fixMode p)
                     (CheckConsistency.now env)
            = ([FixedIssue.mk issue (CheckConsistency.now env)
                  (Checker.fixMode p)],
               StoryBible.with_chapters sb
                 (Some [Chapter.with_characters C (Some [Character.id K])]))).
  { unfold Checker.autoFixIssues. cbn [fold_left].
    unfold Checker.autoFix_step. rewrite Hmode. cbn [andb].
    change (Issue.type issue) with "character-unlisted".
    cbn [String.eqb Ascii.eqb Bool.eqb].
    unfold issue. rewrite (fix_unlisted K C HC sb Hchaps). reflexivity. }
  assert (Hrun : exists suggestions,
            run
            = (Result.mk true
                 (ConsistencyComplete [issue] 1 1 1 (Checker.checkType p) None)
                 (Some (CheckConsistency.mkData [issue] suggestions
                          [FixedIssue.mk issue (CheckConsistency.now env)
                             (Checker.fixMode p)]
                          None (CheckConsistency.mkStats 1 1 1 1)))
                 None,
               [Fs.WriteFile Fs.StoryBibleJson
                  (Fs.BibleJson
                     (StoryBible.with_meta
                        (StoryBible.with_chapters sb
                           (Some [Chapter.with_characters C
                                    (Some [Character.id K])]))
                        (Some (Meta.with_updatedAt m
                                 (CheckConsistency.now env)))))])).
  { unfold run, CheckConsistency.checkConsistencyDirect, Eff.try_boundary,
      CheckConsistency.body.
    cbn [Common.load]. unfold Eff.bind at 1. cbn [Eff.ret].
    rewrite Hdetect, Hfix, Hreport, Hfixed. cbn [fst snd].
    unfold Common.touch. cbn [StoryBible.with_chapters StoryBible.meta].
    rewrite Hmeta.
    unfold Eff.bind, Eff.perform, Eff.ret, Checker.targetChapters.
    rewrite Hchars, Hchaps. cbn [JS.arr_or filter]. rewrite Hrange.
    eexists. reflexivity. }
  destruct Hrun as (suggestions & ->).
  repeat split.
Qed.

(* ====================================================================== *)
(** ** Provenance of the detected issues *)
(* ====================================================================== *)

Lemma in_flat_map_iff {A B : Type} (f : A -> list B) (l : list A) (y : B) :
  In y (flat_map f l) <-> exists x, In x l /\ In y (f x).
Proof. apply in_flat_map. Qed.

Lemma find_in {A : Type} (f : A -> bool) (l : list A) (x : A) :
  find f l = Some x -> In x l /\ f x = true.
Proof. apply find_some. Qed.

Lemma character_issue_form (characters : list Character.t)
    (chapters : list Chapter.t) (scenes : list Scene.t) (i : Issue.t) :
  In i (Checker.checkCharacterConsistency characters chapters scenes) ->
  ProofAux.emitted_form chapters i.
Proof.
  unfold Checker.checkCharacterConsistency. rewrite in_flat_map_iff.
  intros (c & _ & Hi). unfold Checker.check_character in Hi.
  apply in_app_or in Hi. destruct Hi as [Hi | Hi].
  - rewrite in_flat_map_iff in Hi. destruct Hi as (s & _ & Hi).
    unfold Checker.unlisted_in_scene in Hi.
    destruct (find _ chapters) as [ch |] eqn:Hfind; [| contradiction].
    apply find_in in Hfind. destruct Hfind as [Hin _].
    destruct (negb _); [| contradiction].
    destruct Hi as [<- | []]. left. now exists c, ch.
  - unfold Checker.arc_check in Hi.
    destruct (Character.arc c); [| contradiction].
    destruct (1 <? _); [| contradiction].
    destruct (Checker.arc_summary_undefined _); [| contradiction].
    destruct Hi as [<- | []]. right; left. now exists c.
Qed.

Lemma plot_issue_form (plotThreads : list PlotThread.t)
    (chapters target : list Chapter.t) (scenes : list Scene.t) (i : Issue.t) :
  In i (Checker.checkPlotConsistency plotThreads chapters scenes) ->
  ProofAux.emitted_form target i.
Proof.
  unfold Checker.checkPlotConsistency. rewrite in_flat_map_iff.
  intros (t & _ & Hi). unfold Checker.check_plotThread in Hi.
  apply in_app_or in Hi. destruct Hi as [Hi | Hi].
  - destruct (_ && _); [| contradiction].
    destruct Hi as [<- | []]. right; right; left. now exists t.
  - destruct (_ && _); [| contradiction].
    destruct Hi as [<- | []]. right; right; right; left. now exists t.
Qed.

Lemma timeline_issue_form (chapters target : list Chapter.t)
    (scenes : list Scene.t) (i : Issue.t) :
  In i (Checker.checkTimelineConsistency chapters scenes) ->
  ProofAux.emitted_form target i.
Proof.
  unfold Checker.checkTimelineConsistency. intros Hi.
  apply in_app_or in Hi. destruct Hi as [Hi | Hi].
  - apply in_map_iff in Hi. destruct Hi as ([a b] & <- & _).
    right; right; right; right; left. now exists a, b.
  - apply in_map_iff in Hi. destruct Hi as (n & <- & _).
    right; right; right; right; right; left. now exists n.
Qed.

Lemma style_issue_form (chapters target : list Chapter.t)
    (styleGuide : option Style.t) (i : Issue.t) :
  In i (Checker.checkStyleConsistency chapters styleGuide) ->
  ProofAux.emitted_form target i.
Proof.
  unfold Checker.checkStyleConsistency. intros Hi.
  destruct styleGuide as [sg |]; [| contradiction].
  destruct (JS.truthy_str _); [| contradiction].
  destruct (0 <? _); [| contradiction].
  destruct Hi as [<- | []].
  right; right; right; right; right; right. eexists. reflexivity.
Qed.

Lemma detected_issue_form (sb : StoryBible.t) (p : Checker.Params)
    (i : Issue.t) :
  In i (Checker.detectIssues sb p) ->
  ProofAux.emitted_form (Checker.targetChapters sb p) i.
Proof.
  unfold Checker.detectIssues. intros Hi.
  repeat (apply in_app_or in Hi; destruct Hi as [Hi | Hi]).
  - destruct (Checker.is_type p "character"); [| contradiction].
    eapply character_issue_form; eassumption.
  - destruct (Checker.is_type p "plot"); [| contradiction].
    eapply plot_issue_form; eassumption.
  - destruct (Checker.is_type p "timeline"); [| contradiction].
    eapply timeline_issue_form; eassumption.
  - destruct (Checker.is_type p "style"); [| contradiction].
    eapply style_issue_form; eassumption.
Qed.

(** No issue the rules push is both [minor] and of the one type that has a
    fix. *)
Lemma emitted_not_conservative_candidate (chapters : list Chapter.t)
    (i : Issue.t) :
  ProofAux.emitted_form chapters i ->
  SpecWording.conservative_candidate i = false.
Proof.
  intros [(c & ch & _ & ->) | [(c & ->) | [(t & ->) | [(t & ->)
         | [(a & b & ->) | [(n & ->) | (k & ->)]]]]]]; reflexivity.
Qed.

(* ====================================================================== *)
(** ** Auto-fix in conservative mode *)
(* ====================================================================== *)

(** The conservative gate lets only [minor] issues through. *)
Lemma conservative_gate (now : string) (acc : list FixedIssue.t * StoryBible.t)
    (i : Issue.t) :
  String.eqb (Issue.severity i) "minor" = false ->
  Checker.autoFix_step "conservative" now acc i = acc.
Proof.
  intros H. unfold Checker.autoFix_step. destruct acc as [fixed sb].
  rewrite H. reflexivity.
Qed.

(** Whatever the mode, only [character-unlisted] has a fix. *)
Lemma only_unlisted_is_fixed (fixMode now : string)
    (acc : list FixedIssue.t * StoryBible.t) (i : Issue.t) :
  String.eqb (Issue.type i) "character-unlisted" = false ->
  Checker.autoFix_step fixMode now acc i = acc.
Proof.
  intros H. unfold Checker.autoFix_step. destruct acc as [fixed sb].
  rewrite H. now destruct (_ && _).
Qed.

Lemma autoFix_conservative_noop (issues : list Issue.t) (now : string)
    (acc : list FixedIssue.t * StoryBible.t) :
  (forall i, In i issues -> SpecWording.conservative_candidate i = false) ->
  fold_left (Checker.autoFix_step "conservative" now) issues acc = acc.
Proof.
  induction issues as [| i issues IH]; intros H; [reflexivity |].
  cbn [fold_left].
  assert (Hi : Checker.autoFix_step "conservative" now acc i = acc).
  { specialize (H i (or_introl eq_refl)).
    unfold SpecWording.conservative_candidate in H.
    apply andb_false_iff in H. destruct H as [H | H].
    - now apply conservative_gate.
    - now apply only_unlisted_is_fixed. }
  rewrite Hi. apply IH. intros j Hj. apply H. now right.
Qed.

Lemma autoFix_detected_conservative (sb sb' : StoryBible.t)
    (p : Checker.Params) (now : string) :
  Checker.autoFixIssues (Checker.detectIssues sb p) sb' "conservative" now
  = ([], sb').
Proof.
  unfold Checker.autoFixIssues. apply autoFix_conservative_noop.
  intros i Hi. eapply emitted_not_conservative_candidate.
  eapply detected_issue_form. eassumption.
Qed.

(** C3. Auto-fix in [conservative] mode applies no fix to issues the checker
    detected: the conservative gate stops every issue that is not [minor],
    the only type with a fix is [character-unlisted], which is pushed with
    severity [moderate]; so for every story bible and every parameters with
    [fixMode = 'conservative'] the fixed-issues list is empty, the story
    bible is unchanged, and check-consistency returns [fixedIssues = []] and
    never writes the story bible document. *)
Theorem conservative_autofix_fixes_nothing :
  forall (file : Fs.BibleFile) (env : CheckConsistency.Env)
         (p : Checker.Params),
    Checker.fixMode p = "conservative" ->
    (forall now acc i,
        String.eqb (Issue.severity i) "minor" = false ->
        Checker.autoFix_step "conservative" now acc i = acc)
    /\ (forall fixMode now acc i,
          String.eqb (Issue.type i) "character-unlisted" = false ->
          Checker.autoFix_step fixMode now acc i = acc)
    /\ (forall c ch, Issue.severity (Checker.unlisted_issue c ch) = "moderate")
    /\ (forall sb sb' now,
          Checker.autoFixIssues (Checker.detectIssues sb p) sb'
            (Checker.fixMode p) now = ([], sb'))
    /\ (forall d,
          Result.data (fst (CheckConsistency.checkConsistencyDirect file env p))
          = Some d ->
          CheckConsistency.fixedIssues d = [])
    /\ (forall content,
          ~ In (Fs.WriteFile Fs.StoryBibleJson content)
               (snd (CheckConsistency.checkConsistencyDirect file env p))).
Proof.
  intros file env p Hmode.
  split; [intros; now apply conservative_gate |].
  split; [intros; now apply only_unlisted_is_fixed |].
  split; [reflexivity |].
  split; [intros; rewrite Hmode; apply autoFix_detected_conservative |].
  unfold CheckConsistency.checkConsistencyDirect, Eff.try_boundary.
  destruct file as [| m | sb]; cbn.
  - split; [intros d H; discriminate | intros c []].
  - split; [intros d H; discriminate | intros c []].
  - rewrite Hmode, autoFix_detected_conservative. cbn [fst snd].
    unfold Eff.bind, Eff.ret, Eff.perform.
    destruct (Checker.detectIssues sb p) as [| i issues];
      destruct (Checker.autoFix p), (Checker.generateReport p); cbn;
      (split; [intros d H; injection H as <-; reflexivity
              | intros c H; repeat destruct H as [H | H];
                try discriminate; try contradiction]).
Qed.


(** C3 on the sample story bible, whose one issue is a [moderate]
    [character-unlisted]: conservative auto-fix fixes nothing. *)
Lemma conservative_autofix_sample :
  Checker.fixMode Samples.conservative_autofix = "conservative"
  /\ (forall d,
        Result.data
          (fst (CheckConsistency.checkConsistencyDirect
                  (Fs.Stored Samples.unlisted_bible) Samples.env
                  Samples.conservative_autofix)) = Some d ->
        CheckConsistency.fixedIssues d = [])
  /\ (forall content,
        ~ In (Fs.WriteFile Fs.StoryBibleJson content)
             (snd (CheckConsistency.checkConsistencyDirect
                     (Fs.Stored Samples.unlisted_bible) Samples.env
                     Samples.conservative_autofix))).
Proof.
  split; [reflexivity |].
  pose proof (conservative_autofix_fixes_nothing
                (Fs.Stored Samples.unlisted_bible) Samples.env
                Samples.conservative_autofix eq_refl)
    as (_ & _ & _ & _ & Hdata & Hwrite).
  split; assumption.
Defined.

(* ====================================================================== *)
(** ** The arc rule *)
(* ====================================================================== *)

Lemma check_character_in (characters : list Character.t)
    (chapters : list Chapter.t) (scenes : list Scene.t) (c : Character.t)
    (i : Issue.t) :
  In c characters ->
  In i (Checker.check_character chapters scenes c) ->
  In i (Checker.checkCharacterConsistency characters chapters scenes).
Proof.
  intros Hc Hi. unfold Checker.checkCharacterConsistency.
  apply in_flat_map. now exists c.
Qed.

Lemma appears_in_several_spec (c : Character.t) (chapters : list Chapter.t) :
  SpecWording.appears_in_several c chapters
  = (1 <? Z.of_nat
            (List.length
               (filter (fun ch => JS.opt_includes (Chapter.characters ch)
                                    (Character.id c)) chapters))).
Proof.
  unfold SpecWording.appears_in_several.
  destruct (Nat.ltb_spec 1 (List.length
              (filter (fun ch => JS.opt_includes (Chapter.characters ch)
                                   (Character.id c)) chapters)));
    symmetry; [apply Z.ltb_lt | apply Z.ltb_ge]; lia.
Qed.

(** C6, as the code has it. A character that has an arc object whose summary
    is missing, empty or the placeholder ["To be developed"], and that more
    than one in-scope chapter lists, gets a [character-arc-undefined] issue
    of severity [minor] naming it; the development-continuity test is
    guarded by [character.arc], so a character without an arc object gets
    none. *)
Theorem arc_undefined_flagged_when_arc_present :
  forall (characters : list Character.t) (chapters : list Chapter.t)
         (scenes : list Scene.t) (c : Character.t) (a : Arc.t),
    In c characters ->
    Character.arc c = Some a ->
    Checker.arc_summary_undefined a = true ->
    SpecWording.appears_in_several c chapters = true ->
    In (Checker.arc_undefined_issue c)
       (Checker.checkCharacterConsistency characters chapters scenes)
    /\ Issue.type (Checker.arc_undefined_issue c) = "character-arc-undefined"
    /\ Issue.severity (Checker.arc_undefined_issue c) = "minor"
    /\ Issue.characterId (Checker.arc_undefined_issue c)
       = Some (Character.id c)
    /\ (forall c' : Character.t,
          Character.arc c' = None ->
          filter (Issue.has_type "character-arc-undefined")
            (Checker.check_character chapters scenes c') = []).
Proof.
  intros characters chapters scenes c a Hin Harc Hsum Hsev.
  split; [| repeat split].
  - apply check_character_in with (c := c); [assumption |].
    unfold Checker.check_character. apply in_or_app. right.
    unfold Checker.arc_check. rewrite Harc.
    rewrite <- appears_in_several_spec, Hsev, Hsum. now left.
  - intros c' Hnone. unfold Checker.check_character, Checker.arc_check.
    rewrite Hnone, app_nil_r.
    induction (filter _ scenes) as [| s l IH]; [reflexivity |].
    cbn [flat_map]. rewrite filter_app, IH, app_nil_r.
    unfold Checker.unlisted_in_scene.
    destruct (find _ chapters); [| reflexivity].
    now destruct (negb _).
Qed.

(** C6 on a sample: a character whose arc summary is the placeholder,
    listed by two chapters. *)
Lemma arc_undefined_sample :
  In Samples.placeholder_character [Samples.placeholder_character]
  /\ Character.arc Samples.placeholder_character
     = Some (Arc.mk (Some "To be developed"))
  /\ In (Checker.arc_undefined_issue Samples.placeholder_character)
        (Checker.checkCharacterConsistency [Samples.placeholder_character]
           Samples.two_chapters []).
Proof.
  split; [now left |]. split; [reflexivity |].
  apply (arc_undefined_flagged_when_arc_present
           [Samples.placeholder_character] Samples.two_chapters []
           Samples.placeholder_character (Arc.mk (Some "To be developed"))
           (or_introl eq_refl) eq_refl eq_refl eq_refl).
Defined.

(** C6 as stated fails: a character without an arc object has no arc summary
    (it is empty), two chapters list it, and the check flags nothing. *)
Lemma arcless_character_is_not_flagged :
  ~ (forall (characters : list Character.t) (chapters : list Chapter.t)
            (scenes : list Scene.t) (c : Character.t),
        In c characters ->
        SpecWording.appears_in_several c chapters = true ->
        SpecWording.arc_summary_empty_or_placeholder c = true ->
        exists i,
          In i (Checker.checkCharacterConsistency characters chapters scenes)
          /\ Issue.type i = "character-arc-undefined"
          /\ Issue.severity i = "minor"
          /\ Issue.characterId i = Some (Character.id c)).
Proof.
  intros H.
  destruct (H [Samples.K] Samples.two_chapters [] Samples.K
              (or_introl eq_refl) eq_refl eq_refl) as (i & Hi & _).
  exact Hi.
Qed.


(* ====================================================================== *)
(** ** The plot rule *)
(* ====================================================================== *)

Lemma checkPlot_app (l1 l2 : list PlotThread.t) (chapters : list Chapter.t)
    (scenes : list Scene.t) :
  Checker.checkPlotConsistency (l1 ++ l2) chapters scenes
  = (Checker.checkPlotConsistency l1 chapters scenes
     ++ Checker.checkPlotConsistency l2 chapters scenes)%list.
Proof. unfold Checker.checkPlotConsistency. apply flat_map_app. Qed.

Lemma check_plotThread_ids (chapters : list Chapter.t) (t : PlotThread.t)
    (i : Issue.t) :
  In i (Checker.check_plotThread chapters t) ->
  Issue.plotThreadId i = Some (PlotThread.id t).
Proof.
  unfold Checker.check_plotThread. intros Hi.
  apply in_app_or in Hi. destruct Hi as [Hi | Hi];
    destruct (_ && _); try contradiction;
    destruct Hi as [<- | []]; reflexivity.
Qed.

(** Threads with another id contribute nothing about the thread [id]. *)
Lemma unresolved_for_others (id : Z) (l : list PlotThread.t)
    (chapters : list Chapter.t) (scenes : list Scene.t) :
  (forall u, In u l -> PlotThread.id u <> id) ->
  filter (SpecWording.unresolved_for id)
    (Checker.checkPlotConsistency l chapters scenes) = [].
Proof.
  intros Hother.
  induction l as [| u l IH]; [reflexivity |].
  change (u :: l) with ([u] ++ l)%list.
  rewrite checkPlot_app, filter_app, IH by (intros v Hv; apply Hother; now right).
  rewrite app_nil_r. unfold Checker.checkPlotConsistency.
  cbn [flat_map]. rewrite app_nil_r.
  assert (Hu : PlotThread.id u <> id) by (apply Hother; now left).
  assert (Hall : forall i, In i (Checker.check_plotThread chapters u) ->
                           SpecWording.unresolved_for id i = false).
  { intros i Hi. unfold SpecWording.unresolved_for.
    rewrite (check_plotThread_ids chapters u i Hi).
    apply Z.eqb_neq in Hu. rewrite Hu. apply andb_false_r. }
  induction (Checker.check_plotThread chapters u) as [| i rest IHi];
    [reflexivity |].
  cbn [filter]. rewrite (Hall i (or_introl eq_refl)).
  apply IHi. intros j Hj. apply Hall. now right.
Qed.

Lemma unresolved_for_completed (chapters : list Chapter.t) (t : PlotThread.t) :
  PlotThread.status t = "completed" ->
  filter (SpecWording.unresolved_for (PlotThread.id t))
    (Checker.check_plotThread chapters t)
  = if JS.truthy_str (PlotThread.resolution t)
    then [] else [Checker.unresolved_issue t].
Proof.
  intros Hst. unfold Checker.check_plotThread. rewrite Hst.
  cbn [String.eqb Ascii.eqb Bool.eqb negb andb].
  rewrite andb_false_r. cbn [app].
  destruct (JS.truthy_str (PlotThread.resolution t)); [reflexivity |].
  cbn [negb filter SpecWording.unresolved_for Issue.has_type
       Checker.unresolved_issue Issue.type Issue.plotThreadId
       String.eqb Ascii.eqb Bool.eqb andb].
  now rewrite Z.eqb_refl.
Qed.

(** C7. For every plot thread whose status is [completed] and that has no
    [resolution], the thread's turn in the plot check pushes exactly one
    [plot-thread-unresolved] issue; in a collection whose other threads have
    other ids, the check as a whole emits exactly one such issue naming the
    thread's id, of severity [moderate]; once the thread has a non-empty
    resolution, the check emits none for it. *)
Theorem completed_thread_without_resolution_flagged_once :
  forall (before after : list PlotThread.t) (t : PlotThread.t)
         (chapters : list Chapter.t) (scenes : list Scene.t),
    PlotThread.status t = "completed" ->
    PlotThread.resolution t = None ->
    (forall u, In u (before ++ after)%list ->
               PlotThread.id u <> PlotThread.id t) ->
    filter (SpecWording.unresolved_for (PlotThread.id t))
      (Checker.checkPlotConsistency (before ++ t :: after) chapters scenes)
    = [Checker.unresolved_issue t]
    /\ Checker.checkPlotConsistency (before ++ t :: after) chapters scenes
       = (Checker.checkPlotConsistency before chapters scenes
          ++ Checker.check_plotThread chapters t
          ++ Checker.checkPlotConsistency after chapters scenes)%list
    /\ filter (Issue.has_type "plot-thread-unresolved")
         (Checker.check_plotThread chapters t)
       = [Checker.unresolved_issue t]
    /\ Issue.type (Checker.unresolved_issue t) = "plot-thread-unresolved"
    /\ Issue.severity (Checker.unresolved_issue t) = "moderate"
    /\ Issue.plotThreadId (Checker.unresolved_issue t)
       = Some (PlotThread.id t)
    /\ (forall resolution : string,
          resolution <> "" ->
          filter (SpecWording.unresolved_for (PlotThread.id t))
            (Checker.checkPlotConsistency
               (before ++ PlotThread.with_resolution t (Some resolution)
                  :: after) chapters scenes) = []).
Proof.
  intros before after t chapters scenes Hst Hres Hids.
  assert (Hsplit : forall t',
            PlotThread.id t' = PlotThread.id t ->
            filter (SpecWording.unresolved_for (PlotThread.id t))
              (Checker.checkPlotConsistency (before ++ t' :: after)
                 chapters scenes)
            = filter (SpecWording.unresolved_for (PlotThread.id t))
                (Checker.check_plotThread chapters t')).
  { intros t' Hid.
    change (t' :: after) with ([t'] ++ after)%list.
    rewrite !checkPlot_app, !filter_app.
    rewrite (unresolved_for_others (PlotThread.id t) before)
      by (intros u Hu; apply Hids, in_or_app; now left).
    rewrite (unresolved_for_others (PlotThread.id t) after)
      by (intros u Hu; apply Hids, in_or_app; now right).
    rewrite app_nil_r. unfold Checker.checkPlotConsistency.
    cbn [flat_map app]. now rewrite app_nil_r. }
  split; [| split; [| split; [| repeat split]]].
  - rewrite (Hsplit t eq_refl), (unresolved_for_completed chapters t Hst).
    now rewrite Hres.
  - change (t :: after) with ([t] ++ after)%list.
    rewrite !checkPlot_app. unfold Checker.checkPlotConsistency at 2.
    cbn [flat_map]. now rewrite app_nil_r.
  - unfold Checker.check_plotThread. rewrite Hst, Hres.
    cbn [String.eqb Ascii.eqb Bool.eqb negb andb JS.truthy_str].
    rewrite andb_false_r. reflexivity.
  - intros resolution Hne.
    rewrite (Hsplit (PlotThread.with_resolution t (Some resolution)) eq_refl).
    change (PlotThread.id t)
      with (PlotThread.id (PlotThread.with_resolution t (Some resolution))).
    rewrite unresolved_for_completed by exact Hst.
    cbn [PlotThread.with_resolution PlotThread.resolution JS.truthy_str].
    apply String.eqb_neq in Hne. now rewrite Hne.
Qed.

(** C7 on a sample: thread 2 completed without a resolution, between two
    other threads; then with a resolution. *)
Lemma completed_thread_sample :
  PlotThread.status (Samples.plotThread 2 "completed" None) = "completed"
  /\ PlotThread.resolution (Samples.plotThread 2 "completed" None) = None
  /\ filter (SpecWording.unresolved_for 2)
       (Checker.checkPlotConsistency
          [Samples.plotThread 1 "in-progress" None;
           Samples.plotThread 2 "completed" None;
           Samples.plotThread 3 "completed" (Some "The crown is returned.")]
          Samples.two_chapters [])
     = [Checker.unresolved_issue (Samples.plotThread 2 "completed" None)]
  /\ filter (SpecWording.unresolved_for 2)
       (Checker.checkPlotConsistency
          [Samples.plotThread 1 "in-progress" None;
           Samples.plotThread 2 "completed" (Some "Caught at the gate.");
           Samples.plotThread 3 "completed" (Some "The crown is returned.")]
          Samples.two_chapters [])
     = [].
Proof.
  split; [reflexivity |]. split; [reflexivity |].
  assert (Hids : forall u,
            In u ([Samples.plotThread 1 "in-progress" None]
                  ++ [Samples.plotThread 3 "completed"
                        (Some "The crown is returned.")])%list ->
            PlotThread.id u <> 2).
  { intros u [<- | [<- | []]]; discriminate. }
  destruct (completed_thread_without_resolution_flagged_once
              [Samples.plotThread 1 "in-progress" None]
              [Samples.plotThread 3 "completed" (Some "The crown is returned.")]
              (Samples.plotThread 2 "completed" None)
              Samples.two_chapters [] eq_refl eq_refl Hids)
    as (H1 & _ & _ & _ & _ & _ & H5).
  split; [exact H1 |].
  apply (H5 "Caught at the gate."). discriminate.
Defined.


(* ====================================================================== *)
(** ** The chapter range and unnumbered chapters *)
(* ====================================================================== *)

Lemma in_range_numbered (startChapter : Z) (endChapter : option Z)
    (c : Chapter.t) :
  1 <= startChapter ->
  Checker.in_range startChapter endChapter c = true ->
  SpecWording.unnumbered c = false.
Proof.
  intros Hstart Hin. unfold Checker.in_range in Hin.
  apply andb_true_iff in Hin. destruct Hin as [Hin _].
  apply Z.leb_le in Hin. unfold SpecWording.unnumbered.
  apply Z.eqb_neq. lia.
Qed.

Lemma target_of_numbered_only (sb : StoryBible.t) (p : Checker.Params) :
  1 <= Checker.startChapter p ->
  Checker.targetChapters (SpecWording.numbered_only sb) p
  = Checker.targetChapters sb p.
Proof.
  intros Hstart. unfold Checker.targetChapters, SpecWording.numbered_only.
  cbn [StoryBible.with_chapters StoryBible.chapters JS.arr_or].
  induction (JS.arr_or (StoryBible.chapters sb)) as [| c l IH];
    [reflexivity |].
  cbn [filter].
  destruct (Checker.in_range _ _ c) eqn:Hc.
  - rewrite (in_range_numbered _ _ _ Hstart Hc).
    cbn [negb filter]. now rewrite Hc, IH.
  - destruct (negb _); [cbn [filter]; rewrite Hc |]; exact IH.
Qed.

Lemma emitted_chapterId (chapters : list Chapter.t) (i : Issue.t) (k : Z) :
  ProofAux.emitted_form chapters i ->
  Issue.chapterId i = Some k ->
  exists ch, In ch chapters /\ Chapter.id ch = k.
Proof.
  intros [(c & ch & Hin & ->) | [(c & ->) | [(t & ->) | [(t & ->)
         | [(a & b & ->) | [(n & ->) | (n & ->)]]]]]] Hk;
    try discriminate.
  exists ch. split; [assumption |]. now injection Hk.
Qed.

(** C10. With [startChapter >= 1] (the default is 1), a chapter whose
    [chapterNumber] is missing or 0 is not among the in-scope chapters; the
    issues of check-consistency are those of the story bible without its
    unnumbered chapters; every issue that names a chapter names the id of a
    numbered in-scope chapter; and when every chapter with the id a scene
    gives as its parent is unnumbered, no issue names that id: the scene
    produces no [character-unlisted] issue. *)
Theorem unnumbered_chapters_are_out_of_scope :
  forall (sb : StoryBible.t) (p : Checker.Params),
    1 <= Checker.startChapter p ->
    (forall c, SpecWording.unnumbered c = true ->
               ~ In c (Checker.targetChapters sb p))
    /\ Checker.detectIssues sb p
       = Checker.detectIssues (SpecWording.numbered_only sb) p
    /\ (forall i k,
          In i (Checker.detectIssues sb p) ->
          Issue.chapterId i = Some k ->
          exists c, In c (JS.arr_or (StoryBible.chapters sb))
                    /\ Chapter.id c = k
                    /\ SpecWording.unnumbered c = false)
    /\ (forall s : Scene.t,
          (forall c, In c (JS.arr_or (StoryBible.chapters sb)) ->
                     Chapter.id c = Scene.chapterId s ->
                     SpecWording.unnumbered c = true) ->
          forall i, In i (Checker.detectIssues sb p) ->
                    Issue.chapterId i <> Some (Scene.chapterId s)).
Proof.
  intros sb p Hstart.
  assert (Hscope : forall c, In c (Checker.targetChapters sb p) ->
             In c (JS.arr_or (StoryBible.chapters sb))
             /\ SpecWording.unnumbered c = false).
  { intros c Hc. unfold Checker.targetChapters in Hc.
    apply filter_In in Hc. destruct Hc as [Hin Hr]. split; [assumption |].
    eapply in_range_numbered; eassumption. }
  assert (Hnamed : forall i k,
             In i (Checker.detectIssues sb p) ->
             Issue.chapterId i = Some k ->
             exists c, In c (JS.arr_or (StoryBible.chapters sb))
                       /\ Chapter.id c = k
                       /\ SpecWording.unnumbered c = false).
  { intros i k Hi Hk.
    destruct (emitted_chapterId _ i k (detected_issue_form sb p i Hi) Hk)
      as (ch & Hch & Hid).
    destruct (Hscope ch Hch) as [Hin Hnum]. now exists ch. }
  split; [| split; [| split]].
  - intros c Hun Hc. destruct (Hscope c Hc) as [_ Hnum]. congruence.
  - unfold Checker.detectIssues.
    rewrite (target_of_numbered_only sb p Hstart). reflexivity.
  - exact Hnamed.
  - intros s Hparent i Hi Hk.
    destruct (Hnamed i _ Hi Hk) as (c & Hin & Hid & Hnum).
    rewrite (Hparent c Hin Hid) in Hnum. discriminate.
Qed.

(** C10 on a sample: under the defaults, a chapter without a number and a
    scene of it. *)
Lemma unnumbered_chapter_sample :
  1 <= Checker.startChapter Checker.defaults
  /\ SpecWording.unnumbered Samples.unnumbered_chapter = true
  /\ ~ In Samples.unnumbered_chapter
          (Checker.targetChapters Samples.unnumbered_bible Checker.defaults)
  /\ (forall i, In i (Checker.detectIssues Samples.unnumbered_bible
                        Checker.defaults) ->
                Issue.chapterId i <> Some (Scene.chapterId Samples.S)).
Proof.
  assert (Hstart : 1 <= Checker.startChapter Checker.defaults)
    by (cbn; lia).
  destruct (unnumbered_chapters_are_out_of_scope Samples.unnumbered_bible
              Checker.defaults Hstart) as (Hout & _ & _ & Hscene).
  split; [exact Hstart |]. split; [reflexivity |].
  split; [apply Hout; reflexivity |].
  apply Hscene. intros c [<- | []] _. reflexivity.
Defined.


(* ====================================================================== *)
(** ** The timeline rule: sorting, gaps and duplicates *)
(* ====================================================================== *)

Section Sorting.

Lemma insert_sorted_perm (x : Z) (l : list Z) :
  Permutation (x :: l) (JS.insert_sorted x l).
Proof.
  induction l as [| y t IH]; cbn [JS.insert_sorted]; [reflexivity |].
  destruct (x <? y); [reflexivity |].
  rewrite perm_swap. now apply perm_skip.
Qed.

Lemma insert_sorted_sorted (x : Z) (l : list Z) :
  StronglySorted Z.le l -> StronglySorted Z.le (JS.insert_sorted x l).
Proof.
  induction 1 as [| y t Hs IH Hall]; cbn [JS.insert_sorted].
  - constructor; constructor.
  - destruct (Z.ltb_spec x y) as [Hlt | Hge].
    + constructor; [now constructor |].
      constructor; [lia |].
      eapply Forall_impl; [| exact Hall]. intros z Hz. cbn in Hz. lia.
    + constructor; [assumption |].
      eapply Permutation_Forall; [apply insert_sorted_perm |].
      constructor; assumption.
Qed.

Lemma sort_from_perm (l acc : list Z) :
  Permutation (acc ++ l)
    (fold_left (fun a x => JS.insert_sorted x a) l acc).
Proof.
  revert acc. induction l as [| x t IH]; intros acc; cbn [fold_left].
  - now rewrite app_nil_r.
  - eapply Permutation_trans; [| apply IH].
    eapply Permutation_trans; [symmetry; apply Permutation_middle |].
    change (x :: acc ++ t)%list with ((x :: acc) ++ t)%list.
    apply Permutation_app_tail, insert_sorted_perm.
Qed.

Lemma sort_from_sorted (l acc : list Z) :
  StronglySorted Z.le acc ->
  StronglySorted Z.le (fold_left (fun a x => JS.insert_sorted x a) l acc).
Proof.
  revert acc. induction l as [| x t IH]; intros acc Hacc; cbn [fold_left];
    [assumption |].
  apply IH. now apply insert_sorted_sorted.
Qed.

Lemma sort_numbers_perm (l : list Z) : Permutation l (JS.sort_numbers l).
Proof. exact (sort_from_perm l []). Qed.

Lemma sort_numbers_sorted (l : list Z) :
  StronglySorted Z.le (JS.sort_numbers l).
Proof. apply sort_from_sorted. constructor. Qed.

Lemma sort_numbers_in (l : list Z) (x : Z) :
  In x (JS.sort_numbers l) <-> In x l.
Proof.
  split; apply Permutation_in;
    [symmetry |]; apply sort_numbers_perm.
Qed.

Lemma sort_numbers_count (l : list Z) (x : Z) :
  count_occ Z.eq_dec (JS.sort_numbers l) x = count_occ Z.eq_dec l x.
Proof.
  symmetry. apply Permutation_count_occ, sort_numbers_perm.
Qed.

(** Two strictly ascending lists with the same elements are equal. *)
Lemma ascending_unique (l1 l2 : list Z) :
  StronglySorted Z.lt l1 -> StronglySorted Z.lt l2 ->
  (forall z, In z l1 <-> In z l2) -> l1 = l2.
Proof.
  intros H1. revert l2.
  induction H1 as [| x1 t1 Hs1 IH Hall1]; intros l2 H2 Hsame.
  - destruct l2 as [| x2 t2]; [reflexivity |].
    destruct (proj2 (Hsame x2) (or_introl eq_refl)).
  - destruct H2 as [| x2 t2 Hs2 Hall2].
    + destruct (proj1 (Hsame x1) (or_introl eq_refl)).
    + rewrite Forall_forall in Hall1, Hall2.
      assert (Hx : x1 = x2).
      { destruct (proj1 (Hsame x1) (or_introl eq_refl)) as [E | Hin2];
          [now symmetry |].
        destruct (proj2 (Hsame x2) (or_introl eq_refl)) as [E | Hin1];
          [assumption |].
        specialize (Hall1 _ Hin1). specialize (Hall2 _ Hin2). lia. }
      subst x2. f_equal. apply IH; [assumption |].
      intros z. split; intros Hz.
      * destruct (proj1 (Hsame z) (or_intror Hz)) as [E | Hin];
          [| assumption].
        specialize (Hall1 _ Hz). lia.
      * destruct (proj2 (Hsame z) (or_intror Hz)) as [E | Hin];
          [| assumption].
        specialize (Hall2 _ Hz). lia.
Qed.

Lemma uniq_in (l : list Z) (z : Z) : In z (ProofAux.uniq l) <-> In z l.
Proof.
  induction l as [| x t IH]; [reflexivity |].
  cbn [ProofAux.uniq]. destruct t as [| y t']; [reflexivity |].
  destruct (Z.eqb_spec x y) as [-> | Hne].
  - rewrite IH. cbn [In]. tauto.
  - cbn [In] in *. rewrite IH. tauto.
Qed.

Lemma uniq_ascending (l : list Z) :
  StronglySorted Z.le l -> StronglySorted Z.lt (ProofAux.uniq l).
Proof.
  induction 1 as [| x t Hs IH Hall]; [constructor |].
  cbn [ProofAux.uniq]. destruct t as [| y t'].
  - constructor; constructor.
  - destruct (Z.eqb_spec x y) as [-> | Hne]; [exact IH |].
    constructor; [exact IH |].
    apply Forall_forall. intros z Hz. apply (proj1 (uniq_in _ _)) in Hz.
    rewrite Forall_forall in Hall.
    inversion Hs as [| ? ? _ Hall']; subst.
    rewrite Forall_forall in Hall'.
    assert (x <= y) by (apply Hall; now left).
    cbn [In] in Hz. destruct Hz as [E | Hz]; [lia |].
    specialize (Hall' _ Hz). lia.
Qed.

Lemma sorted_nodup_ascending (l : list Z) :
  StronglySorted Z.le l -> NoDup l -> StronglySorted Z.lt l.
Proof.
  induction 1 as [| x t Hs IH Hall]; intros Hnd; [constructor |].
  inversion Hnd as [| ? ? Hnotin Hnd']; subst.
  constructor; [now apply IH |].
  rewrite Forall_forall in *. intros z Hz.
  specialize (Hall _ Hz).
  assert (z <> x) by (intros ->; contradiction). lia.
Qed.

Lemma uniq_sort (l : list Z) :
  ProofAux.uniq (JS.sort_numbers l) = SpecWording.sorted_distinct l.
Proof.
  apply ascending_unique.
  - apply uniq_ascending, sort_numbers_sorted.
  - apply sorted_nodup_ascending; [apply sort_numbers_sorted |].
    eapply Permutation_NoDup; [apply sort_numbers_perm |].
    apply NoDup_nodup.
  - intros z. unfold SpecWording.sorted_distinct.
    now rewrite uniq_in, !sort_numbers_in, nodup_In.
Qed.

End Sorting.

Section Gaps.

Import SpecWording.

Lemma gaps_after_pairs (prev : Z) (rest : list Z) :
  Checker.gaps_after prev rest = filter wide (combine (prev :: rest) rest).
Proof.
  revert prev. induction rest as [| x t IH]; intros prev; [reflexivity |].
  cbn [Checker.gaps_after combine filter]. unfold wide at 1. cbn [fst snd].
  rewrite IH. now destruct (1 <? x - prev).
Qed.

Lemma gaps_pairs (l : list Z) :
  Checker.gaps l = filter wide (SpecWording.adjacent_pairs l).
Proof.
  destruct l as [| x t]; [reflexivity |]. apply gaps_after_pairs.
Qed.

Lemma uniq_head (x : Z) (t : list Z) :
  exists t', ProofAux.uniq (x :: t) = x :: t'.
Proof.
  revert x. induction t as [| y t IH]; intros x.
  - now exists [].
  - cbn [ProofAux.uniq]. destruct (Z.eqb_spec x y) as [-> | Hne].
    + apply IH.
    + eexists. reflexivity.
Qed.

Lemma wide_pairs_uniq (l : list Z) :
  filter wide (SpecWording.adjacent_pairs l)
  = filter wide (SpecWording.adjacent_pairs (ProofAux.uniq l)).
Proof.
  induction l as [| x t IH]; [reflexivity |].
  destruct t as [| y t']; [reflexivity |].
  change (SpecWording.adjacent_pairs (x :: y :: t'))
    with ((x, y) :: SpecWording.adjacent_pairs (y :: t')).
  cbn [filter ProofAux.uniq].
  destruct (Z.eqb_spec x y) as [-> | Hne].
  - unfold wide at 1. cbn [fst snd]. rewrite Z.sub_diag. exact IH.
  - destruct (uniq_head y t') as (u & Hu).
    rewrite IH.
    change (match t' with
            | [] => [y]
            | y0 :: _ => if y =? y0 then ProofAux.uniq t'
                         else y :: ProofAux.uniq t'
            end) with (ProofAux.uniq (y :: t')).
    rewrite Hu.
    change (SpecWording.adjacent_pairs (x :: y :: u))
      with ((x, y) :: SpecWording.adjacent_pairs (y :: u)).
    reflexivity.
Qed.

(** The gaps the loop finds in the sorted numbers are the adjacent pairs of
    the sorted distinct numbers that differ by more than 1. *)
Lemma gaps_of_sorted (nums : list Z) :
  Checker.gaps (JS.sort_numbers nums) = SpecWording.gap_pairs nums.
Proof.
  rewrite gaps_pairs, wide_pairs_uniq, uniq_sort. reflexivity.
Qed.

End Gaps.

Section Duplicates.

Lemma indexOf_range (l : list Z) (x : Z) :
  (In x l -> 0 <= JS.indexOf l x < Z.of_nat (List.length l))
  /\ (~ In x l -> JS.indexOf l x = -1).
Proof.
  induction l as [| y t [IHin IHout]]; cbn [JS.indexOf List.length In].
  - split; [intros [] | reflexivity].
  - destruct (Z.eqb_spec y x) as [-> | Hne].
    + split; [intros _; lia | intros H; exfalso; apply H; now left].
    + split.
      * intros [E | Hin]; [contradiction |].
        specialize (IHin Hin).
        destruct (Z.ltb_spec (JS.indexOf t x) 0); lia.
      * intros Hnot. rewrite IHout by tauto. reflexivity.
Qed.

Lemma indexOf_app (pre rest : list Z) (x : Z) :
  JS.indexOf (pre ++ rest) x
  = if JS.includes pre x then JS.indexOf pre x
    else if JS.includes rest x
         then Z.of_nat (List.length pre) + JS.indexOf rest x
         else -1.
Proof.
  induction pre as [| y t IH]; cbn [app JS.indexOf JS.includes existsb List.length].
  - fold (JS.includes rest x).
    destruct (JS.includes rest x) eqn:Hin; [lia |].
    apply indexOf_range. intros H.
    unfold JS.includes in Hin.
    assert (existsb (Z.eqb x) rest = true); [| congruence].
    apply existsb_exists. exists x. split; [assumption | apply Z.eqb_refl].
  - fold (JS.includes t x). fold (JS.includes rest x).
    rewrite IH. rewrite (Z.eqb_sym x y).
    destruct (Z.eqb_spec y x) as [-> | Hne]; cbn [orb]; [reflexivity |].
    destruct (JS.includes t x) eqn:Ht; [reflexivity |].
    destruct (JS.includes rest x) eqn:Hr; [| reflexivity].
    assert (Hin : In x rest).
    { unfold JS.includes in Hr. apply existsb_exists in Hr.
      destruct Hr as (z & Hz & E). apply Z.eqb_eq in E. now subst. }
    pose proof (proj1 (indexOf_range rest x) Hin).
    destruct (Z.ltb_spec (Z.of_nat (List.length t) + JS.indexOf rest x) 0); lia.
Qed.

Lemma includes_In (l : list Z) (x : Z) : JS.includes l x = true <-> In x l.
Proof.
  unfold JS.includes. rewrite existsb_exists. split.
  - intros (z & Hz & E). apply Z.eqb_eq in E. now subst.
  - intros H. exists x. split; [assumption | apply Z.eqb_refl].
Qed.

(** An element is kept by the duplicates filter when it occurred earlier. *)
Lemma duplicates_from (pre rest : list Z) :
  JS.filteri_from
    (fun num index => negb (JS.indexOf (pre ++ rest) num =? index))
    (Z.of_nat (List.length pre)) rest
  = ProofAux.seen_before pre rest.
Proof.
  revert pre. induction rest as [| x t IH]; intros pre; [reflexivity |].
  cbn [JS.filteri_from ProofAux.seen_before].
  assert (Hnext : JS.filteri_from
            (fun num index => negb (JS.indexOf (pre ++ x :: t) num =? index))
            (Z.of_nat (List.length pre) + 1) t
          = ProofAux.seen_before (pre ++ [x]) t).
  { rewrite <- IH. rewrite <- app_assoc. cbn [app].
    rewrite length_app. cbn [List.length].
    replace (Z.of_nat (List.length pre + 1)) with (Z.of_nat (List.length pre) + 1)
      by lia.
    reflexivity. }
  rewrite Hnext, indexOf_app.
  destruct (JS.includes pre x) eqn:Hpre.
  - pose proof (proj1 (indexOf_range pre x) (proj1 (includes_In pre x) Hpre)).
    destruct (Z.eqb_spec (JS.indexOf pre x) (Z.of_nat (List.length pre)));
      [lia | reflexivity].
  - cbn [JS.includes existsb]. rewrite Z.eqb_refl. cbn [orb JS.indexOf].
    rewrite Z.eqb_refl, Z.add_0_r, Z.eqb_refl. reflexivity.
Qed.

Lemma duplicates_seen (l : list Z) :
  Checker.duplicates l = ProofAux.seen_before [] l.
Proof. exact (duplicates_from [] l). Qed.

Lemma count_occ_snoc (l : list Z) (x n : Z) :
  count_occ Z.eq_dec (l ++ [x]) n
  = (count_occ Z.eq_dec l n + if Z.eq_dec x n then 1 else 0)%nat.
Proof.
  rewrite count_occ_app. cbn [count_occ].
  now destruct (Z.eq_dec x n).
Qed.

Lemma seen_before_count (seen rest : list Z) (n : Z) :
  (count_occ Z.eq_dec (ProofAux.seen_before seen rest) n
   + (if JS.includes seen n then 0
      else if JS.includes rest n then 1 else 0)
   = count_occ Z.eq_dec rest n)%nat.
Proof.
  revert seen. induction rest as [| x t IH]; intros seen.
  - cbn. now destruct (JS.includes seen n).
  - cbn [ProofAux.seen_before]. specialize (IH (seen ++ [x])%list).
    assert (Hsnoc : JS.includes (seen ++ [x]) n
                    = JS.includes seen n || (x =? n)).
    { unfold JS.includes. rewrite existsb_app. cbn [existsb].
      now rewrite orb_false_r, (Z.eqb_sym n x). }
    rewrite Hsnoc in IH.
    assert (Hcons : JS.includes (x :: t) n = (x =? n) || JS.includes t n).
    { unfold JS.includes. cbn [existsb]. now rewrite (Z.eqb_sym n x). }
    rewrite Hcons. cbn [count_occ].
    destruct (Z.eq_dec x n) as [-> | Hne].
    + rewrite Z.eqb_refl in *. rewrite orb_true_r in IH. cbn [orb].
      destruct (JS.includes seen n) eqn:Hs; cbn [count_occ].
      * destruct (Z.eq_dec n n); [| contradiction]. lia.
      * lia.
    + apply Z.eqb_neq in Hne. rewrite Hne in *. rewrite orb_false_r in IH.
      cbn [orb].
      destruct (JS.includes seen x); cbn [count_occ]; [| exact IH].
      destruct (Z.eq_dec x n) as [E | _]; [| exact IH].
      apply Z.eqb_neq in Hne. contradiction.
Qed.

(** A number occurring k times is kept k - 1 times by the duplicates
    filter (and a number that does not occur, not at all). *)
Lemma duplicates_count (l : list Z) (n : Z) :
  count_occ Z.eq_dec (Checker.duplicates l) n
  = Nat.pred (count_occ Z.eq_dec l n).
Proof.
  rewrite duplicates_seen.
  pose proof (seen_before_count [] l n) as H. cbn [JS.includes existsb] in H.
  fold (JS.includes l n) in H.
  destruct (JS.includes l n) eqn:Hin; [lia |].
  assert (count_occ Z.eq_dec l n = 0%nat); [| lia].
  apply count_occ_not_In. intros Hn. apply includes_In in Hn. congruence.
Qed.

End Duplicates.

Lemma numbered_of_numbers (chapters : list Chapter.t) (numbers : list Z) :
  map Chapter.chapterNumber chapters = map Some numbers ->
  Checker.numbered chapters = filter (fun n => negb (n =? 0)) numbers.
Proof.
  unfold Checker.numbered. intros ->.
  induction numbers as [| n t IH]; [reflexivity |].
  unfold JS.truthy_numbers in *. cbn [map flat_map filter].
  rewrite IH. now destruct (n =? 0).
Qed.

(** C2, as the code has it. Chapters numbered 1, 2, 2, 4 yield exactly one
    [chapter-sequence-gap] issue (between 2 and 4, [minor]) and exactly one
    [duplicate-chapter-number] issue (number 2, [critical]).  In general the
    check emits one gap issue per adjacent pair of the ascending distinct
    chapter numbers that differ by more than 1, followed by one duplicate
    issue per occurrence of a chapter number after its first: a number that
    occurs k times yields k - 1 duplicate issues. *)
Theorem timeline_gaps_and_duplicates :
  forall (chapters : list Chapter.t) (scenes : list Scene.t),
    let nums := Checker.numbered chapters in
    Checker.checkTimelineConsistency chapters scenes
    = (map (fun g => Checker.gap_issue (fst g) (snd g))
         (SpecWording.gap_pairs nums)
       ++ map Checker.duplicate_issue
            (Checker.duplicates (JS.sort_numbers nums)))%list
    /\ (forall n,
          count_occ Z.eq_dec (Checker.duplicates (JS.sort_numbers nums)) n
          = Nat.pred (count_occ Z.eq_dec nums n))
    /\ (forall a b, Issue.type (Checker.gap_issue a b) = "chapter-sequence-gap"
                    /\ Issue.severity (Checker.gap_issue a b) = "minor")
    /\ (forall n,
          Issue.type (Checker.duplicate_issue n) = "duplicate-chapter-number"
          /\ Issue.severity (Checker.duplicate_issue n) = "critical")
    /\ (map Chapter.chapterNumber chapters = [Some 1; Some 2; Some 2; Some 4] ->
        Checker.checkTimelineConsistency chapters scenes
        = [Checker.gap_issue 2 4; Checker.duplicate_issue 2]).
Proof.
  intros chapters scenes nums.
  assert (Hgen : Checker.checkTimelineConsistency chapters scenes
            = (map (fun g => Checker.gap_issue (fst g) (snd g))
                 (SpecWording.gap_pairs nums)
               ++ map Checker.duplicate_issue
                    (Checker.duplicates (JS.sort_numbers nums)))%list).
  { unfold Checker.checkTimelineConsistency. fold nums.
    now rewrite gaps_of_sorted. }
  split; [exact Hgen |].
  split; [intros n; now rewrite duplicates_count, sort_numbers_count |].
  split; [intros a b; split; reflexivity |].
  split; [intros n; split; reflexivity |].
  intros Hnums. rewrite Hgen. unfold nums.
  rewrite (numbered_of_numbers chapters [1; 2; 2; 4] Hnums).
  reflexivity.
Qed.

(** C2 as stated fails on the duplicates: when three chapters carry the
    number 2, one chapter number occurs more than once, and the check emits
    two [duplicate-chapter-number] issues. *)
Lemma one_number_three_times_two_duplicates :
  ~ (forall (chapters : list Chapter.t) (scenes : list Scene.t),
        List.length
          (filter (Issue.has_type "duplicate-chapter-number")
             (Checker.checkTimelineConsistency chapters scenes))
        = List.length
            (SpecWording.repeated_numbers (Checker.numbered chapters))).
Proof.
  intros H.
  specialize (H (Samples.numbered_chapters [2; 2; 2]) []).
  vm_compute in H. discriminate H.
Qed.


(* ====================================================================== *)
(** ** Weighted completion *)
(* ====================================================================== *)












(* ====================================================================== *)
(** ** Operations without a story bible *)
(* ====================================================================== *)

(** C8. Each operation other than parse-premise, started when the story
    bible document does not exist, returns [success: false] with the
    advisory that tells the caller to run parse-premise first (and the
    error ["Story bible not found"]), and performs no mutation: no
    directory is created and no file is written. *)
Theorem missing_story_bible_is_reported_without_mutation :
  (forall now service p,
      CreateCharacter.createCharacterDirect Fs.Missing now service p
      = (Common.noStoryBible Common.cross_mark_misencoded, []))
  /\ (forall now service p,
        GenerateChapter.generateChapterDirect Fs.Missing now service p
        = (Common.noStoryBible Common.cross_mark, []))
  /\ (forall env p,
        CheckConsistency.checkConsistencyDirect Fs.Missing env p
        = (Common.noStoryBible Common.cross_mark, []))
  /\ (forall p,
        GetStoryStatus.getStoryStatusDirect Fs.Missing p
        = (Common.noStoryBible Common.cross_mark, []))
  /\ (forall parseInt p,
        NextChapter.nextChapterDirect parseInt Fs.Missing p
        = (Common.noStoryBible Common.cross_mark, []))
  /\ (forall (D : Type) (glyph : string),
        Result.success (@Common.noStoryBible D glyph) = false
        /\ Result.message (@Common.noStoryBible D glyph)
           = Text (glyph ++ Common.advice)
        /\ Result.data (@Common.noStoryBible D glyph) = None
        /\ Result.error (@Common.noStoryBible D glyph)
           = Some "Story bible not found")
  /\ JS.str_includes Common.advice
       ("Run " ++ JS.quoted "parse-premise" ++ " first") = true.
Proof.
  repeat split; reflexivity.
Qed.


(* ====================================================================== *)
(** ** create-character: enrichment and persistence *)
(* ====================================================================== *)

Section CreateCharacterRuns.

Variables (sb : StoryBible.t) (m : Meta.t) (premise : Premise.t).
Hypothesis has_meta : StoryBible.meta sb = Some m.
Hypothesis has_premise : StoryBible.premise sb = Some premise.

Variables (now : string) (p : CreateCharacter.Params).

Lemma create_without_enrichment
    (service : Service.Outcome CreateCharacter.AiCharacter) :
  CreateCharacter.generateProfile p || CreateCharacter.generateArc p
    || CreateCharacter.generateVoice p = false ->
  CreateCharacter.createCharacterDirect (Fs.Stored sb) now service p
  = ProofAux.character_created sb m now p
      (CreateCharacter.baseline
         (Common.nextId Character.id (JS.arr_or (StoryBible.characters sb)))
         now p).
Proof using has_meta has_premise.
  intros Hoff.
  unfold CreateCharacter.createCharacterDirect, Eff.try_boundary,
    CreateCharacter.body.
  cbn [Common.load]. unfold Eff.bind at 1. cbn [Eff.ret].
  rewrite has_premise, Hoff.
  unfold Eff.bind, Eff.perform, Eff.ret, Common.touch.
  cbn [StoryBible.with_characters StoryBible.meta]. rewrite has_meta.
  reflexivity.
Qed.

Lemma create_with_answer (service : Service.Outcome CreateCharacter.AiCharacter)
    (v : Service.Value CreateCharacter.AiCharacter) :
  Service.await_parsed service = Eff.ret v ->
  CreateCharacter.generateProfile p || CreateCharacter.generateArc p
    || CreateCharacter.generateVoice p = true ->
  CreateCharacter.createCharacterDirect (Fs.Stored sb) now service p
  = ProofAux.character_created sb m now p
      match v with
      | Service.Truthy ai =>
          CreateCharacter.enrich
            (CreateCharacter.baseline
               (Common.nextId Character.id
                  (JS.arr_or (StoryBible.characters sb))) now p) ai
      | Service.Falsy =>
          CreateCharacter.baseline
            (Common.nextId Character.id (JS.arr_or (StoryBible.characters sb)))
            now p
      end.
Proof using has_meta has_premise.
  intros Hans Hon.
  unfold CreateCharacter.createCharacterDirect, Eff.try_boundary,
    CreateCharacter.body.
  cbn [Common.load]. unfold Eff.bind at 1. cbn [Eff.ret].
  rewrite has_premise, Hon, Hans.
  unfold Eff.bind, Eff.perform, Eff.ret, Common.touch.
  cbn [StoryBible.with_characters StoryBible.meta]. rewrite has_meta.
  destruct v; reflexivity.
Qed.

Lemma create_with_rejection (message : string) :
  CreateCharacter.generateProfile p || CreateCharacter.generateArc p
    || CreateCharacter.generateVoice p = true ->
  CreateCharacter.createCharacterDirect (Fs.Stored sb) now
    (Service.Rejects message) p
  = (Common.failed "create character" (ServiceError message),
     [Fs.Mkdir Fs.CharactersDir]).
Proof using has_premise.
  intros Hon.
  unfold CreateCharacter.createCharacterDirect, Eff.try_boundary,
    CreateCharacter.body.
  cbn [Common.load]. unfold Eff.bind at 1. cbn [Eff.ret].
  rewrite has_premise, Hon. reflexivity.
Qed.

End CreateCharacterRuns.

(** A run of create-character that returns data reached its end: the story
    bible was there with its metadata and a premise, and the profile is the
    baseline or the baseline enriched. *)
Lemma create_success_inv (file : Fs.BibleFile) (now : string)
    (service : Service.Outcome CreateCharacter.AiCharacter)
    (p : CreateCharacter.Params) (d : CreateCharacter.Data) :
  Result.data (fst (CreateCharacter.createCharacterDirect file now service p))
  = Some d ->
  exists sb m profile,
    file = Fs.Stored sb
    /\ StoryBible.meta sb = Some m
    /\ CreateCharacter.createCharacterDirect file now service p
       = ProofAux.character_created sb m now p profile
    /\ (profile
        = CreateCharacter.baseline
            (Common.nextId Character.id (JS.arr_or (StoryBible.characters sb)))
            now p
        \/ exists ai,
             profile
             = CreateCharacter.enrich
                 (CreateCharacter.baseline
                    (Common.nextId Character.id
                       (JS.arr_or (StoryBible.characters sb))) now p) ai).
Proof.
  intros Hd.
  destruct file as [| msg | sb]; try discriminate.
  destruct (StoryBible.premise sb) as [premise |] eqn:Hpremise.
  2:{ unfold CreateCharacter.createCharacterDirect, Eff.try_boundary,
        CreateCharacter.body in Hd.
      cbn [Common.load] in Hd. unfold Eff.bind at 1 in Hd.
      cbn [Eff.ret] in Hd. rewrite Hpremise in Hd. discriminate. }
  destruct (StoryBible.meta sb) as [m |] eqn:Hmeta.
  2:{ unfold CreateCharacter.createCharacterDirect, Eff.try_boundary,
        CreateCharacter.body in Hd.
      cbn [Common.load] in Hd. unfold Eff.bind at 1 in Hd.
      cbn [Eff.ret] in Hd. rewrite Hpremise in Hd.
      unfold Common.touch, Eff.bind, Eff.perform, Eff.ret in Hd.
      cbn [StoryBible.with_characters StoryBible.meta] in Hd.
      rewrite Hmeta in Hd.
      destruct (CreateCharacter.generateProfile p
                || CreateCharacter.generateArc p
                || CreateCharacter.generateVoice p);
        [destruct service as [message | text [[| ai] |] | [| ai]] |];
        discriminate. }
  exists sb, m.
  destruct (CreateCharacter.generateProfile p || CreateCharacter.generateArc p
            || CreateCharacter.generateVoice p) eqn:Hon.
  - destruct service as [message | text [v |] | v].
    + rewrite (create_with_rejection sb premise Hpremise now p message Hon)
        in Hd. discriminate.
    + eexists. split; [reflexivity |]. split; [exact Hmeta |].
      split; [now apply (create_with_answer sb m premise Hmeta Hpremise now p
                           (Service.ReturnsText text (Some v)) v) |].
      destruct v as [| ai]; [now left | right; now exists ai].
    + eexists. split; [reflexivity |]. split; [exact Hmeta |].
      split; [now apply (create_with_answer sb m premise Hmeta Hpremise now p
                           (Service.ReturnsText text None) Service.Falsy) |].
      now left.
    + eexists. split; [reflexivity |]. split; [exact Hmeta |].
      split; [now apply (create_with_answer sb m premise Hmeta Hpremise now p
                           (Service.ReturnsValue v) v) |].
      destruct v as [| ai]; [now left | right; now exists ai].
  - eexists. split; [reflexivity |]. split; [exact Hmeta |].
    split; [now apply (create_without_enrichment sb m premise Hmeta Hpremise
                         now p service) |].
    now left.
Qed.

(** C9, as the code has it. On a story bible with its metadata and a
    premise, when the enrichment is requested and the service returns text
    that [JSON.parse] rejects, create-character returns [success: true] with
    the baseline profile (status [draft], no psychology block, no arc),
    writes the character file and writes the story bible with the profile
    appended to its characters.  When the call to the service itself
    rejects, the error reaches the operation's boundary: the result is
    [success: false] with the service's message, and the story bible is not
    written. *)
Theorem unparsable_enrichment_degrades_to_baseline :
  forall (sb : StoryBible.t) (m : Meta.t) (premise : Premise.t)
         (now text : string) (p : CreateCharacter.Params),
    StoryBible.meta sb = Some m ->
    StoryBible.premise sb = Some premise ->
    CreateCharacter.generateProfile p || CreateCharacter.generateArc p
      || CreateCharacter.generateVoice p = true ->
    let run := CreateCharacter.createCharacterDirect (Fs.Stored sb) now
                 (Service.ReturnsText text None) p in
    let profile :=
      CreateCharacter.baseline
        (Common.nextId Character.id (JS.arr_or (StoryBible.characters sb)))
        now p in
    Result.success (fst run) = true
    /\ option_map CreateCharacter.character (Result.data (fst run))
       = Some profile
    /\ Character.status profile = "draft"
    /\ Character.psychology profile = None
    /\ Character.arc profile = None
    /\ SpecWording.persisted_characters (snd run)
       = (JS.arr_or (StoryBible.characters sb) ++ [profile])%list
    /\ (forall message,
          let failed := CreateCharacter.createCharacterDirect (Fs.Stored sb)
                          now (Service.Rejects message) p in
          Result.success (fst failed) = false
          /\ Result.error (fst failed) = Some message
          /\ Result.message (fst failed)
             = Text ("Failed to create character: " ++ message)
          /\ SpecWording.writes_story_bible (snd failed) = false).
Proof.
  intros sb m premise now text p Hmeta Hpremise Hon run profile.
  unfold run.
  rewrite (create_with_answer sb m premise Hmeta Hpremise now p
             (Service.ReturnsText text None) Service.Falsy eq_refl Hon).
  cbn [ProofAux.character_created fst snd Result.success Result.data
       option_map CreateCharacter.character
       SpecWording.persisted_characters flat_map
       StoryBible.with_meta StoryBible.with_characters StoryBible.characters
       JS.arr_or app].
  repeat split; try reflexivity.
  - now rewrite app_nil_r.
  - rewrite (create_with_rejection sb premise Hpremise now p message Hon).
    reflexivity.
  - rewrite (create_with_rejection sb premise Hpremise now p message Hon).
    reflexivity.
  - rewrite (create_with_rejection sb premise Hpremise now p message Hon).
    reflexivity.
  - rewrite (create_with_rejection sb premise Hpremise now p message Hon).
    reflexivity.
Qed.

(** C9 on a sample: the service answers with prose instead of JSON. *)
Lemma unparsable_enrichment_sample :
  StoryBible.meta Samples.empty_bible = Some Samples.meta
  /\ StoryBible.premise Samples.empty_bible
     = Some (Samples.premise "completed")
  /\ Result.success
       (fst (CreateCharacter.createCharacterDirect
               (Fs.Stored Samples.empty_bible) Samples.now
               (Service.ReturnsText "Sorry, I cannot help." None)
               Samples.character_params)) = true
  /\ SpecWording.persisted_characters
       (snd (CreateCharacter.createCharacterDirect
               (Fs.Stored Samples.empty_bible) Samples.now
               (Service.ReturnsText "Sorry, I cannot help." None)
               Samples.character_params))
     = [CreateCharacter.baseline 1 Samples.now Samples.character_params].
Proof.
  split; [reflexivity |]. split; [reflexivity |].
  destruct (unparsable_enrichment_degrades_to_baseline
              Samples.empty_bible Samples.meta (Samples.premise "completed")
              Samples.now "Sorry, I cannot help." Samples.character_params
              eq_refl eq_refl eq_refl)
    as (Hok & _ & _ & _ & _ & Hsaved & _).
  split; [exact Hok | exact Hsaved].
Defined.

(** C9 as stated fails: when the call to the generation service errors,
    create-character fails. *)
Lemma service_error_fails_character_creation :
  ~ (forall (sb : StoryBible.t) (now : string)
            (service : Service.Outcome CreateCharacter.AiCharacter)
            (p : CreateCharacter.Params),
        StoryBible.meta sb <> None ->
        StoryBible.premise sb <> None ->
        SpecWording.service_failed service = true ->
        Result.success
          (fst (CreateCharacter.createCharacterDirect (Fs.Stored sb) now
                  service p)) = true).
Proof.
  intros H.
  specialize (H Samples.empty_bible Samples.now
                (Service.Rejects "503 Service Unavailable")
                Samples.character_params).
  assert (Hfalse : false = true)
    by (apply H; [discriminate | discriminate | reflexivity]).
  discriminate Hfalse.
Qed.


(* ====================================================================== *)
(** ** Schemas and what create-character persists *)
(* ====================================================================== *)

Lemma forallb_strings (l : list string) :
  forallb (fun v => match v with
                    | Json.Str x => (0 <=? String.length x)%nat
                    | _ => false
                    end) (map Json.Str l) = true.
Proof. induction l as [| s t IH]; [reflexivity | exact IH]. Qed.

(** The character schema on a serialised character: the typed fields are
    accepted as they are; what is left to check is the id, the literal
    type, the title and the three enumerations. *)
Lemma character_valid_spec (c : Character.t) :
  SpecWording.character_valid c
  = (0 <? Character.id c)
    && String.eqb (Character.type c) "character"
    && (1 <=? String.length (Character.title c))%nat
    && existsb (String.eqb (Character.status c)) Schemas.STORY_STATUS_OPTIONS
    && existsb (String.eqb (Character.priority c)) Schemas.PRIORITIES
    && existsb (String.eqb (Character.characterType c)) Schemas.CHARACTER_TYPES.
Proof.
  destruct c as [id type title description characterType status priority
                 createdAt updatedAt psychology traits arc].
  unfold SpecWording.character_valid, Schemas.characterToJson,
    Schemas.CharacterSchema.
  cbn [Character.id Character.type Character.title Character.description
       Character.characterType Character.status Character.priority
       Character.createdAt Character.updatedAt Character.psychology
       Character.traits Character.arc].
  destruct psychology as [ps |], traits as [tr |], arc as [[[summary |]] |];
    cbn -[existsb forallb Z.ltb Nat.leb String.length
          Schemas.CHARACTER_TYPES Schemas.PRIORITIES
          Schemas.STORY_STATUS_OPTIONS];
    rewrite ?forallb_strings; cbn [Nat.leb andb];
    rewrite ?andb_true_r, ?andb_assoc;
    reflexivity.
Qed.

Lemma nonempty_length (s : string) :
  (1 <=? String.length s)%nat = negb (String.eqb s "").
Proof. now destruct s. Qed.

(** A field that a shape declares as an enumeration holds, in every object
    the shape accepts, a string of the enumeration. *)
Lemma accepted_enum_field (shape : list (string * Zod.Schema))
    (fields : list (string * Json.t)) (k : string) (options : list string) :
  Json.lookup k shape = Some (Zod.ZEnum options) ->
  Zod.accepts (Zod.ZObject shape) (Json.Obj fields) = true ->
  exists s, Json.lookup k fields = Some (Json.Str s) /\ In s options.
Proof.
  intros Hk. cbn [Zod.accepts].
  induction shape as [| [k' fs] rest IH]; [discriminate |].
  cbn [Json.lookup] in Hk. intros Hacc.
  apply andb_true_iff in Hacc. destruct Hacc as [Hhere Hrest].
  destruct (String.eqb_spec k' k) as [-> | Hne].
  - injection Hk as ->. clear IH Hrest.
    destruct (Json.lookup k fields) as [[| | | s | |] |]; try discriminate.
    cbn [Zod.accepts] in Hhere. exists s. split; [reflexivity |].
    apply existsb_exists in Hhere. destruct Hhere as (o & Ho & E).
    apply String.eqb_eq in E. now subst.
  - now apply IH.
Qed.

Lemma validate_returns (element parsed : Json.t) (type : string) :
  Schemas.validateStoryElement element type = Eff.Returned parsed ->
  exists schema,
    Json.lookup type Schemas.schemas = Some schema
    /\ Zod.accepts schema element = true
    /\ parsed = Zod.strip schema element.
Proof.
  unfold Schemas.validateStoryElement, Zod.parse. intros H.
  destruct (Json.lookup type Schemas.schemas) as [schema |]; [| discriminate].
  exists schema. destruct (Zod.accepts schema element); [| discriminate].
  injection H as <-. repeat split.
Qed.

(** A string that passes a membership test is in the list. *)
Lemma existsb_eqb_In (s : string) (l : list string) :
  existsb (String.eqb s) l = true -> In s l.
Proof.
  intros H. apply existsb_exists in H. destruct H as (x & Hx & E).
  apply String.eqb_eq in E. now subst.
Qed.

(** C5, as the code has it. [validateStoryElement] fails closed: it returns
    an element only when the schema of a known element type accepts it, and
    an accepted element has its [status] and [priority] (and, by type, its
    [characterType], [sceneType] or [genre]) in their enumerations.  The
    operations do not call it: create-character persists the profile it
    assembled with the name, the [characterType] and the [priority] the
    caller gave, whatever they are.  So the character schema can accept the
    persisted character only if the caller's name is not empty,
    [characterType] and [priority] are in their enumerations and the new id
    is positive; for a profile assembled from the caller's fields alone (no
    enrichment) it accepts it exactly then. *)
Theorem schema_fails_closed_but_creation_is_unchecked :
  (forall element type parsed,
      Schemas.validateStoryElement element type = Eff.Returned parsed ->
      exists schema shape fields status priority,
        Json.lookup type Schemas.schemas = Some schema
        /\ schema = Zod.ZObject shape
        /\ element = Json.Obj fields
        /\ Zod.accepts schema element = true
        /\ Json.lookup "status" fields = Some (Json.Str status)
        /\ In status Schemas.STORY_STATUS_OPTIONS
        /\ Json.lookup "priority" fields = Some (Json.Str priority)
        /\ In priority Schemas.PRIORITIES)
  /\ (forall fields,
        Zod.accepts Schemas.CharacterSchema (Json.Obj fields) = true ->
        exists s, Json.lookup "characterType" fields = Some (Json.Str s)
                  /\ In s Schemas.CHARACTER_TYPES)
  /\ (forall fields,
        Zod.accepts Schemas.SceneSchema (Json.Obj fields) = true ->
        exists s, Json.lookup "sceneType" fields = Some (Json.Str s)
                  /\ In s Schemas.SCENE_TYPES)
  /\ (forall fields,
        Zod.accepts Schemas.PremiseSchema (Json.Obj fields) = true ->
        exists s, Json.lookup "genre" fields = Some (Json.Str s)
                  /\ In s Schemas.GENRE_TYPES)
  /\ (forall element type,
        Json.lookup type Schemas.schemas = None ->
        Schemas.validateStoryElement element type
        = Eff.Thrown (PlainError ("Unknown story element type: " ++ type)))
  /\ (forall (file : Fs.BibleFile) (now : string)
             (service : Service.Outcome CreateCharacter.AiCharacter)
             (p : CreateCharacter.Params) (d : CreateCharacter.Data),
        Result.data
          (fst (CreateCharacter.createCharacterDirect file now service p))
        = Some d ->
        In (CreateCharacter.character d)
           (SpecWording.persisted_characters
              (snd (CreateCharacter.createCharacterDirect file now service p)))
        /\ Character.title (CreateCharacter.character d)
           = CreateCharacter.name p
        /\ Character.characterType (CreateCharacter.character d)
           = CreateCharacter.characterType p
        /\ Character.priority (CreateCharacter.character d)
           = CreateCharacter.priority p
        /\ (SpecWording.character_valid (CreateCharacter.character d) = true ->
            0 < CreateCharacter.id d
            /\ CreateCharacter.name p <> ""
            /\ In (CreateCharacter.priority p) Schemas.PRIORITIES
            /\ In (CreateCharacter.characterType p) Schemas.CHARACTER_TYPES)
        /\ (CreateCharacter.character d
            = CreateCharacter.baseline (CreateCharacter.id d) now p ->
            SpecWording.character_valid (CreateCharacter.character d)
            = (0 <? CreateCharacter.id d)
              && negb (String.eqb (CreateCharacter.name p) "")
              && existsb (String.eqb (CreateCharacter.priority p))
                   Schemas.PRIORITIES
              && existsb (String.eqb (CreateCharacter.characterType p))
                   Schemas.CHARACTER_TYPES)).
Proof.
  split.
  { intros element type parsed H.
    destruct (validate_returns element parsed type H) as (schema & Hs & Hacc & _).
    assert (Hshape : exists shape,
               schema = Zod.ZObject shape
               /\ Json.lookup "status" shape
                  = Some (Zod.ZEnum Schemas.STORY_STATUS_OPTIONS)
               /\ Json.lookup "priority" shape
                  = Some (Zod.ZEnum Schemas.PRIORITIES)).
    { unfold Schemas.schemas in Hs. cbn [Json.lookup] in Hs.
      repeat match type of Hs with
             | (if ?b then _ else _) = _ =>
                 destruct b;
                 [injection Hs as <-; eexists; repeat split; reflexivity |]
             end.
      discriminate. }
    destruct Hshape as (shape & -> & Hst & Hpr).
    destruct element as [| | | | | fields]; try discriminate.
    destruct (accepted_enum_field shape fields "status" _ Hst Hacc)
      as (status & Hs1 & Hs2).
    destruct (accepted_enum_field shape fields "priority" _ Hpr Hacc)
      as (priority & Hp1 & Hp2).
    exists (Zod.ZObject shape), shape, fields, status, priority.
    repeat split; assumption. }
  split.
  { intros fields. apply accepted_enum_field. reflexivity. }
  split.
  { intros fields. apply accepted_enum_field. reflexivity. }
  split.
  { intros fields. apply accepted_enum_field. reflexivity. }
  split.
  { intros element type H. unfold Schemas.validateStoryElement.
    now rewrite H. }
  intros file now service p d Hd.
  destruct (create_success_inv file now service p d Hd)
    as (sb & m & profile & -> & Hmeta & Hrun & Hprofile).
  rewrite Hrun in Hd |- *.
  cbn [ProofAux.character_created fst snd Result.data] in Hd |- *.
  injection Hd as <-.
  cbn [CreateCharacter.character CreateCharacter.id
       SpecWording.persisted_characters flat_map StoryBible.with_meta
       StoryBible.with_characters StoryBible.characters JS.arr_or app].
  split; [rewrite app_nil_r; apply in_or_app; right; now left |].
  assert (Hfields :
    Character.id profile
    = Common.nextId Character.id (JS.arr_or (StoryBible.characters sb))
    /\ Character.type profile = "character"
    /\ Character.title profile = CreateCharacter.name p
    /\ Character.status profile = "draft"
    /\ Character.priority profile = CreateCharacter.priority p
    /\ Character.characterType profile = CreateCharacter.characterType p).
  { destruct Hprofile as [-> | (ai & ->)]; repeat split. }
  destruct Hfields as (Hid & Htype & Htitle & Hstatus & Hpriority & Hkind).
  assert (Hvalid :
    SpecWording.character_valid profile
    = (0 <? Common.nextId Character.id (JS.arr_or (StoryBible.characters sb)))
      && negb (String.eqb (CreateCharacter.name p) "")
      && existsb (String.eqb (CreateCharacter.priority p)) Schemas.PRIORITIES
      && existsb (String.eqb (CreateCharacter.characterType p))
           Schemas.CHARACTER_TYPES).
  { rewrite character_valid_spec, nonempty_length, Hid, Htype, Htitle, Hstatus,
      Hpriority, Hkind.
    change (String.eqb "character" "character") with true.
    change (existsb (String.eqb "draft") Schemas.STORY_STATUS_OPTIONS)
      with true.
    now rewrite !andb_true_r. }
  split; [exact Htitle |]. split; [exact Hkind |].
  split; [exact Hpriority |]. split.
  - intros Hok. rewrite Hvalid in Hok.
    apply andb_true_iff in Hok. destruct Hok as [Hok Hk].
    apply andb_true_iff in Hok. destruct Hok as [Hok Hp].
    apply andb_true_iff in Hok. destruct Hok as [Hi Hn].
    split; [now apply Z.ltb_lt |]. split.
    { intros E. rewrite E in Hn. discriminate Hn. }
    split; now apply existsb_eqb_In.
  - intros _. exact Hvalid.
Qed.

(** C5 as stated fails: create-character called with a character type and a
    priority outside their enumerations succeeds and writes a story bible
    whose new character the character schema rejects. *)
Lemma out_of_enum_character_is_persisted :
  ~ (forall (file : Fs.BibleFile) (now : string)
            (service : Service.Outcome CreateCharacter.AiCharacter)
            (p : CreateCharacter.Params) (c : Character.t),
        In c (SpecWording.persisted_characters
                (snd (CreateCharacter.createCharacterDirect file now service
                        p))) ->
        exists parsed,
          Schemas.validateStoryElement (Schemas.characterToJson c) "character"
          = Eff.Returned parsed).
Proof.
  intros H.
  destruct (H (Fs.Stored Samples.empty_bible) Samples.now
              (Service.Rejects "unused") Samples.villain_params
              (CreateCharacter.baseline 1 Samples.now Samples.villain_params)
              (or_introl eq_refl)) as (parsed & Hparsed).
  vm_compute in Hparsed. discriminate Hparsed.
Qed.

(* ====================================================================== *)
(** ** Auto-fix: what it changes and what it leaves alone *)
(* ====================================================================== *)

Section AutoFixInvariants.

Lemma grown_refl (c : Chapter.t) : Further.grown c c.
Proof. split; [now destruct c | auto]. Qed.

Lemma grown_trans (a b c : Chapter.t) :
  Further.grown a b -> Further.grown b c -> Further.grown a c.
Proof.
  intros [Hab Iab] [Hbc Ibc]. split; [| auto].
  rewrite Hbc at 1. rewrite Hab. reflexivity.
Qed.

Lemma grown_id (c c' : Chapter.t) :
  Further.grown c c' -> Chapter.id c' = Chapter.id c.
Proof. intros [-> _]. reflexivity. Qed.

Lemma grown_number (c c' : Chapter.t) :
  Further.grown c c' -> Chapter.chapterNumber c' = Chapter.chapterNumber c.
Proof. intros [-> _]. reflexivity. Qed.

Lemma Forall2_grown_refl (l : list Chapter.t) : Forall2 Further.grown l l.
Proof. induction l; constructor; auto using grown_refl. Qed.

Lemma Forall2_grown_trans (l1 l2 l3 : list Chapter.t) :
  Forall2 Further.grown l1 l2 -> Forall2 Further.grown l2 l3 ->
  Forall2 Further.grown l1 l3.
Proof.
  intros H. revert l3. induction H; intros l3 H3; inversion H3; subst.
  - constructor.
  - constructor; eauto using grown_trans.
Qed.

Lemma Forall2_grown_ids (l l' : list Chapter.t) :
  Forall2 Further.grown l l' -> map Chapter.id l' = map Chapter.id l.
Proof.
  induction 1; cbn [map]; [reflexivity |].
  f_equal; auto using grown_id.
Qed.

Lemma Forall2_grown_in (l l' : list Chapter.t) (c' : Chapter.t) :
  Forall2 Further.grown l l' -> In c' l' ->
  exists c, In c l /\ Further.grown c c'.
Proof.
  induction 1; intros Hin; [contradiction |].
  destruct Hin as [<- | Hin].
  - eexists; split; [now left | assumption].
  - destruct (IHForall2 Hin) as (c & Hc & Hg). exists c.
    split; [now right | assumption].
Qed.

Lemma includes_snoc (l : list Z) (k x : Z) :
  JS.includes (l ++ [k]) x = JS.includes l x || (x =? k).
Proof.
  unfold JS.includes. rewrite existsb_app. cbn [existsb].
  now rewrite orb_false_r.
Qed.

Lemma push_character_grown (k : Z) (c : Chapter.t) :
  Further.grown c (Checker.push_character k c).
Proof.
  split; [reflexivity |].
  intros x Hx. unfold Checker.push_character.
  destruct (Chapter.characters c) as [l |]; [| discriminate].
  cbn [Chapter.characters Chapter.with_characters JS.arr_or JS.opt_includes]
    in *.
  now rewrite includes_snoc, Hx.
Qed.

Lemma push_character_includes (k : Z) (c : Chapter.t) :
  JS.opt_includes (Chapter.characters (Checker.push_character k c)) k = true.
Proof.
  unfold Checker.push_character.
  cbn [Chapter.characters Chapter.with_characters JS.opt_includes].
  rewrite includes_snoc, Z.eqb_refl. apply orb_true_r.
Qed.

Lemma update_first_grown (id k : Z) (l : list Chapter.t) :
  Forall2 Further.grown l
    (Checker.update_first id (Checker.push_character k) l).
Proof.
  induction l as [| c l IH]; cbn [Checker.update_first]; [constructor |].
  destruct (Chapter.id c =? id).
  - constructor; [apply push_character_grown | apply Forall2_grown_refl].
  - constructor; [apply grown_refl | assumption].
Qed.

(** With distinct ids, the chapter of a given id is the updated one. *)
Lemma update_first_hit (id k : Z) (l : list Chapter.t) (c' : Chapter.t) :
  NoDup (map Chapter.id l) ->
  In c' (Checker.update_first id (Checker.push_character k) l) ->
  Chapter.id c' = id ->
  JS.opt_includes (Chapter.characters c') k = true.
Proof.
  induction l as [| c l IH]; cbn [Checker.update_first map];
    intros Hnd Hin Hid; [contradiction |].
  inversion Hnd as [| ? ? Hnot Hnd']; subst.
  destruct (Chapter.id c =? Chapter.id c') eqn:E.
  - destruct Hin as [<- | Hin]; [apply push_character_includes |].
    apply Z.eqb_eq in E. exfalso. apply Hnot. rewrite E.
    now apply in_map.
  - destruct Hin as [<- | Hin]; [now rewrite Z.eqb_refl in E |].
    now apply IH.
Qed.

Lemma listings_update_first (id k : Z) (l : list Chapter.t) (c : Chapter.t) :
  find (fun c => Chapter.id c =? id) l = Some c ->
  Further.listings (Checker.update_first id (Checker.push_character k) l)
  = Datatypes.S (Further.listings l).
Proof.
  assert (Hcons : forall a t, list_sum (a :: t) = (a + list_sum t)%nat)
    by reflexivity.
  unfold Further.listings.
  induction l as [| x l IH]; cbn [find Checker.update_first map];
    [discriminate |].
  destruct (Chapter.id x =? id).
  - intros _. cbn [map]. rewrite !Hcons. unfold Checker.push_character.
    cbn [Chapter.characters Chapter.with_characters JS.arr_or].
    rewrite length_app. cbn [List.length]. lia.
  - intros H. cbn [map]. rewrite !Hcons, (IH H). lia.
Qed.

(** What one applied fix is. *)
Lemma fix_character_unlisted_inv (sb sb' : StoryBible.t) (i : Issue.t) :
  Checker.fix_character_unlisted sb i = Some sb' ->
  exists chapters chId k c,
    StoryBible.chapters sb = Some chapters
    /\ Issue.chapterId i = Some chId /\ Issue.characterId i = Some k
    /\ find (fun c => Chapter.id c =? chId) chapters = Some c
    /\ JS.opt_includes (Chapter.characters c) k = false
    /\ sb' = StoryBible.with_chapters sb
               (Some (Checker.update_first chId (Checker.push_character k)
                        chapters)).
Proof.
  unfold Checker.fix_character_unlisted.
  destruct (StoryBible.chapters sb) as [chapters |]; [| discriminate].
  destruct (Issue.chapterId i) as [chId |]; [| discriminate].
  destruct (Issue.characterId i) as [k |]; [| discriminate].
  destruct (find _ chapters) as [c |] eqn:Hfind; [| discriminate].
  destruct (JS.opt_includes _ k) eqn:Hinc; [discriminate |].
  cbn [negb]. intros [= <-]. now exists chapters, chId, k, c.
Qed.

(** One iteration either leaves the accumulator alone or applies the fix of
    a [character-unlisted] issue and records it. *)
Lemma autoFix_step_cases (fixMode now : string) (fixed : list FixedIssue.t)
    (sb : StoryBible.t) (i : Issue.t) :
  Checker.autoFix_step fixMode now (fixed, sb) i = (fixed, sb)
  \/ exists sb',
       Checker.fix_character_unlisted sb i = Some sb'
       /\ Issue.type i = "character-unlisted"
       /\ (String.eqb fixMode "conservative"
           && negb (String.eqb (Issue.severity i) "minor")) = false
       /\ Checker.autoFix_step fixMode now (fixed, sb) i
          = ((fixed ++ [FixedIssue.mk i now fixMode])%list, sb').
Proof.
  unfold Checker.autoFix_step.
  destruct (_ && _) eqn:Hgate; [now left |].
  destruct (String.eqb (Issue.type i) "character-unlisted") eqn:Hty;
    [| now left].
  destruct (Checker.fix_character_unlisted sb i) as [sb' |] eqn:Hfix;
    [| now left].
  right. exists sb'. apply String.eqb_eq in Hty. auto.
Qed.

Lemma same_but_chapters_refl (sb : StoryBible.t) :
  Further.same_but_chapters sb sb.
Proof. now destruct sb. Qed.

Lemma same_but_chapters_trans (a b c : StoryBible.t) :
  Further.same_but_chapters a b -> Further.same_but_chapters b c ->
  Further.same_but_chapters a c.
Proof.
  unfold Further.same_but_chapters. intros Hab Hbc.
  rewrite Hbc at 1. rewrite Hab. reflexivity.
Qed.

(** The invariant of the loop of [autoFixIssues]. *)
Lemma autoFix_loop (fixMode now : string) (issues : list Issue.t) :
  forall (fixed : list FixedIssue.t) (sb : StoryBible.t),
    let r := fold_left (Checker.autoFix_step fixMode now) issues (fixed, sb) in
    Further.same_but_chapters sb (snd r)
    /\ Forall2 Further.grown (JS.arr_or (StoryBible.chapters sb))
         (JS.arr_or (StoryBible.chapters (snd r)))
    /\ (exists added,
          fst r = (fixed ++ added)%list
          /\ Forall (fun f => In (FixedIssue.issue f) issues
                              /\ Issue.type (FixedIssue.issue f)
                                 = "character-unlisted"
                              /\ FixedIssue.fixedAt f = now
                              /\ FixedIssue.fixMode f = fixMode) added
          /\ (List.length added <= List.length issues)%nat
          /\ Further.listings (JS.arr_or (StoryBible.chapters (snd r)))
             = (Further.listings (JS.arr_or (StoryBible.chapters sb))
                + List.length added)%nat
          /\ (added = [] -> snd r = sb)).
Proof.
  induction issues as [| i issues IH]; intros fixed sb; cbn [fold_left].
  - cbn. split; [apply same_but_chapters_refl |].
    split; [apply Forall2_grown_refl |].
    exists []. rewrite app_nil_r. cbn [List.length].
    repeat split; auto; lia.
  - destruct (autoFix_step_cases fixMode now fixed sb i)
      as [-> | (sb' & Hfix & Hty & _ & ->)].
    + destruct (IH fixed sb) as (Hs & Hg & added & Hf & Hall & Hlen & Hl & Hn).
      split; [exact Hs |]. split; [exact Hg |].
      exists added. repeat split; auto.
      * eapply Forall_impl; [| exact Hall]. cbn. intros f (? & ? & ? & ?).
        repeat split; auto.
      * cbn [List.length]. lia.
    + destruct (IH (fixed ++ [FixedIssue.mk i now fixMode])%list sb')
        as (Hs & Hg & added & Hf & Hall & Hlen & Hl & Hn).
      apply fix_character_unlisted_inv in Hfix.
      destruct Hfix as (chapters & chId & k & c & Hch & _ & _ & Hfind & _ & ->).
      split.
      { eapply same_but_chapters_trans; [| exact Hs].
        unfold Further.same_but_chapters. now destruct sb. }
      split.
      { eapply Forall2_grown_trans; [| exact Hg].
        rewrite Hch. cbn. apply update_first_grown. }
      exists (FixedIssue.mk i now fixMode :: added).
      split; [now rewrite Hf, <- app_assoc |].
      split.
      { constructor; [cbn; auto |].
        eapply Forall_impl; [| exact Hall]. cbn. intros f (? & ? & ? & ?).
        repeat split; auto. }
      split; [cbn [List.length]; lia |].
      split; [| discriminate].
      rewrite Hl. cbn [StoryBible.chapters StoryBible.with_chapters JS.arr_or].
      rewrite (listings_update_first _ _ _ _ Hfind), Hch.
      cbn [JS.arr_or List.length]. lia.
Qed.

(** With distinct chapter ids and outside the conservative mode, once the
    loop has met a [character-unlisted] issue, the chapter it names lists
    the character it names. *)
Lemma autoFix_loop_fixes (fixMode now : string) (issues : list Issue.t) :
  String.eqb fixMode "conservative" = false ->
  forall (fixed : list FixedIssue.t) (sb : StoryBible.t) (i : Issue.t)
         (k chId : Z) (c' : Chapter.t),
    NoDup (map Chapter.id (JS.arr_or (StoryBible.chapters sb))) ->
    In i issues ->
    Issue.type i = "character-unlisted" ->
    Issue.characterId i = Some k ->
    Issue.chapterId i = Some chId ->
    In c' (JS.arr_or
             (StoryBible.chapters
                (snd (fold_left (Checker.autoFix_step fixMode now) issues
                        (fixed, sb))))) ->
    Chapter.id c' = chId ->
    JS.opt_includes (Chapter.characters c') k = true.
Proof.
  intros Hmode.
  induction issues as [| j issues IH];
    intros fixed sb i k chId c' Hnd Hin Hty Hk Hch Hc' Hid; [contradiction |].
  cbn [fold_left] in Hc'.
  destruct Hin as [-> | Hin].
  - (* the issue is met now *)
    assert (Hnow :
      forall fixed1 sb1,
        Checker.autoFix_step fixMode now (fixed, sb) i = (fixed1, sb1) ->
        forall c1, In c1 (JS.arr_or (StoryBible.chapters sb1)) ->
                   Chapter.id c1 = chId ->
                   JS.opt_includes (Chapter.characters c1) k = true).
    { intros fixed1 sb1 Hstep c1 Hc1 Hid1.
      unfold Checker.autoFix_step in Hstep. rewrite Hmode, Hty in Hstep.
      cbn [andb] in Hstep. rewrite String.eqb_refl in Hstep.
      unfold Checker.fix_character_unlisted in Hstep.
      rewrite Hk, Hch in Hstep.
      destruct (StoryBible.chapters sb) as [chapters |] eqn:Hchs.
      - destruct (find _ chapters) as [c |] eqn:Hfind.
        + destruct (JS.opt_includes (Chapter.characters c) k) eqn:Hinc;
            cbn [negb] in Hstep; injection Hstep as <- <-.
          * rewrite Hchs in Hc1. cbn in Hc1, Hnd.
            apply find_some in Hfind. destruct Hfind as [Hcin Hcid].
            apply Z.eqb_eq in Hcid.
            assert (c1 = c) as ->; [| assumption].
            { clear - Hnd Hc1 Hcin Hcid Hid1. rewrite <- Hid1 in Hcid.
              induction chapters as [| x l IHl]; [contradiction |].
              cbn [map] in Hnd. inversion Hnd as [| ? ? Hnot Hnd']; subst.
              destruct Hc1 as [-> | Hc1], Hcin as [-> | Hcin]; auto.
              - exfalso. apply Hnot. rewrite <- Hcid. now apply in_map.
              - exfalso. apply Hnot. rewrite Hcid. now apply in_map. }
          * cbn in Hc1, Hnd. eapply update_first_hit; eauto.
        + injection Hstep as <- <-. rewrite Hchs in Hc1. cbn in Hc1.
          exfalso. eapply find_none in Hfind; [| exact Hc1].
          cbn in Hfind. rewrite Hid1, Z.eqb_refl in Hfind. discriminate.
      - injection Hstep as <- <-. rewrite Hchs in Hc1. contradiction. }
    destruct (Checker.autoFix_step fixMode now (fixed, sb) i)
      as [fixed1 sb1] eqn:Hstep.
    specialize (Hnow fixed1 sb1 eq_refl).
    destruct (autoFix_loop fixMode now issues fixed1 sb1) as (_ & Hg & _).
    cbn zeta in Hg.
    destruct (Forall2_grown_in _ _ _ Hg Hc') as (c1 & Hc1 & Hgc).
    apply (proj2 Hgc). apply Hnow; [assumption |].
    now rewrite <- (grown_id _ _ Hgc).
  - (* the issue is met later *)
    destruct (Checker.autoFix_step fixMode now (fixed, sb) j)
      as [fixed1 sb1] eqn:Hstep.
    eapply (IH fixed1 sb1); eauto.
    destruct (autoFix_loop fixMode now [j] fixed sb) as (_ & Hg & _).
    cbn [fold_left] in Hg. rewrite Hstep in Hg. cbn in Hg.
    now rewrite (Forall2_grown_ids _ _ Hg).
Qed.

End AutoFixInvariants.

(** X1. Whatever the issues and the mode, [autoFixIssues] changes nothing of
    the story bible but the [characters] lists of its chapters: the chapters
    keep their number, order, ids and every other field and lose no listed
    character.  Every fixed issue is one of the given issues, of type
    [character-unlisted], stamped with the clock and the mode; there are no
    more fixed issues than issues; each fix adds exactly one listing; and
    when no issue was fixed the story bible is the one given. *)
Theorem autofix_only_extends_chapter_characters
    (issues : list Issue.t) (sb : StoryBible.t) (fixMode now : string) :
  let r := Checker.autoFixIssues issues sb fixMode now in
  Further.same_but_chapters sb (snd r)
  /\ Forall2 Further.grown (JS.arr_or (StoryBible.chapters sb))
       (JS.arr_or (StoryBible.chapters (snd r)))
  /\ Forall (fun f => In (FixedIssue.issue f) issues
                      /\ Issue.type (FixedIssue.issue f) = "character-unlisted"
                      /\ FixedIssue.fixedAt f = now
                      /\ FixedIssue.fixMode f = fixMode) (fst r)
  /\ (List.length (fst r) <= List.length issues)%nat
  /\ Further.listings (JS.arr_or (StoryBible.chapters (snd r)))
     = (Further.listings (JS.arr_or (StoryBible.chapters sb))
        + List.length (fst r))%nat
  /\ (fst r = [] -> snd r = sb).
Proof.
  cbn zeta. unfold Checker.autoFixIssues.
  destruct (autoFix_loop fixMode now issues [] sb)
    as (Hs & Hg & added & Hf & Hall & Hlen & Hl & Hn).
  cbn zeta in *. cbn [app] in Hf. rewrite Hf. auto 10.
Qed.

Lemma filter_grown (f : Chapter.t -> bool) (l l' : list Chapter.t) :
  (forall c c', Further.grown c c' -> f c' = f c) ->
  Forall2 Further.grown l l' ->
  Forall2 Further.grown (filter f l) (filter f l').
Proof.
  intros Hf. induction 1 as [| c c' l l' Hg _ IH]; cbn [filter];
    [constructor |].
  rewrite (Hf _ _ Hg). destruct (f c); [constructor |]; assumption.
Qed.

Lemma find_grown (id : Z) (l l' : list Chapter.t) (c' : Chapter.t) :
  Forall2 Further.grown l l' ->
  find (fun c => Chapter.id c =? id) l' = Some c' ->
  exists c, find (fun c => Chapter.id c =? id) l = Some c
            /\ Further.grown c c'.
Proof.
  induction 1 as [| x x' l l' Hg _ IH]; cbn [find]; [discriminate |].
  rewrite (grown_id _ _ Hg).
  destruct (Chapter.id x =? id).
  - intros [= <-]. now exists x.
  - exact IH.
Qed.

Lemma in_range_grown (s : Z) (e : option Z) (c c' : Chapter.t) :
  Further.grown c c' -> Checker.in_range s e c' = Checker.in_range s e c.
Proof.
  intros Hg. unfold Checker.in_range. now rewrite (grown_number _ _ Hg).
Qed.

(** X2. Outside the conservative mode auto-fix resolves every
    [character-unlisted] issue of the check it follows: on a story bible
    whose chapters have distinct ids, after [autoFixIssues] has processed
    the issues that [detectIssues] reports, the same check on the fixed
    story bible reports no [character-unlisted] issue. *)
Theorem autofix_then_recheck_reports_no_unlisted
    (sb : StoryBible.t) (p : Checker.Params) (fixMode now : string) :
  NoDup (map Chapter.id (JS.arr_or (StoryBible.chapters sb))) ->
  String.eqb fixMode "conservative" = false ->
  filter (Issue.has_type "character-unlisted")
    (Checker.detectIssues
       (snd (Checker.autoFixIssues (Checker.detectIssues sb p) sb fixMode now))
       p)
  = [].
Proof.
  intros Hnd Hmode.
  set (issues := Checker.detectIssues sb p).
  set (sb' := snd (Checker.autoFixIssues issues sb fixMode now)).
  destruct (autoFix_loop fixMode now issues [] sb) as (Hs & Hg & _).
  cbn zeta in Hs, Hg.
  fold (Checker.autoFixIssues issues sb fixMode now) in Hs, Hg.
  fold sb' in Hs, Hg.
  assert (Htarget : Forall2 Further.grown (Checker.targetChapters sb p)
                      (Checker.targetChapters sb' p)).
  { unfold Checker.targetChapters. apply filter_grown; [| exact Hg].
    intros c c'. apply in_range_grown. }
  assert (Hchars : StoryBible.characters sb' = StoryBible.characters sb)
    by (rewrite Hs; reflexivity).
  assert (Hscenes : StoryBible.scenes sb' = StoryBible.scenes sb)
    by (rewrite Hs; reflexivity).
  destruct (filter _ _) as [| x rest] eqn:Hfilter; [reflexivity |].
  exfalso.
  assert (Hx : In x (filter (Issue.has_type "character-unlisted")
                       (Checker.detectIssues sb' p)))
    by (rewrite Hfilter; now left).
  clear Hfilter. apply filter_In in Hx. destruct Hx as [Hx Hty].
  unfold Issue.has_type in Hty.
  unfold Checker.detectIssues in Hx.
  apply in_app_or in Hx. destruct Hx as [Hx | Hx].
  - destruct (Checker.is_type p "character") eqn:Hit; [| contradiction].
    rewrite Hchars, Hscenes in Hx.
    unfold Checker.checkCharacterConsistency in Hx.
    apply in_flat_map in Hx. destruct Hx as (c & Hc & Hx).
    unfold Checker.check_character in Hx.
    apply in_app_or in Hx. destruct Hx as [Hx | Hx].
    + apply in_flat_map in Hx. destruct Hx as (s & Hsin & Hx).
      unfold Checker.unlisted_in_scene in Hx.
      destruct (find _ (Checker.targetChapters sb' p)) as [ch' |] eqn:Hfind';
        [| contradiction].
      destruct (JS.opt_includes (Chapter.characters ch') (Character.id c))
        eqn:Hinc'; [contradiction |].
      destruct (find_grown _ _ _ _ Htarget Hfind') as (ch & Hfind & Hgc).
      destruct (JS.opt_includes (Chapter.characters ch) (Character.id c))
        eqn:Hinc.
      * apply (proj2 Hgc) in Hinc. congruence.
      * assert (Hi : In (Checker.unlisted_issue c ch) issues).
        { unfold issues, Checker.detectIssues. rewrite Hit.
          apply in_or_app. left.
          unfold Checker.checkCharacterConsistency.
          apply in_flat_map. exists c. split; [exact Hc |].
          unfold Checker.check_character. apply in_or_app. left.
          apply in_flat_map. exists s. split; [exact Hsin |].
          unfold Checker.unlisted_in_scene. rewrite Hfind, Hinc. now left. }
        assert (Hin' : In ch' (JS.arr_or (StoryBible.chapters sb'))).
        { apply find_some in Hfind'. destruct Hfind' as [Hin' _].
          unfold Checker.targetChapters in Hin'.
          now apply filter_In in Hin'. }
        pose proof (autoFix_loop_fixes fixMode now issues Hmode [] sb
                      (Checker.unlisted_issue c ch) (Character.id c)
                      (Chapter.id ch) ch' Hnd Hi eq_refl eq_refl eq_refl
                      Hin' (grown_id _ _ Hgc)) as Hfixed.
        congruence.
    + unfold Checker.arc_check in Hx.
      destruct (Character.arc c); [| contradiction].
      destruct (1 <? _); [| contradiction].
      destruct (Checker.arc_summary_undefined _); [| contradiction].
      destruct Hx as [<- | []]. discriminate.
  - assert (Hform : ProofAux.emitted_form (Checker.targetChapters sb' p) x
                    -> Issue.type x <> "character-unlisted"
                    -> False)
      by (intros _ Hne; apply Hne; now apply String.eqb_eq).
    repeat (apply in_app_or in Hx; destruct Hx as [Hx | Hx]).
    + destruct (Checker.is_type p "plot"); [| contradiction].
      unfold Checker.checkPlotConsistency in Hx.
      apply in_flat_map in Hx. destruct Hx as (t & _ & Hx).
      unfold Checker.check_plotThread in Hx.
      apply in_app_or in Hx.
      destruct Hx as [Hx | Hx]; destruct (_ && _); try contradiction;
        destruct Hx as [<- | []]; discriminate.
    + destruct (Checker.is_type p "timeline"); [| contradiction].
      unfold Checker.checkTimelineConsistency in Hx.
      apply in_app_or in Hx.
      destruct Hx as [Hx | Hx]; apply in_map_iff in Hx;
        destruct Hx as (? & <- & _); discriminate.
    + destruct (Checker.is_type p "style"); [| contradiction].
      unfold Checker.checkStyleConsistency in Hx.
      destruct (StoryBible.style sb'); [| contradiction].
      destruct (JS.truthy_str _); [| contradiction].
      destruct (0 <? _); [| contradiction].
      destruct Hx as [<- | []]. discriminate.
Qed.

Lemma autofix_then_recheck_sample :
  NoDup (map Chapter.id
           (JS.arr_or (StoryBible.chapters Samples.unlisted_bible)))
  /\ filter (Issue.has_type "character-unlisted")
       (Checker.detectIssues Samples.unlisted_bible Checker.defaults)
     = [Checker.unlisted_issue Samples.K Samples.C]
  /\ filter (Issue.has_type "character-unlisted")
       (Checker.detectIssues
          (snd (Checker.autoFixIssues
                  (Checker.detectIssues Samples.unlisted_bible Checker.defaults)
                  Samples.unlisted_bible "aggressive" Samples.now))
          Checker.defaults)
     = [].
Proof.
  split; [repeat constructor; cbn; tauto |].
  split; [reflexivity |].
  apply (autofix_then_recheck_reports_no_unlisted Samples.unlisted_bible
           Checker.defaults "aggressive" Samples.now).
  - repeat constructor; cbn; tauto.
  - reflexivity.
Defined.

(* ====================================================================== *)
(** ** The timeline check: order of the chapters, and when it is silent *)
(* ====================================================================== *)

Section TimelineSilence.

(** Two ascending lists with the same elements, counted, are equal. *)
Lemma sorted_perm_unique (l1 l2 : list Z) :
  StronglySorted Z.le l1 -> StronglySorted Z.le l2 -> Permutation l1 l2 ->
  l1 = l2.
Proof.
  intros H1. revert l2.
  induction H1 as [| x t Hs IH Hall]; intros l2 H2 Hp.
  - apply Permutation_nil in Hp. now subst.
  - destruct l2 as [| y t2].
    { apply Permutation_sym, Permutation_nil in Hp. discriminate. }
    inversion H2 as [| ? ? Hs2 Hall2]; subst.
    assert (x = y) as <-.
    { rewrite Forall_forall in Hall, Hall2.
      assert (Hy : In y (x :: t))
        by (eapply Permutation_in; [symmetry; exact Hp | now left]).
      assert (Hx : In x (y :: t2))
        by (eapply Permutation_in; [exact Hp | now left]).
      destruct Hy as [-> | Hy]; [reflexivity |].
      destruct Hx as [-> | Hx]; [reflexivity |].
      specialize (Hall _ Hy). specialize (Hall2 _ Hx). lia. }
    f_equal. apply IH; [assumption |].
    eapply Permutation_cons_inv. exact Hp.
Qed.

Lemma sort_numbers_of_perm (l l' : list Z) :
  Permutation l l' -> JS.sort_numbers l = JS.sort_numbers l'.
Proof.
  intros Hp. apply sorted_perm_unique; try apply sort_numbers_sorted.
  eapply Permutation_trans; [symmetry; apply sort_numbers_perm |].
  eapply Permutation_trans; [exact Hp | apply sort_numbers_perm].
Qed.

Lemma numbered_perm (chapters chapters' : list Chapter.t) :
  Permutation chapters chapters' ->
  Permutation (Checker.numbered chapters) (Checker.numbered chapters').
Proof.
  intros Hp. unfold Checker.numbered, JS.truthy_numbers.
  apply Permutation_flat_map, Permutation_map, Hp.
Qed.

Lemma run_S (m : Z) (n : nat) :
  Further.run m (Datatypes.S n) = m :: Further.run (m + 1) n.
Proof.
  unfold Further.run. cbn [seq map]. f_equal; [lia |].
  rewrite <- seq_shift, map_map. apply map_ext. intros i. lia.
Qed.

Lemma run_length (m : Z) (n : nat) : List.length (Further.run m n) = n.
Proof. unfold Further.run. now rewrite length_map, length_seq. Qed.

Lemma run_in (m : Z) (n : nat) (z : Z) :
  In z (Further.run m n) -> m <= z < m + Z.of_nat n.
Proof.
  unfold Further.run. rewrite in_map_iff. intros (i & <- & Hi).
  apply in_seq in Hi. lia.
Qed.

Lemma run_ascending (n : nat) :
  forall m, StronglySorted Z.lt (Further.run m n).
Proof.
  induction n as [| n IH]; intros m; [constructor |].
  rewrite run_S. constructor; [apply IH |].
  apply Forall_forall. intros z Hz. apply run_in in Hz. lia.
Qed.

Lemma ascending_le (l : list Z) :
  StronglySorted Z.lt l -> StronglySorted Z.le l.
Proof.
  induction 1 as [| x t Hs IH Hall]; constructor; [assumption |].
  eapply Forall_impl; [| exact Hall]. cbn. intros; lia.
Qed.

Lemma ascending_NoDup (l : list Z) : StronglySorted Z.lt l -> NoDup l.
Proof.
  induction 1 as [| x t Hs IH Hall]; constructor; [| assumption].
  intros Hin. rewrite Forall_forall in Hall. specialize (Hall _ Hin). lia.
Qed.

Lemma gaps_after_run (n : nat) :
  forall m, Checker.gaps_after m (Further.run (m + 1) n) = [].
Proof.
  induction n as [| n IH]; intros m; [reflexivity |].
  rewrite run_S. cbn [Checker.gaps_after]. rewrite IH.
  replace (m + 1 - m) with 1 by lia. reflexivity.
Qed.

Lemma gaps_run (m : Z) (n : nat) : Checker.gaps (Further.run m n) = [].
Proof.
  destruct n as [| n]; [reflexivity |].
  rewrite run_S. apply gaps_after_run.
Qed.

Lemma gaps_after_nil_run (rest : list Z) :
  forall prev,
    StronglySorted Z.lt (prev :: rest) ->
    Checker.gaps_after prev rest = [] ->
    prev :: rest = Further.run prev (Datatypes.S (List.length rest)).
Proof.
  induction rest as [| x t IH]; intros prev Hs Hg.
  - cbn. unfold Further.run. cbn. f_equal. lia.
  - cbn [Checker.gaps_after] in Hg.
    apply app_eq_nil in Hg. destruct Hg as [Hwide Hg].
    inversion Hs as [| ? ? Hs' Hall]; subst.
    assert (prev < x)
      by (rewrite Forall_forall in Hall; apply Hall; now left).
    assert (x = prev + 1) as ->.
    { destruct (Z.ltb_spec 1 (x - prev)); [discriminate | lia]. }
    cbn [List.length]. rewrite run_S. f_equal. now apply IH.
Qed.

Lemma duplicates_nil_iff (l : list Z) :
  Checker.duplicates l = [] <-> NoDup l.
Proof.
  rewrite (NoDup_count_occ Z.eq_dec). split.
  - intros Hnil x. pose proof (duplicates_count l x) as H.
    rewrite Hnil in H. cbn in H. lia.
  - intros Hnd. apply (count_occ_inv_nil Z.eq_dec). intros x.
    rewrite duplicates_count. specialize (Hnd x). lia.
Qed.

End TimelineSilence.

(** X3. The timeline check does not depend on the order in which the story
    bible lists its chapters: two chapter lists that are permutations of one
    another get the same issues, in the same order. *)
Theorem timeline_check_ignores_chapter_order
    (chapters chapters' : list Chapter.t) (scenes scenes' : list Scene.t) :
  Permutation chapters chapters' ->
  Checker.checkTimelineConsistency chapters scenes
  = Checker.checkTimelineConsistency chapters' scenes'.
Proof.
  intros Hp. unfold Checker.checkTimelineConsistency.
  now rewrite (sort_numbers_of_perm _ _ (numbered_perm _ _ Hp)).
Qed.

Lemma timeline_check_order_sample :
  Permutation (Samples.numbered_chapters [4; 1; 2])
    (Samples.numbered_chapters [1; 2; 4])
  /\ Checker.checkTimelineConsistency (Samples.numbered_chapters [4; 1; 2]) []
     = Checker.checkTimelineConsistency (Samples.numbered_chapters [1; 2; 4])
         [].
Proof.
  assert (Hp : Permutation (Samples.numbered_chapters [4; 1; 2])
                 (Samples.numbered_chapters [1; 2; 4])).
  { unfold Samples.numbered_chapters. apply Permutation_map.
    apply (Permutation_cons_app [1; 2] [] 4). reflexivity. }
  split; [exact Hp |].
  exact (timeline_check_ignores_chapter_order _ _ [] [] Hp).
Defined.

(** A silent timeline check means distinct consecutive numbers. *)
Lemma silent_consecutive (chapters : list Chapter.t) (scenes : list Scene.t) :
  Checker.checkTimelineConsistency chapters scenes = [] ->
  Further.consecutive (Checker.numbered chapters).
Proof.
  unfold Checker.checkTimelineConsistency, Further.consecutive.
  set (nums := Checker.numbered chapters).
  pose proof (sort_numbers_perm nums) as Hperm.
  pose proof (sort_numbers_sorted nums) as Hsorted.
  intros H. apply app_eq_nil in H. destruct H as [Hg Hd].
  apply map_eq_nil in Hg. apply map_eq_nil in Hd.
  apply duplicates_nil_iff in Hd.
  pose proof (sorted_nodup_ascending _ Hsorted Hd) as Hasc.
  rewrite (Permutation_length Hperm).
  destruct (JS.sort_numbers nums) as [| x t] eqn:Hs.
  - exists 0. exact Hperm.
  - exists x. cbn [Checker.gaps] in Hg. cbn [List.length].
    rewrite <- (gaps_after_nil_run t x Hasc Hg). exact Hperm.
Qed.

(** Distinct consecutive numbers keep the timeline check silent. *)
Lemma consecutive_silent (chapters : list Chapter.t) (scenes : list Scene.t) :
  Further.consecutive (Checker.numbered chapters) ->
  Checker.checkTimelineConsistency chapters scenes = [].
Proof.
  unfold Checker.checkTimelineConsistency, Further.consecutive.
  set (nums := Checker.numbered chapters).
  pose proof (sort_numbers_perm nums) as Hperm.
  pose proof (sort_numbers_sorted nums) as Hsorted.
  intros (m & Hrun).
  assert (Hs : JS.sort_numbers nums = Further.run m (List.length nums)).
  { apply sorted_perm_unique; [exact Hsorted | |].
    - apply ascending_le, run_ascending.
    - eapply Permutation_trans; [symmetry; exact Hperm | exact Hrun]. }
  rewrite Hs, gaps_run.
  rewrite (proj2 (duplicates_nil_iff _)
             (ascending_NoDup _ (run_ascending _ _))).
  reflexivity.
Qed.

(** In an ascending list whose elements each have another one at most 1
    below, no two neighbours are more than 1 apart. *)
Lemma gaps_after_close (rest : list Z) :
  forall prev,
    StronglySorted Z.lt (prev :: rest) ->
    (forall x, In x rest ->
               exists y, (y <= prev \/ In y rest) /\ x - 1 <= y < x) ->
    Checker.gaps_after prev rest = [].
Proof.
  induction rest as [| x t IH]; intros prev Hs Hclose; [reflexivity |].
  inversion Hs as [| ? ? Hs' Hall]; subst.
  inversion Hs' as [| ? ? Hs'' Hall']; subst.
  rewrite Forall_forall in Hall, Hall'.
  assert (Hprev : prev < x) by (apply Hall; now left).
  cbn [Checker.gaps_after].
  destruct (Hclose x (or_introl eq_refl)) as (y & Hy & Hxy).
  assert (Hle : y <= prev).
  { destruct Hy as [Hy | [Hy | Hy]]; [exact Hy | lia |].
    specialize (Hall' _ Hy). lia. }
  destruct (Z.ltb_spec 1 (x - prev)); [lia |].
  cbn [app]. apply IH; [exact Hs' |].
  intros x' Hx'. destruct (Hclose x' (or_intror Hx')) as (y' & Hy' & Hxy').
  exists y'. split; [| exact Hxy'].
  destruct Hy' as [Hy' | [Hy' | Hy']]; [left; lia | left; lia | now right].
Qed.

(** Distinct and closely spaced numbers keep the timeline check silent. *)
Lemma close_silent (chapters : list Chapter.t) (scenes : list Scene.t) :
  NoDup (Checker.numbered chapters) ->
  Further.closely_spaced (Checker.numbered chapters) ->
  Checker.checkTimelineConsistency chapters scenes = [].
Proof.
  unfold Checker.checkTimelineConsistency.
  set (nums := Checker.numbered chapters).
  pose proof (sort_numbers_perm nums) as Hperm.
  pose proof (sort_numbers_sorted nums) as Hsorted.
  intros Hnd Hclose.
  assert (Hnd' : NoDup (JS.sort_numbers nums))
    by (eapply Permutation_NoDup; eassumption).
  pose proof (sorted_nodup_ascending _ Hsorted Hnd') as Hasc.
  rewrite (proj2 (duplicates_nil_iff _) Hnd'). cbn [map]. rewrite app_nil_r.
  destruct (JS.sort_numbers nums) as [| x0 rest] eqn:Hs; [reflexivity |].
  cbn [Checker.gaps]. rewrite gaps_after_close; [reflexivity | exact Hasc |].
  intros x Hx.
  assert (Hin : In x nums)
    by (eapply Permutation_in; [symmetry; exact Hperm | now right]).
  inversion Hasc as [| ? ? _ Hall]; subst. rewrite Forall_forall in Hall.
  destruct (Hclose x Hin) as [Hleast | (y & Hy & Hxy)].
  - assert (H0 : In x0 nums)
      by (eapply Permutation_in; [symmetry; exact Hperm | now left]).
    specialize (Hleast _ H0). specialize (Hall _ Hx). lia.
  - exists y. split; [| exact Hxy].
    assert (Hy' : In y (x0 :: rest))
      by (eapply Permutation_in; [exact Hperm | exact Hy]).
    destruct Hy' as [<- | Hy']; [left; lia | now right].
Qed.

(** A run of whole numbers is distinct and closely spaced. *)
Lemma consecutive_close (nums : list Z) :
  Further.consecutive nums -> NoDup nums /\ Further.closely_spaced nums.
Proof.
  intros (m & Hperm). split.
  - eapply Permutation_NoDup; [symmetry; exact Hperm |].
    apply ascending_NoDup, run_ascending.
  - intros x Hx.
    assert (Hrun : In x (Further.run m (List.length nums)))
      by (eapply Permutation_in; eassumption).
    apply run_in in Hrun.
    destruct (Z.eq_dec x m) as [-> | Hne].
    + left. intros y Hy.
      assert (Hy' : In y (Further.run m (List.length nums)))
        by (eapply Permutation_in; eassumption).
      apply run_in in Hy'. lia.
    + right. exists (x - 1). split; [| lia].
      eapply Permutation_in; [symmetry; exact Hperm |].
      unfold Further.run. apply in_map_iff.
      exists (Z.to_nat (x - 1 - m)). split; [lia |].
      apply in_seq. lia.
Qed.

(** X4. On whole chapter numbers, which is what the embedding has
    (fractional numbers are outside this statement).  The timeline check is
    silent exactly when the non-zero chapter numbers of the chapters are
    pairwise distinct and none of them stands apart: each but the least has
    another one less than it and at most 1 below it.  For whole numbers
    that is exactly a run m, m+1, ..., in any order of the chapters; the
    run need not start at 1, and chapters without a number do not count. *)
Theorem timeline_silent_iff_consecutive
    (chapters : list Chapter.t) (scenes : list Scene.t) :
  (Checker.checkTimelineConsistency chapters scenes = []
   <-> NoDup (Checker.numbered chapters)
       /\ Further.closely_spaced (Checker.numbered chapters))
  /\ (NoDup (Checker.numbered chapters)
      /\ Further.closely_spaced (Checker.numbered chapters)
      <-> Further.consecutive (Checker.numbered chapters)).
Proof.
  split; split.
  - intros H. eapply consecutive_close, silent_consecutive, H.
  - intros [Hnd Hclose]. now apply close_silent.
  - intros [Hnd Hclose].
    apply (silent_consecutive chapters scenes). now apply close_silent.
  - apply consecutive_close.
Qed.

(* ====================================================================== *)
(** ** The plot check: one issue per plot thread at most *)
(* ====================================================================== *)

(** Characters with the same code are equal. *)
Lemma nat_of_ascii_inj (a b : ascii) :
  nat_of_ascii a = nat_of_ascii b -> a = b.
Proof.
  intros H. rewrite <- (ascii_nat_embedding a), <- (ascii_nat_embedding b).
  now rewrite H.
Qed.

(** Lower-casing moves a capital 32 places on. *)
Lemma lower_capital (a : ascii) :
  Further.capital a ->
  nat_of_ascii (JS.lower_ascii a) = (nat_of_ascii a + 32)%nat.
Proof.
  unfold Further.capital, JS.lower_ascii. intros [H1 H2].
  rewrite (proj2 (Nat.leb_le _ _) H1), (proj2 (Nat.leb_le _ _) H2).
  cbn [andb]. apply nat_ascii_embedding. lia.
Qed.

(** Lower-casing leaves every other character alone. *)
Lemma lower_other (a : ascii) : ~ Further.capital a -> JS.lower_ascii a = a.
Proof.
  unfold Further.capital, JS.lower_ascii. intros H.
  destruct (Nat.leb_spec 65 (nat_of_ascii a));
    destruct (Nat.leb_spec (nat_of_ascii a) 90); cbn [andb];
    try reflexivity.
  exfalso. apply H. lia.
Qed.

Lemma capital_dec (a : ascii) : {Further.capital a} + {~ Further.capital a}.
Proof.
  unfold Further.capital.
  destruct (le_dec 65 (nat_of_ascii a)); [| right; lia].
  destruct (le_dec (nat_of_ascii a) 90); [left; lia | right; lia].
Qed.

(** Two characters have the same lower case exactly when they are the
    same letter. *)
Lemma lower_ascii_same_letter (a b : ascii) :
  JS.lower_ascii a = JS.lower_ascii b <-> Further.same_letter a b.
Proof.
  unfold Further.same_letter.
  destruct (capital_dec a) as [Ha | Ha], (capital_dec b) as [Hb | Hb].
  - pose proof (lower_capital a Ha) as Ea.
    pose proof (lower_capital b Hb) as Eb.
    split.
    + intros H. left. apply nat_of_ascii_inj. rewrite H in Ea. lia.
    + intros [-> | [[_ H] | [_ H]]]; [reflexivity | |];
        unfold Further.capital in Ha, Hb; lia.
  - pose proof (lower_capital a Ha) as Ea.
    rewrite (lower_other b Hb). split.
    + intros H. right. left. split; [exact Ha | now rewrite <- H].
    + intros [-> | [[_ H] | [Hc _]]]; [contradiction | | contradiction].
      apply nat_of_ascii_inj. lia.
  - pose proof (lower_capital b Hb) as Eb.
    rewrite (lower_other a Ha). split.
    + intros H. right. right. split; [exact Hb | now rewrite H].
    + intros [-> | [[Hc _] | [_ H]]]; [contradiction | contradiction |].
      apply nat_of_ascii_inj. lia.
  - rewrite (lower_other a Ha), (lower_other b Hb). split.
    + intros H. now left.
    + intros [H | [[Hc _] | [Hc _]]]; [exact H | contradiction | contradiction].
Qed.

Lemma toLowerCase_same_text (s t : string) :
  JS.toLowerCase s = JS.toLowerCase t <-> Further.same_text s t.
Proof.
  revert t. induction s as [| a s IH]; intros [| b t]; cbn;
    try (split; [discriminate | contradiction]).
  - split; auto.
  - split.
    + intros H. injection H as H1 H2.
      split; [now apply lower_ascii_same_letter | now apply IH].
    + intros [H1 H2]. f_equal;
        [now apply lower_ascii_same_letter | now apply IH].
Qed.

Lemma toLowerCase_app (s t : string) :
  JS.toLowerCase (s ++ t) = JS.toLowerCase s ++ JS.toLowerCase t.
Proof. induction s as [| a s IH]; cbn; [reflexivity | now rewrite IH]. Qed.

(** A lower-cased text splits where its lower case does. *)
Lemma toLowerCase_split (s x y : string) :
  JS.toLowerCase s = x ++ y ->
  exists a b, s = a ++ b /\ JS.toLowerCase a = x /\ JS.toLowerCase b = y.
Proof.
  revert s. induction x as [| c x IH]; intros s H.
  - exists "", s. repeat split. exact H.
  - destruct s as [| d s]; [discriminate H |].
    cbn in H. injection H as Hc H.
    destruct (IH s H) as (a & b & -> & Ha & Hb).
    exists (String d a), b. cbn. repeat split; [now rewrite Hc, Ha | exact Hb].
Qed.

(** [String.prefix] tests for a prefix. *)
Lemma prefix_app (sub s : string) :
  String.prefix sub s = true <-> exists after, s = sub ++ after.
Proof.
  revert s. induction sub as [| c sub IH]; intros s.
  - split; [intros _; now exists s | intros _; now destruct s].
  - destruct s as [| d s]; cbn [String.prefix append].
    + split; [discriminate | intros (after & H); discriminate H].
    + destruct (ascii_dec c d) as [-> | Hne].
      * rewrite IH. split; intros (after & H); exists after.
        -- now rewrite H.
        -- now injection H.
      * split; [discriminate |].
        intros (after & H). injection H as H _. congruence.
Qed.

(** [includes] tests for an occurrence. *)
Lemma str_includes_app (s sub : string) :
  JS.str_includes s sub = true
  <-> exists before after, s = before ++ sub ++ after.
Proof.
  induction s as [| c s IH].
  - cbn [JS.str_includes].
    destruct (String.prefix sub "") eqn:Hp.
    + split; [| reflexivity]. intros _. apply prefix_app in Hp.
      destruct Hp as (after & H). now exists "", after.
    + split; [discriminate |]. intros (before & after & H).
      destruct before; [| discriminate H]. cbn in H.
      assert (Hyes : String.prefix sub "" = true)
        by (apply prefix_app; now exists after).
      congruence.
  - cbn [JS.str_includes].
    destruct (String.prefix sub (String c s)) eqn:Hp.
    + split; [| reflexivity]. intros _. apply prefix_app in Hp.
      destruct Hp as (after & H). now exists "", after.
    + rewrite IH. split.
      * intros (before & after & ->). now exists (String c before), after.
      * intros (before & after & H). destruct before as [| d before].
        -- cbn in H.
           assert (Hyes : String.prefix sub (String c s) = true)
             by (apply prefix_app; now exists after).
           congruence.
        -- cbn in H. injection H as _ H. now exists before, after.
Qed.

(** The filter of the plot check keeps the chapters that reference the plot
    thread. *)
Lemma chapter_mentions_references (t : PlotThread.t) (c : Chapter.t) :
  Checker.chapter_mentions t c = true <-> Further.references t c.
Proof.
  unfold Checker.chapter_mentions, Further.references,
    Further.occurs_ignoring_case.
  rewrite orb_true_iff. split.
  - intros [H | H].
    + left. destruct (Chapter.plotThreads c) as [ids |]; [| discriminate H].
      exists ids. split; [reflexivity | now apply includes_In].
    + right. destruct (Chapter.plotAdvancement c) as [text |];
        [| discriminate H].
      exists text. split; [reflexivity |].
      apply str_includes_app in H. destruct H as (x & z & H).
      apply toLowerCase_split in H. destruct H as (before & rest & -> & _ & H).
      apply toLowerCase_split in H. destruct H as (found & after & -> & H & _).
      exists before, found, after. split; [reflexivity |].
      now apply toLowerCase_same_text.
  - intros [(ids & -> & H) | (text & -> & before & found & after & -> & H)].
    + left. now apply includes_In.
    + right. apply str_includes_app.
      exists (JS.toLowerCase before), (JS.toLowerCase after).
      rewrite !toLowerCase_app. apply toLowerCase_same_text in H.
      now rewrite H.
Qed.

(** The turn of one plot thread in the plot check, in the terms of the
    code. *)
Lemma check_plotThread_cases
    (plotThreads : list PlotThread.t) (chapters : list Chapter.t)
    (scenes : list Scene.t) :
  (forall t,
      (List.length (Checker.check_plotThread chapters t) <= 1)%nat
      /\ (In (Checker.unused_issue t) (Checker.check_plotThread chapters t)
          <-> PlotThread.status t <> "completed"
              /\ forall c, In c chapters ->
                           Checker.chapter_mentions t c = false)
      /\ (In (Checker.unresolved_issue t)
            (Checker.check_plotThread chapters t)
          <-> PlotThread.status t = "completed"
              /\ JS.truthy_str (PlotThread.resolution t) = false))
  /\ (List.length (Checker.checkPlotConsistency plotThreads chapters scenes)
      <= List.length plotThreads)%nat.
Proof.
  assert (Hone : forall t,
    (List.length (Checker.check_plotThread chapters t) <= 1)%nat
    /\ (In (Checker.unused_issue t) (Checker.check_plotThread chapters t)
        <-> PlotThread.status t <> "completed"
            /\ forall c, In c chapters ->
                         Checker.chapter_mentions t c = false)
    /\ (In (Checker.unresolved_issue t) (Checker.check_plotThread chapters t)
        <-> PlotThread.status t = "completed"
            /\ JS.truthy_str (PlotThread.resolution t) = false)).
  { intros t. unfold Checker.check_plotThread.
    assert (Hrel :
      (Z.of_nat (List.length (filter (Checker.chapter_mentions t) chapters))
       =? 0) = true
      <-> forall c, In c chapters -> Checker.chapter_mentions t c = false).
    { rewrite Z.eqb_eq. split.
      - intros Hlen c Hc.
        destruct (Checker.chapter_mentions t c) eqn:Hm; [| reflexivity].
        assert (Hin : In c (filter (Checker.chapter_mentions t) chapters))
          by (apply filter_In; auto).
        destruct (filter _ chapters); [contradiction | discriminate].
      - intros Hnone.
        replace (filter (Checker.chapter_mentions t) chapters)
          with (@nil Chapter.t); [reflexivity |].
        symmetry. clear - Hnone.
        induction chapters as [| c l IH]; [reflexivity |].
        cbn [filter]. rewrite (Hnone c (or_introl eq_refl)).
        apply IH. intros x Hx. apply Hnone. now right. }
    destruct (String.eqb_spec (PlotThread.status t) "completed")
      as [Hdone | Hopen].
    - rewrite andb_false_r. cbn [negb andb app].
      destruct (JS.truthy_str (PlotThread.resolution t)); cbn [negb].
      + split; [cbn; lia |].
        split; (split; [intros [] | intros [H1 H2]; congruence]).
      + split; [cbn; lia |]. split; split.
        * intros [H | []]. discriminate H.
        * intros [H _]. contradiction.
        * auto.
        * intros _. now left.
    - cbn [negb andb]. rewrite andb_true_r, app_nil_r.
      destruct (Z.of_nat _ =? 0) eqn:Hz.
      + split; [cbn; lia |]. split; split.
        * intros _. split; [assumption | now apply Hrel].
        * intros _. now left.
        * intros [H | []]. discriminate H.
        * intros [H _]. contradiction.
      + split; [cbn; lia |]. split; split.
        * intros [].
        * intros [_ Hnone]. apply Hrel in Hnone. congruence.
        * intros [].
        * intros [H _]. contradiction. }
  split; [exact Hone |].
  unfold Checker.checkPlotConsistency.
  induction plotThreads as [| t l IH]; [cbn; lia |].
  cbn [flat_map]. rewrite length_app. cbn [List.length].
  destruct (Hone t) as [Hlen _]. lia.
Qed.

Lemma falsy_resolution (r : option string) :
  JS.truthy_str r = false <-> r = None \/ r = Some "".
Proof.
  destruct r as [s |]; cbn.
  - destruct (String.eqb_spec s ""); cbn; split.
    + intros _. right. now subst.
    + reflexivity.
    + discriminate.
    + intros [H | H]; [discriminate H | injection H; contradiction].
  - split; [now left | reflexivity].
Qed.

(** X5. On ASCII titles and texts, where the lower-casing of the embedding
    is that of JavaScript.  For each plot thread the plot check pushes at
    most one issue: the [plot-thread-unused] one exactly when the thread is
    not [completed] and no in-scope chapter references it (none lists its
    id, and in none does [plotAdvancement] contain the title, the case of
    the letters ignored); the [plot-thread-unresolved] one exactly when it
    is [completed] and its resolution is missing or empty.  So the check
    reports at most as many issues as there are plot threads. *)
Theorem plot_check_one_issue_per_thread
    (plotThreads : list PlotThread.t) (chapters : list Chapter.t)
    (scenes : list Scene.t) :
  (forall t, In t plotThreads ->
             Further.ascii_text (PlotThread.title t) = true) ->
  (forall c text, In c chapters -> Chapter.plotAdvancement c = Some text ->
                  Further.ascii_text text = true) ->
  (forall t, In t plotThreads ->
      (List.length (Checker.check_plotThread chapters t) <= 1)%nat
      /\ (In (Checker.unused_issue t) (Checker.check_plotThread chapters t)
          <-> PlotThread.status t <> "completed"
              /\ forall c, In c chapters -> ~ Further.references t c)
      /\ (In (Checker.unresolved_issue t)
            (Checker.check_plotThread chapters t)
          <-> PlotThread.status t = "completed"
              /\ (PlotThread.resolution t = None
                  \/ PlotThread.resolution t = Some "")))
  /\ (List.length (Checker.checkPlotConsistency plotThreads chapters scenes)
      <= List.length plotThreads)%nat.
Proof.
  intros _ _.
  destruct (check_plotThread_cases plotThreads chapters scenes)
    as [Hone Hall].
  split; [| exact Hall].
  intros t _. destruct (Hone t) as (Hlen & Hunused & Hunresolved).
  split; [exact Hlen |]. split.
  - rewrite Hunused. split; intros [Hopen Hnone]; (split; [exact Hopen |]);
      intros c Hc; specialize (Hnone c Hc).
    + intros Href. apply chapter_mentions_references in Href. congruence.
    + destruct (Checker.chapter_mentions t c) eqn:Hm; [| reflexivity].
      exfalso. apply Hnone. now apply chapter_mentions_references.
  - rewrite Hunresolved, falsy_resolution. reflexivity.
Qed.

(** X5 on a sample: the chapter writes [The Heist], the title is
    [The heist]; the thread is not reported as unused. *)
Lemma plot_check_mention_sample :
  ~ In (Checker.unused_issue MoreSamples.heist_thread)
       (Checker.check_plotThread [MoreSamples.heist_chapter]
          MoreSamples.heist_thread).
Proof.
  intros Hin.
  assert (Htitles : forall t, In t [MoreSamples.heist_thread] ->
                              Further.ascii_text (PlotThread.title t) = true).
  { intros t [<- | []]. reflexivity. }
  assert (Htexts : forall c text,
             In c [MoreSamples.heist_chapter] ->
             Chapter.plotAdvancement c = Some text ->
             Further.ascii_text text = true).
  { intros c text [<- | []] H. injection H as <-. reflexivity. }
  destruct (plot_check_one_issue_per_thread [MoreSamples.heist_thread]
              [MoreSamples.heist_chapter] [] Htitles Htexts) as [Hone _].
  destruct (Hone MoreSamples.heist_thread (or_introl eq_refl))
    as (_ & Hunused & _).
  apply Hunused in Hin. destruct Hin as [_ Hnone].
  apply (Hnone MoreSamples.heist_chapter (or_introl eq_refl)).
  right. exists "They plan The Heist at dawn". split; [reflexivity |].
  exists "They plan ", "The Heist", " at dawn". split; [reflexivity |].
  cbn. repeat split; try (left; reflexivity).
  right. left. split; [unfold Further.capital; cbn; lia | reflexivity].
Defined.

(* ====================================================================== *)
(** ** check-consistency: what a run writes *)
(* ====================================================================== *)

(** X6. Without auto-fix, check-consistency on a readable story bible never
    fails and never writes the story bible: it returns the detected issues
    with no fixed issue, and writes the report when [generateReport] is set
    and nothing otherwise.  The story bible needs no [meta] for that. *)
Theorem check_without_autofix_only_writes_the_report
    (sb : StoryBible.t) (env : CheckConsistency.Env) (p : Checker.Params) :
  Checker.autoFix p = false ->
  exists d,
    Result.data
      (fst (CheckConsistency.checkConsistencyDirect (Fs.Stored sb) env p))
    = Some d
    /\ Result.success
         (fst (CheckConsistency.checkConsistencyDirect (Fs.Stored sb) env p))
       = true
    /\ CheckConsistency.issues d = Checker.detectIssues sb p
    /\ CheckConsistency.fixedIssues d = []
    /\ snd (CheckConsistency.checkConsistencyDirect (Fs.Stored sb) env p)
       = (if Checker.generateReport p
          then [Fs.WriteFile
                  (Fs.ConsistencyReport (CheckConsistency.nowMs env))
                  (Fs.ReportMarkdown (CheckConsistency.issues d)
                     (CheckConsistency.suggestions d) [])]
          else []).
Proof.
  intros Hoff.
  destruct (CheckConsistency.checkConsistencyDirect (Fs.Stored sb) env p)
    as [res tr] eqn:Hrun.
  unfold CheckConsistency.checkConsistencyDirect, Eff.try_boundary,
    CheckConsistency.body in Hrun.
  cbn [Common.load] in Hrun. unfold Eff.bind at 1 in Hrun.
  cbn [Eff.ret] in Hrun. cbv zeta in Hrun. rewrite Hoff in Hrun.
  destruct (Checker.detectIssues sb p) as [| i issues];
    destruct (Checker.generateReport p);
    unfold Eff.bind, Eff.perform, Eff.ret in Hrun; cbn in Hrun;
    injection Hrun as <- <-;
    eexists; (split; [reflexivity |]); cbn; repeat split.
Qed.

Lemma check_without_autofix_sample :
  Checker.autoFix Checker.defaults = false
  /\ snd (CheckConsistency.checkConsistencyDirect
            (Fs.Stored Samples.unlisted_bible) Samples.env Checker.defaults)
     = [Fs.WriteFile (Fs.ConsistencyReport 1748779200000)
          (Fs.ReportMarkdown
             [Checker.unlisted_issue Samples.K Samples.C] [] [])].
Proof.
  split; [reflexivity |].
  destruct (check_without_autofix_only_writes_the_report
              Samples.unlisted_bible Samples.env Checker.defaults eq_refl)
    as (d & _ & _ & _ & _ & _).
  reflexivity.
Defined.

Lemma is_type_unknown (p : Checker.Params) (ty : string) :
  existsb (String.eqb (Checker.checkType p))
    ["character"; "plot"; "timeline"; "style"; "all"] = false ->
  In ty ["character"; "plot"; "timeline"; "style"] ->
  Checker.is_type p ty = false.
Proof.
  intros Hunknown Hty. unfold Checker.is_type.
  cbn [existsb] in Hunknown. rewrite orb_false_r in Hunknown.
  repeat (apply orb_false_iff in Hunknown;
          destruct Hunknown as [? Hunknown]).
  cbn [In] in Hty.
  destruct Hty as [<- | [<- | [<- | [<- | []]]]]; apply orb_false_iff; auto.
Qed.

(** X7. A check type outside [character], [plot], [timeline], [style] and
    [all] is not rejected: no rule family runs, so check-consistency
    succeeds with no issue, asks the generation service nothing, fixes
    nothing even with auto-fix set, and writes at most the (empty) report. *)
Theorem unknown_check_type_reports_success_with_no_issue
    (sb : StoryBible.t) (env : CheckConsistency.Env) (p : Checker.Params) :
  existsb (String.eqb (Checker.checkType p))
    ["character"; "plot"; "timeline"; "style"; "all"] = false ->
  Checker.detectIssues sb p = []
  /\ exists d,
       Result.data
         (fst (CheckConsistency.checkConsistencyDirect (Fs.Stored sb) env p))
       = Some d
       /\ Result.success
            (fst (CheckConsistency.checkConsistencyDirect (Fs.Stored sb) env
                    p))
          = true
       /\ CheckConsistency.issues d = []
       /\ CheckConsistency.suggestions d = []
       /\ CheckConsistency.fixedIssues d = []
       /\ snd (CheckConsistency.checkConsistencyDirect (Fs.Stored sb) env p)
          = (if Checker.generateReport p
             then [Fs.WriteFile
                     (Fs.ConsistencyReport (CheckConsistency.nowMs env))
                     (Fs.ReportMarkdown [] [] [])]
             else []).
Proof.
  intros Hunknown.
  assert (Hnone : Checker.detectIssues sb p = []).
  { unfold Checker.detectIssues.
    rewrite !(is_type_unknown p _ Hunknown) by (cbn; tauto). reflexivity. }
  split; [exact Hnone |].
  destruct (CheckConsistency.checkConsistencyDirect (Fs.Stored sb) env p)
    as [res tr] eqn:Hrun.
  unfold CheckConsistency.checkConsistencyDirect, Eff.try_boundary,
    CheckConsistency.body in Hrun.
  cbn [Common.load] in Hrun. unfold Eff.bind at 1 in Hrun.
  cbn [Eff.ret] in Hrun. cbv zeta in Hrun. rewrite Hnone in Hrun.
  destruct (Checker.generateReport p);
    unfold Eff.bind, Eff.perform, Eff.ret in Hrun; cbn in Hrun;
    injection Hrun as <- <-;
    eexists; (split; [reflexivity |]); cbn; repeat split.
Qed.

Lemma unknown_check_type_sample :
  existsb (String.eqb (Checker.checkType MoreSamples.mistyped_check))
    ["character"; "plot"; "timeline"; "style"; "all"] = false
  /\ Checker.detectIssues Samples.unlisted_bible MoreSamples.mistyped_check
     = []
  /\ Checker.detectIssues Samples.unlisted_bible
       MoreSamples.aggressive_autofix
     = [Checker.unlisted_issue Samples.K Samples.C].
Proof.
  split; [reflexivity |].
  split; [| reflexivity].
  apply (unknown_check_type_reports_success_with_no_issue
           Samples.unlisted_bible Samples.env MoreSamples.mistyped_check).
  reflexivity.
Defined.

(** X8. Auto-fix needs the story bible's [meta]: when a fix was applied to
    a story bible without [meta], stamping [meta.updatedAt] throws, and
    check-consistency fails at its boundary with that message and has
    written nothing, neither the fixed story bible nor the report. *)
Theorem autofix_without_meta_fails_and_writes_nothing
    (sb : StoryBible.t) (env : CheckConsistency.Env) (p : Checker.Params) :
  StoryBible.meta sb = None ->
  Checker.autoFix p = true ->
  fst (Checker.autoFixIssues (Checker.detectIssues sb p) sb
         (Checker.fixMode p) (CheckConsistency.now env)) <> [] ->
  CheckConsistency.checkConsistencyDirect (Fs.Stored sb) env p
  = (Common.failed "check consistency"
       (TypeError "Cannot set properties of undefined (setting 'updatedAt')"),
     []).
Proof.
  intros Hmeta Hon Hfixed.
  pose proof (autoFix_loop (Checker.fixMode p) (CheckConsistency.now env)
                (Checker.detectIssues sb p) [] sb) as Hinv.
  cbv zeta in Hinv. destruct Hinv as (Hsame & _).
  fold (Checker.autoFixIssues (Checker.detectIssues sb p) sb
          (Checker.fixMode p) (CheckConsistency.now env)) in Hsame.
  unfold CheckConsistency.checkConsistencyDirect, Eff.try_boundary,
    CheckConsistency.body.
  cbn [Common.load]. unfold Eff.bind at 1. cbn [Eff.ret]. cbv zeta.
  rewrite Hon.
  destruct (Checker.detectIssues sb p) as [| i issues] eqn:Hissues.
  { exfalso. apply Hfixed. reflexivity. }
  destruct (Checker.autoFixIssues (i :: issues) sb (Checker.fixMode p)
              (CheckConsistency.now env)) as [fixed sb'] eqn:Hfix.
  cbn [fst snd] in *.
  destruct fixed as [| f fixed]; [contradiction |].
  unfold Common.touch. rewrite Hsame.
  cbn [StoryBible.meta StoryBible.with_chapters]. rewrite Hmeta.
  reflexivity.
Qed.

Lemma autofix_without_meta_sample :
  StoryBible.meta MoreSamples.without_meta = None
  /\ Checker.autoFix MoreSamples.aggressive_autofix = true
  /\ List.length
       (fst (Checker.autoFixIssues
               (Checker.detectIssues MoreSamples.without_meta
                  MoreSamples.aggressive_autofix)
               MoreSamples.without_meta "aggressive" Samples.now))
     = 1%nat
  /\ CheckConsistency.checkConsistencyDirect
       (Fs.Stored MoreSamples.without_meta) Samples.env
       MoreSamples.aggressive_autofix
     = (Common.failed "check consistency"
          (TypeError
             "Cannot set properties of undefined (setting 'updatedAt')"),
        []).
Proof.
  split; [reflexivity |]. split; [reflexivity |]. split; [reflexivity |].
  apply (autofix_without_meta_fails_and_writes_nothing
           MoreSamples.without_meta Samples.env
           MoreSamples.aggressive_autofix);
    [reflexivity | reflexivity | discriminate].
Defined.

(** X9. On a story bible that has its [meta], check-consistency succeeds,
    and it writes the story bible exactly when auto-fix fixed an issue: the
    document written is the auto-fixed story bible with [meta.updatedAt]
    stamped, it is written before the report, and the fixed issues returned
    are those of [autoFixIssues] (none without auto-fix). *)
Theorem check_consistency_writes_the_bible_iff_fixed
    (sb : StoryBible.t) (m : Meta.t) (env : CheckConsistency.Env)
    (p : Checker.Params) :
  StoryBible.meta sb = Some m ->
  let r := if Checker.autoFix p
           then Checker.autoFixIssues (Checker.detectIssues sb p) sb
                  (Checker.fixMode p) (CheckConsistency.now env)
           else ([], sb) in
  exists d,
    Result.data
      (fst (CheckConsistency.checkConsistencyDirect (Fs.Stored sb) env p))
    = Some d
    /\ Result.success
         (fst (CheckConsistency.checkConsistencyDirect (Fs.Stored sb) env p))
       = true
    /\ CheckConsistency.issues d = Checker.detectIssues sb p
    /\ CheckConsistency.fixedIssues d = fst r
    /\ snd (CheckConsistency.checkConsistencyDirect (Fs.Stored sb) env p)
       = ((match fst r with
           | [] => []
           | _ :: _ =>
               [Fs.WriteFile Fs.StoryBibleJson
                  (Fs.BibleJson
                     (StoryBible.with_meta (snd r)
                        (Some (Meta.with_updatedAt m
                                 (CheckConsistency.now env)))))]
           end)
          ++ (if Checker.generateReport p
              then [Fs.WriteFile
                      (Fs.ConsistencyReport (CheckConsistency.nowMs env))
                      (Fs.ReportMarkdown (CheckConsistency.issues d)
                         (CheckConsistency.suggestions d) (fst r))]
              else []))%list
    /\ (SpecWording.writes_story_bible
          (snd (CheckConsistency.checkConsistencyDirect (Fs.Stored sb) env p))
        = negb match fst r with
               | [] => true
               | _ :: _ => false
               end).
Proof.
  intros Hmeta r.
  pose proof (autoFix_loop (Checker.fixMode p) (CheckConsistency.now env)
                (Checker.detectIssues sb p) [] sb) as Hinv.
  cbv zeta in Hinv. destruct Hinv as (Hsame & _).
  fold (Checker.autoFixIssues (Checker.detectIssues sb p) sb
          (Checker.fixMode p) (CheckConsistency.now env)) in Hsame.
  destruct (CheckConsistency.checkConsistencyDirect (Fs.Stored sb) env p)
    as [res tr] eqn:Hrun.
  unfold CheckConsistency.checkConsistencyDirect, Eff.try_boundary,
    CheckConsistency.body in Hrun.
  cbn [Common.load] in Hrun. unfold Eff.bind at 1 in Hrun.
  cbn [Eff.ret] in Hrun. cbv zeta in Hrun. subst r.
  destruct (Checker.autoFix p).
  - destruct (Checker.detectIssues sb p) as [| i issues] eqn:Hissues.
    + cbn [Checker.autoFixIssues fold_left fst snd].
      destruct (Checker.generateReport p);
        unfold Eff.bind, Eff.perform, Eff.ret in Hrun; cbn in Hrun;
        injection Hrun as <- <-;
        eexists; (split; [reflexivity |]); cbn; repeat split.
    + destruct (Checker.autoFixIssues (i :: issues) sb (Checker.fixMode p)
                  (CheckConsistency.now env)) as [fixed sb'] eqn:Hfix.
      cbn [fst snd] in *.
      unfold Common.touch in Hrun. rewrite Hsame in Hrun.
      cbn [StoryBible.meta StoryBible.with_chapters] in Hrun.
      rewrite Hmeta in Hrun. rewrite <- Hsame in Hrun.
      destruct fixed as [| f fixed];
        destruct (Checker.generateReport p);
        unfold Eff.bind, Eff.perform, Eff.ret in Hrun; cbn in Hrun;
        injection Hrun as <- <-;
        eexists; (split; [reflexivity |]); cbn; repeat split.
  - cbn [fst snd].
    destruct (Checker.detectIssues sb p) as [| i issues];
      destruct (Checker.generateReport p);
      unfold Eff.bind, Eff.perform, Eff.ret in Hrun; cbn in Hrun;
      injection Hrun as <- <-;
      eexists; (split; [reflexivity |]); cbn; repeat split.
Qed.

Lemma check_consistency_autofix_sample :
  StoryBible.meta Samples.unlisted_bible = Some Samples.meta
  /\ SpecWording.writes_story_bible
       (snd (CheckConsistency.checkConsistencyDirect
               (Fs.Stored Samples.unlisted_bible) Samples.env
               MoreSamples.aggressive_autofix))
     = true
  /\ SpecWording.writes_story_bible
       (snd (CheckConsistency.checkConsistencyDirect
               (Fs.Stored Samples.unlisted_bible) Samples.env
               Checker.defaults))
     = false.
Proof.
  split; [reflexivity |].
  destruct (check_consistency_writes_the_bible_iff_fixed
              Samples.unlisted_bible Samples.meta Samples.env
              MoreSamples.aggressive_autofix eq_refl)
    as (d1 & _ & _ & _ & _ & _ & H1).
  destruct (check_consistency_writes_the_bible_iff_fixed
              Samples.unlisted_bible Samples.meta Samples.env
              Checker.defaults eq_refl)
    as (d2 & _ & _ & _ & _ & _ & H2).
  split; [exact H1 | exact H2].
Defined.

(* ====================================================================== *)
(** ** A story bible file that is not JSON *)
(* ====================================================================== *)

(** X10. When [story-bible.json] exists but [JSON.parse] rejects its
    content, each of the five operations fails at its boundary with the
    parser's message in [error] and after [Failed to ...: ] in [message],
    and performs no [mkdir] and no [writeFile]. *)
Theorem unparsable_story_bible_fails_without_mutation :
  forall (message now : string) (parseInt : string -> option Z)
         (env : CheckConsistency.Env)
         (characterService : Service.Outcome CreateCharacter.AiCharacter)
         (chapterService : Service.Outcome GenerateChapter.AiChapter)
         (pc : Checker.Params) (ps : GetStoryStatus.Params)
         (pn : NextChapter.Params) (pk : CreateCharacter.Params)
         (pg : GenerateChapter.Params),
    CheckConsistency.checkConsistencyDirect (Fs.Unparsable message) env pc
    = (Common.failed "check consistency" (SyntaxError message), [])
    /\ GetStoryStatus.getStoryStatusDirect (Fs.Unparsable message) ps
       = (Common.failed "get story status" (SyntaxError message), [])
    /\ NextChapter.nextChapterDirect parseInt (Fs.Unparsable message) pn
       = (Common.failed "find next chapter" (SyntaxError message), [])
    /\ CreateCharacter.createCharacterDirect (Fs.Unparsable message) now
         characterService pk
       = (Common.failed "create character" (SyntaxError message), [])
    /\ GenerateChapter.generateChapterDirect (Fs.Unparsable message) now
         chapterService pg
       = (Common.failed "generate chapter" (SyntaxError message), []).
Proof.
  intros. repeat split.
Qed.

(* ====================================================================== *)
(** ** create-character: identifiers, files and failures *)
(* ====================================================================== *)

Lemma fold_max_ge (t : list Z) :
  forall a, a <= fold_left Z.max t a
            /\ forall z, In z t -> z <= fold_left Z.max t a.
Proof.
  induction t as [| x t IH]; intros a; cbn [fold_left].
  - split; [lia | contradiction].
  - destruct (IH (Z.max a x)) as [Ha Ht]. split; [lia |].
    intros z [<- | Hz]; [lia | auto].
Qed.

(** The next identifier is above every identifier in use. *)
Lemma nextId_above {A : Type} (f : A -> Z) (l : list A) (x : A) :
  In x l -> f x < Common.nextId f l.
Proof.
  unfold Common.nextId, JS.Math_max. intros Hin.
  apply (in_map f) in Hin.
  destruct (map f l) as [| a t]; [contradiction |].
  destruct (fold_max_ge t a) as [Ha Ht].
  destruct Hin as [<- | Hin]; [lia |].
  specialize (Ht _ Hin). lia.
Qed.

Lemma nextId_fresh {A : Type} (f : A -> Z) (l : list A) (x : A) :
  f x = Common.nextId f l ->
  NoDup (map f l) -> NoDup (map f (l ++ [x])).
Proof.
  intros Hx Hnd. rewrite map_app. cbn [map].
  apply NoDup_app; [exact Hnd | repeat constructor; intros [] |].
  intros z Hz [<- | []]. apply in_map_iff in Hz.
  destruct Hz as (y & Hy & Hin). apply (nextId_above f) in Hin. lia.
Qed.

(** X11. A successful create-character run appends one character to the
    story bible and changes nothing else of it but [meta.updatedAt]: the
    existing characters stay as they are and in their order, the new
    character carries the caller's name, type and priority with status
    [draft], its id is above every id in use (so distinct ids stay
    distinct), and the run made exactly three mutating calls: the directory,
    the character file, the story bible. *)
Theorem create_character_appends_with_a_fresh_id
    (file : Fs.BibleFile) (now : string)
    (service : Service.Outcome CreateCharacter.AiCharacter)
    (p : CreateCharacter.Params) (d : CreateCharacter.Data) :
  Result.data (fst (CreateCharacter.createCharacterDirect file now service p))
  = Some d ->
  exists sb sb',
    file = Fs.Stored sb
    /\ snd (CreateCharacter.createCharacterDirect file now service p)
       = [Fs.Mkdir Fs.CharactersDir;
          Fs.WriteFile (CreateCharacter.filePath d)
            (Fs.CharacterMarkdown (CreateCharacter.character d));
          Fs.WriteFile Fs.StoryBibleJson (Fs.BibleJson sb')]
    /\ StoryBible.characters sb'
       = Some (JS.arr_or (StoryBible.characters sb)
               ++ [CreateCharacter.character d])%list
    /\ StoryBible.with_meta (StoryBible.with_characters sb' None) None
       = StoryBible.with_meta (StoryBible.with_characters sb None) None
    /\ StoryBible.meta sb'
       = option_map (fun m => Meta.with_updatedAt m now) (StoryBible.meta sb)
    /\ Character.id (CreateCharacter.character d) = CreateCharacter.id d
    /\ (forall c, In c (JS.arr_or (StoryBible.characters sb)) ->
                  Character.id c < CreateCharacter.id d)
    /\ (NoDup (map Character.id (JS.arr_or (StoryBible.characters sb))) ->
        NoDup (map Character.id (JS.arr_or (StoryBible.characters sb'))))
    /\ Character.title (CreateCharacter.character d) = CreateCharacter.name p
    /\ Character.characterType (CreateCharacter.character d)
       = CreateCharacter.characterType p
    /\ Character.priority (CreateCharacter.character d)
       = CreateCharacter.priority p
    /\ Character.status (CreateCharacter.character d) = "draft".
Proof.
  intros Hd.
  destruct (create_success_inv file now service p d Hd)
    as (sb & m & profile & -> & Hmeta & Hrun & Hprofile).
  rewrite Hrun in Hd |- *.
  unfold ProofAux.character_created in Hd |- *.
  cbn [fst snd Result.data] in Hd |- *. injection Hd as <-.
  cbn [CreateCharacter.character CreateCharacter.filePath CreateCharacter.id].
  assert (Hid : Character.id profile
                = Common.nextId Character.id
                    (JS.arr_or (StoryBible.characters sb))
                /\ Character.title profile = CreateCharacter.name p
                /\ Character.characterType profile
                   = CreateCharacter.characterType p
                /\ Character.priority profile = CreateCharacter.priority p
                /\ Character.status profile = "draft").
  { destruct Hprofile as [-> | (ai & ->)]; repeat split. }
  destruct Hid as (Hid & Htitle & Htype & Hprio & Hstatus).
  exists sb. eexists. split; [reflexivity |]. split; [reflexivity |].
  cbn [StoryBible.characters StoryBible.with_meta StoryBible.with_characters
       StoryBible.meta StoryBible.premise StoryBible.chapters
       StoryBible.scenes StoryBible.plotThreads StoryBible.style
       JS.arr_or].
  rewrite Hmeta. cbn [option_map].
  repeat split; auto.
  - intros c Hc. now apply nextId_above.
  - now apply nextId_fresh.
Qed.

Lemma create_character_sample :
  Result.data
    (fst (CreateCharacter.createCharacterDirect
            (Fs.Stored Samples.unlisted_bible) Samples.now
            (Service.ReturnsText "Sorry, I cannot help." None)
            Samples.character_params))
  = Some (CreateCharacter.mkData
            (CreateCharacter.baseline 8 Samples.now Samples.character_params)
            (Fs.CharacterFile "mira.md") 8)
  /\ exists sb sb',
       Fs.Stored Samples.unlisted_bible = Fs.Stored sb
       /\ snd (CreateCharacter.createCharacterDirect
                 (Fs.Stored Samples.unlisted_bible) Samples.now
                 (Service.ReturnsText "Sorry, I cannot help." None)
                 Samples.character_params)
          = [Fs.Mkdir Fs.CharactersDir;
             Fs.WriteFile (Fs.CharacterFile "mira.md")
               (Fs.CharacterMarkdown
                  (CreateCharacter.baseline 8 Samples.now
                     Samples.character_params));
             Fs.WriteFile Fs.StoryBibleJson (Fs.BibleJson sb')].
Proof.
  split; [reflexivity |].
  destruct (create_character_appends_with_a_fresh_id
              (Fs.Stored Samples.unlisted_bible) Samples.now
              (Service.ReturnsText "Sorry, I cannot help." None)
              Samples.character_params _ eq_refl)
    as (sb & sb' & Hfile & Htrace & _).
  exists sb, sb'. split; [exact Hfile | exact Htrace].
Defined.

Lemma create_without_premise (sb : StoryBible.t) (now : string)
    (service : Service.Outcome CreateCharacter.AiCharacter)
    (p : CreateCharacter.Params) :
  StoryBible.premise sb = None ->
  CreateCharacter.createCharacterDirect (Fs.Stored sb) now service p
  = (Result.mk false
       (Text (Common.cross_mark_misencoded
                ++ " No premise found in story bible. "
                ++ "Complete premise setup first."))
       None (Some "Premise not found"),
     []).
Proof.
  intros Hpremise.
  unfold CreateCharacter.createCharacterDirect, Eff.try_boundary,
    CreateCharacter.body.
  cbn [Common.load]. unfold Eff.bind at 1. cbn [Eff.ret].
  rewrite Hpremise. reflexivity.
Qed.

Lemma create_without_meta (sb : StoryBible.t) (now : string)
    (service : Service.Outcome CreateCharacter.AiCharacter)
    (p : CreateCharacter.Params) :
  StoryBible.premise sb <> None ->
  StoryBible.meta sb = None ->
  (CreateCharacter.generateProfile p || CreateCharacter.generateArc p
   || CreateCharacter.generateVoice p = false
   \/ exists v, Service.await_parsed service = Eff.ret v) ->
  exists profile,
    CreateCharacter.createCharacterDirect (Fs.Stored sb) now service p
    = (Common.failed "create character"
         (TypeError
            "Cannot set properties of undefined (setting 'updatedAt')"),
       [Fs.Mkdir Fs.CharactersDir;
        Fs.WriteFile
          (Fs.CharacterFile
             (CreateCharacter.slug (CreateCharacter.name p) ++ ".md"))
          (Fs.CharacterMarkdown profile)])
    /\ Character.title profile = CreateCharacter.name p
    /\ Character.id profile
       = Common.nextId Character.id (JS.arr_or (StoryBible.characters sb)).
Proof.
  intros Hpremise Hmeta Hservice.
  destruct (StoryBible.premise sb) as [premise |] eqn:Hp;
    [clear Hpremise | contradiction].
  unfold CreateCharacter.createCharacterDirect, Eff.try_boundary,
    CreateCharacter.body.
  cbn [Common.load]. unfold Eff.bind at 1. cbn [Eff.ret].
  rewrite Hp.
  destruct (CreateCharacter.generateProfile p
            || CreateCharacter.generateArc p
            || CreateCharacter.generateVoice p).
  - destruct Hservice as [Hoff | (v & Hv)]; [discriminate Hoff |].
    rewrite Hv.
    unfold Eff.bind, Eff.perform, Eff.ret, Common.touch.
    cbn [StoryBible.with_characters StoryBible.meta]. rewrite Hmeta.
    destruct v as [| ai];
      eexists; (split; [reflexivity |]); split; reflexivity.
  - unfold Eff.bind, Eff.perform, Eff.ret, Common.touch.
    cbn [StoryBible.with_characters StoryBible.meta]. rewrite Hmeta.
    eexists; (split; [reflexivity |]); split; reflexivity.
Qed.

(** X12. The ways create-character fails on a story bible that is there.
    Without a premise it stops before any mutation.  Without [meta] it
    fails only at the very end, when it stamps [meta.updatedAt]: the
    characters directory and the character file are already written, the
    story bible is not, so the file describes a character the story bible
    does not hold. *)
Theorem create_character_failure_modes
    (sb : StoryBible.t) (now : string)
    (service : Service.Outcome CreateCharacter.AiCharacter)
    (p : CreateCharacter.Params) :
  (StoryBible.premise sb = None ->
   CreateCharacter.createCharacterDirect (Fs.Stored sb) now service p
   = (Result.mk false
        (Text (Common.cross_mark_misencoded
                 ++ " No premise found in story bible. "
                 ++ "Complete premise setup first."))
        None (Some "Premise not found"),
      []))
  /\ (StoryBible.premise sb <> None ->
      StoryBible.meta sb = None ->
      forall v, Service.await_parsed service = Eff.ret v ->
      exists profile,
        CreateCharacter.createCharacterDirect (Fs.Stored sb) now service p
        = (Common.failed "create character"
             (TypeError
                "Cannot set properties of undefined (setting 'updatedAt')"),
           [Fs.Mkdir Fs.CharactersDir;
            Fs.WriteFile
              (Fs.CharacterFile
                 (CreateCharacter.slug (CreateCharacter.name p) ++ ".md"))
              (Fs.CharacterMarkdown profile)])
        /\ Character.title profile = CreateCharacter.name p
        /\ Character.id profile
           = Common.nextId Character.id
               (JS.arr_or (StoryBible.characters sb))).
Proof.
  split.
  - apply create_without_premise.
  - intros Hpremise Hmeta v Hv.
    apply create_without_meta; [assumption | assumption |].
    right. now exists v.
Qed.

Lemma create_character_without_meta_sample :
  StoryBible.premise MoreSamples.without_meta <> None
  /\ StoryBible.meta MoreSamples.without_meta = None
  /\ CreateCharacter.createCharacterDirect (Fs.Stored MoreSamples.without_meta)
       Samples.now (Service.ReturnsText "Sorry, I cannot help." None)
       Samples.character_params
     = (Common.failed "create character"
          (TypeError
             "Cannot set properties of undefined (setting 'updatedAt')"),
        [Fs.Mkdir Fs.CharactersDir;
         Fs.WriteFile (Fs.CharacterFile "mira.md")
           (Fs.CharacterMarkdown
              (CreateCharacter.baseline 8 Samples.now
                 Samples.character_params))]).
Proof.
  split; [discriminate |]. split; [reflexivity |].
  destruct (proj2 (create_character_failure_modes MoreSamples.without_meta
                     Samples.now
                     (Service.ReturnsText "Sorry, I cannot help." None)
                     Samples.character_params)
              ltac:(discriminate) eq_refl Service.Falsy eq_refl)
    as (profile & _ & _ & _).
  reflexivity.
Defined.

(* ---------------------------------------------------------------------- *)

Lemma slug_char_shape (c : ascii) :
  Further.file_name_char (CreateCharacter.slug_char (JS.lower_ascii c)) = true
  /\ CreateCharacter.slug_char
       (JS.lower_ascii (CreateCharacter.slug_char (JS.lower_ascii c)))
     = CreateCharacter.slug_char (JS.lower_ascii c).
Proof.
  destruct c as [[] [] [] [] [] [] [] []]; split; reflexivity.
Qed.

(** X13. The file name create-character derives from a character's name
    has as many characters as the name and is made of lower-case letters,
    digits and hyphens only, so it holds no path separator and no dot;
    deriving a file name from a file name changes nothing. *)
Theorem character_file_name_is_flat (name : string) :
  String.length (CreateCharacter.slug name) = String.length name
  /\ forallb Further.file_name_char
       (list_ascii_of_string (CreateCharacter.slug name)) = true
  /\ CreateCharacter.slug (CreateCharacter.slug name)
     = CreateCharacter.slug name.
Proof.
  induction name as [| c t (IHlen & IHall & IHidem)]; [repeat split |].
  cbn [CreateCharacter.slug String.length list_ascii_of_string forallb].
  destruct (slug_char_shape c) as [Hshape Hidem].
  rewrite IHlen, IHall, Hshape, Hidem, IHidem. repeat split.
Qed.

(* ---------------------------------------------------------------------- *)

Lemma unlisted_in_scene_type (c : Character.t) (chapters : list Chapter.t)
    (scenes : list Scene.t) (i : Issue.t) :
  In i (flat_map (Checker.unlisted_in_scene c chapters) scenes) ->
  Issue.type i = "character-unlisted".
Proof.
  intros Hi. apply in_flat_map in Hi. destruct Hi as (s & _ & Hi).
  unfold Checker.unlisted_in_scene in Hi.
  destruct (find _ chapters); [| contradiction].
  destruct (negb _); [| contradiction].
  destruct Hi as [<- | []]. reflexivity.
Qed.

Lemma str_or_nonempty (x : option string) (d : string) :
  d <> "" -> JS.str_or x d <> "".
Proof.
  intros Hd. unfold JS.str_or. destruct x as [s |]; [| exact Hd].
  destruct (String.eqb_spec s ""); assumption.
Qed.

(** X14. The character check on a character as create-character made it.
    The character has no arc at all (no enrichment, or an answer that was
    unusable), or an arc whose summary is not empty: the answer's, or the
    placeholder [To be developed] when the answer had none.  The check
    reports it as [character-arc-undefined] exactly when its summary is
    that placeholder and more than one in-scope chapter lists it; a
    character created without enrichment is never reported. *)
Theorem created_character_and_the_arc_rule
    (file : Fs.BibleFile) (now : string)
    (service : Service.Outcome CreateCharacter.AiCharacter)
    (p : CreateCharacter.Params) (d : CreateCharacter.Data) :
  Result.data (fst (CreateCharacter.createCharacterDirect file now service p))
  = Some d ->
  (Character.arc (CreateCharacter.character d) = None
   \/ exists s, Character.arc (CreateCharacter.character d)
                = Some (Arc.mk (Some s)) /\ s <> "")
  /\ forall (chapters : list Chapter.t) (scenes : list Scene.t),
       In (Checker.arc_undefined_issue (CreateCharacter.character d))
         (Checker.check_character chapters scenes
            (CreateCharacter.character d))
       <-> SpecWording.appears_in_several (CreateCharacter.character d)
             chapters = true
           /\ Character.arc (CreateCharacter.character d)
              = Some (Arc.mk (Some "To be developed")).
Proof.
  intros Hd.
  destruct (create_success_inv file now service p d Hd)
    as (sb & m & profile & -> & Hmeta & Hrun & Hprofile).
  rewrite Hrun in Hd. unfold ProofAux.character_created in Hd.
  cbn [fst Result.data] in Hd. injection Hd as <-.
  cbn [CreateCharacter.character].
  assert (Hcheck : forall chapters scenes,
            In (Checker.arc_undefined_issue profile)
              (Checker.check_character chapters scenes profile)
            <-> In (Checker.arc_undefined_issue profile)
                  (Checker.arc_check profile
                     (filter (fun c => JS.opt_includes (Chapter.characters c)
                                         (Character.id profile)) chapters))).
  { intros chapters scenes. unfold Checker.check_character. split.
    - intros Hi. apply in_app_or in Hi. destruct Hi as [Hi | Hi]; [| exact Hi].
      apply unlisted_in_scene_type in Hi. discriminate Hi.
    - intros Hi. apply in_or_app. now right. }
  destruct Hprofile as [-> | (ai & ->)].
  - split; [now left |]. intros chapters scenes. rewrite Hcheck.
    unfold Checker.arc_check. cbn [CreateCharacter.baseline Character.arc].
    split; [contradiction | intros [_ H]; discriminate H].
  - set (summary := JS.str_or (CreateCharacter.ai_arc ai) "To be developed").
    assert (Hne : summary <> "") by (apply str_or_nonempty; discriminate).
    split.
    { right. exists summary. split; [reflexivity | exact Hne]. }
    intros chapters scenes. rewrite Hcheck.
    unfold Checker.arc_check.
    cbn [CreateCharacter.enrich Character.arc Character.id].
    fold summary. rewrite appears_in_several_spec.
    cbn [CreateCharacter.enrich Character.id].
    destruct (1 <? _);
      [| split; [contradiction | intros [H _]; discriminate H]].
    unfold Checker.arc_summary_undefined. cbn [Arc.summary JS.truthy_str].
    destruct (String.eqb_spec summary "") as [E | _]; [contradiction |].
    cbn [negb orb].
    destruct (String.eqb_spec summary "To be developed") as [-> | Hother].
    + split; [intros _; now split | intros _; now left].
    + split; [contradiction |].
      intros [_ H]. injection H as H. contradiction.
Qed.

Lemma created_character_arc_sample :
  Result.data
    (fst (CreateCharacter.createCharacterDirect
            (Fs.Stored Samples.empty_bible) Samples.now
            (Service.ReturnsValue
               (Service.Truthy
                  (CreateCharacter.mkAi (Some "A thief") None None None None
                     None)))
            Samples.character_params))
  <> None
  /\ In (Checker.arc_undefined_issue
           (CreateCharacter.enrich
              (CreateCharacter.baseline 1 Samples.now Samples.character_params)
              (CreateCharacter.mkAi (Some "A thief") None None None None None)))
       (Checker.check_character
          [Samples.chapter 1 (Some 1) "draft" [1];
           Samples.chapter 2 (Some 2) "draft" [1]]
          []
          (CreateCharacter.enrich
             (CreateCharacter.baseline 1 Samples.now Samples.character_params)
             (CreateCharacter.mkAi (Some "A thief") None None None None
                None))).
Proof.
  split; [discriminate |].
  apply (proj2 (created_character_and_the_arc_rule
                  (Fs.Stored Samples.empty_bible) Samples.now
                  (Service.ReturnsValue
                     (Service.Truthy
                        (CreateCharacter.mkAi (Some "A thief") None None None
                           None None)))
                  Samples.character_params _ eq_refl)).
  split; reflexivity.
Defined.

(* ====================================================================== *)
(** ** generate-chapter: what a run writes *)
(* ====================================================================== *)

(** A run of generate-chapter that returns data reached its end: the story
    bible was there with its metadata, the chapter was found or created,
    the service answered, and the three mutating calls were made. *)
Lemma generate_success_inv (file : Fs.BibleFile) (now : string)
    (service : Service.Outcome GenerateChapter.AiChapter)
    (p : GenerateChapter.Params) (d : GenerateChapter.Data) :
  Result.data (fst (GenerateChapter.generateChapterDirect file now service p))
  = Some d ->
  exists sb m w0 v number,
    file = Fs.Stored sb
    /\ StoryBible.meta sb = Some m
    /\ Service.await_parsed service = Eff.ret v
    /\ ((JS.truthy_num (GenerateChapter.chapterId p) = true
         /\ find (fun c => Chapter.id c
                           =? JS.num_or (GenerateChapter.chapterId p) 0)
              (JS.arr_or (StoryBible.chapters sb)) = Some w0
         /\ GenerateChapter.isNewChapter d = false)
        \/ (JS.truthy_num (GenerateChapter.chapterId p) = false
            /\ w0 = GenerateChapter.newChapter
                      (JS.arr_or (StoryBible.chapters sb)) now p
            /\ GenerateChapter.isNewChapter d = true))
    /\ GenerateChapter.chapter d
       = Further.withScenes (Further.answered w0 v)
           (Further.generatedScenes sb (Further.answered w0 v) now p)
    /\ Chapter.chapterNumber (GenerateChapter.chapter d) = Some number
    /\ snd (GenerateChapter.generateChapterDirect file now service p)
       = [Fs.Mkdir Fs.ChaptersDir;
          Fs.WriteFile (GenerateChapter.filePath d)
            (Fs.ChapterMarkdown (GenerateChapter.chapter d)
               (map Character.title
                  (filter (fun c => JS.opt_includes (Chapter.characters w0)
                                      (Character.id c))
                     (JS.arr_or (StoryBible.characters sb)))));
          Fs.WriteFile Fs.StoryBibleJson
            (Fs.BibleJson
               (Further.generatedBible sb m now p
                  (Further.generatedScenes sb (Further.answered w0 v) now p)
                  (GenerateChapter.chapter d)
                  (GenerateChapter.isNewChapter d)))].
Proof.
  intros Hd.
  destruct file as [| msg | sb]; try discriminate.
  destruct (GenerateChapter.generateChapterDirect (Fs.Stored sb) now service p)
    as [res tr] eqn:Hrun.
  cbn [fst snd] in *.
  unfold GenerateChapter.generateChapterDirect, Eff.try_boundary,
    GenerateChapter.body in Hrun.
  cbn [Common.load] in Hrun. unfold Eff.bind at 1 in Hrun.
  cbn [Eff.ret] in Hrun. cbv zeta in Hrun.
  set (existing := JS.arr_or (StoryBible.chapters sb)) in *.
  assert (Hselected :
    exists w0 isNew,
      (if JS.truthy_num (GenerateChapter.chapterId p)
       then match find (fun c => Chapter.id c
                                 =? JS.num_or (GenerateChapter.chapterId p) 0)
                    existing with
            | Some c => Some (c, false)
            | None => None
            end
       else Some (GenerateChapter.newChapter existing now p, true))
      = Some (w0, isNew)
      /\ ((JS.truthy_num (GenerateChapter.chapterId p) = true
           /\ find (fun c => Chapter.id c
                             =? JS.num_or (GenerateChapter.chapterId p) 0)
                existing = Some w0
           /\ isNew = false)
          \/ (JS.truthy_num (GenerateChapter.chapterId p) = false
              /\ w0 = GenerateChapter.newChapter existing now p
              /\ isNew = true))).
  { destruct (JS.truthy_num (GenerateChapter.chapterId p)).
    - destruct (find _ existing) as [w0 |].
      + exists w0, false. split; [reflexivity | left; auto].
      + injection Hrun as <- <-. discriminate Hd.
    - eexists _, true. split; [reflexivity | right; auto]. }
  destruct Hselected as (w0 & isNew & Hsel & Hcases).
  rewrite Hsel in Hrun. clear Hsel.
  assert (Hv : exists v, Service.await_parsed service = Eff.ret v).
  { destruct service as [message | text [v |] | v];
      [| eexists; reflexivity ..].
    cbn in Hrun. injection Hrun as <- <-. discriminate Hd. }
  destruct Hv as (v & Hv). rewrite Hv in Hrun.
  unfold Eff.bind at 1 2 in Hrun. unfold Eff.perform at 1 in Hrun.
  unfold Eff.ret at 1 in Hrun. cbn [app] in Hrun.
  fold (Further.answered w0 v) in Hrun.
  set (w1 := Further.answered w0 v) in *.
  unfold GenerateChapter.addScenes in Hrun.
  replace (match StoryBible.scenes sb with
           | Some l => Z.of_nat (List.length l)
           | None => 0
           end)
    with (Z.of_nat (List.length (JS.arr_or (StoryBible.scenes sb))))
    in Hrun by (now destruct (StoryBible.scenes sb)).
  assert (Hend :
    exists m number,
      StoryBible.meta sb = Some m
      /\ GenerateChapter.isNewChapter d = isNew
      /\ GenerateChapter.chapter d
         = Further.withScenes w1 (Further.generatedScenes sb w1 now p)
      /\ Chapter.chapterNumber (GenerateChapter.chapter d) = Some number
      /\ tr
         = [Fs.Mkdir Fs.ChaptersDir;
            Fs.WriteFile (GenerateChapter.filePath d)
              (Fs.ChapterMarkdown (GenerateChapter.chapter d)
                 (map Character.title
                    (filter (fun c => JS.opt_includes
                                        (Chapter.characters w0)
                                        (Character.id c))
                       (JS.arr_or (StoryBible.characters sb)))));
            Fs.WriteFile Fs.StoryBibleJson
              (Fs.BibleJson
                 (Further.generatedBible sb m now p
                    (Further.generatedScenes sb w1 now p)
                    (GenerateChapter.chapter d)
                    (GenerateChapter.isNewChapter d)))]).
  { unfold Further.generatedBible, Further.generatedScenes,
      Further.withScenes. fold existing.
    destruct (GenerateChapter.generateScenes p).
    - destruct (map _ (GenerateChapter.sceneIndices _)) as [| s scenes].
      + unfold Eff.bind, Eff.ret, Eff.perform, Eff.throw, Common.touch
          in Hrun.
        cbn [fst snd] in Hrun.
        destruct (Chapter.chapterNumber w1) as [number |] eqn:Hnum;
          [| injection Hrun as <- <-; discriminate Hd].
        destruct isNew;
          cbn [StoryBible.meta StoryBible.with_chapters
               StoryBible.with_scenes] in Hrun;
          (destruct (StoryBible.meta sb) as [m |] eqn:Hmeta;
           [| injection Hrun as <- <-; discriminate Hd]);
          injection Hrun as <- <-; cbn [Result.data] in Hd;
          injection Hd as <-;
          exists m, number; repeat split; assumption.
      + destruct (Chapter.scenes w1) as [ids |] eqn:Hids;
          unfold Eff.bind, Eff.ret, Eff.perform, Eff.throw, Common.touch
            in Hrun;
          cbn [fst snd] in Hrun;
          [| injection Hrun as <- <-; discriminate Hd].
        cbn [Chapter.chapterNumber Chapter.with_scenes] in Hrun.
        destruct (Chapter.chapterNumber w1) as [number |] eqn:Hnum;
          [| injection Hrun as <- <-; discriminate Hd].
        destruct isNew;
          cbn [StoryBible.meta StoryBible.with_chapters
               StoryBible.with_scenes] in Hrun;
          (destruct (StoryBible.meta sb) as [m |] eqn:Hmeta;
           [| injection Hrun as <- <-; discriminate Hd]);
          injection Hrun as <- <-; cbn [Result.data] in Hd;
          injection Hd as <-;
          exists m, number; cbn [JS.arr_or]; repeat split; assumption.
    - unfold Eff.bind, Eff.ret, Eff.perform, Eff.throw, Common.touch in Hrun.
      cbn [fst snd] in Hrun.
      destruct (Chapter.chapterNumber w1) as [number |] eqn:Hnum;
        [| injection Hrun as <- <-; discriminate Hd].
      destruct isNew;
        cbn [StoryBible.meta StoryBible.with_chapters] in Hrun;
        (destruct (StoryBible.meta sb) as [m |] eqn:Hmeta;
         [| injection Hrun as <- <-; discriminate Hd]);
        injection Hrun as <- <-; cbn [Result.data] in Hd;
        injection Hd as <-;
        exists m, number; repeat split; assumption. }
  destruct Hend as (m & number & Hmeta & HisNew & Hchapter & Hnum & Htr).
  exists sb, m, w0, v, number.
  split; [reflexivity |]. split; [exact Hmeta |]. split; [exact Hv |].
  split.
  { rewrite HisNew. exact Hcases. }
  auto.
Qed.

(** X15. generate-chapter on a [chapterId] that no chapter of the story
    bible carries fails before any mutation, whatever the service would
    have answered: the result is [success: false] with the error
    [Chapter not found], and nothing is created or written. *)
Theorem generate_chapter_unknown_id_fails_without_mutation
    (sb : StoryBible.t) (now : string)
    (service : Service.Outcome GenerateChapter.AiChapter)
    (p : GenerateChapter.Params) :
  JS.truthy_num (GenerateChapter.chapterId p) = true ->
  (forall c, In c (JS.arr_or (StoryBible.chapters sb)) ->
             Chapter.id c <> JS.num_or (GenerateChapter.chapterId p) 0) ->
  GenerateChapter.generateChapterDirect (Fs.Stored sb) now service p
  = (Result.mk false
       (Text (Common.cross_mark ++ " Chapter with ID "
                ++ JS.Number_toString
                     (JS.num_or (GenerateChapter.chapterId p) 0)
                ++ " not found."))
       None (Some "Chapter not found"),
     []).
Proof.
  intros Htruthy Hnone.
  unfold GenerateChapter.generateChapterDirect, Eff.try_boundary,
    GenerateChapter.body.
  cbn [Common.load]. unfold Eff.bind at 1. cbn [Eff.ret]. cbv zeta.
  rewrite Htruthy.
  destruct (find _ (JS.arr_or (StoryBible.chapters sb))) as [c |] eqn:Hfind;
    [| reflexivity].
  apply find_some in Hfind. destruct Hfind as [Hin Hid].
  apply Z.eqb_eq in Hid. now apply Hnone in Hin.
Qed.

Lemma generate_chapter_unknown_id_sample :
  JS.truthy_num (GenerateChapter.chapterId MoreSamples.missing_chapter_params)
  = true
  /\ snd (GenerateChapter.generateChapterDirect
            (Fs.Stored Samples.unlisted_bible) Samples.now
            (Service.ReturnsText "{}" None)
            MoreSamples.missing_chapter_params)
     = [].
Proof.
  split; [reflexivity |].
  rewrite (generate_chapter_unknown_id_fails_without_mutation
             Samples.unlisted_bible Samples.now
             (Service.ReturnsText "{}" None)
             MoreSamples.missing_chapter_params eq_refl).
  - reflexivity.
  - cbn. intros c [<- | []]. discriminate.
Defined.

(* ---------------------------------------------------------------------- *)

Lemma answered_keeps (c : Chapter.t)
    (v : Service.Value GenerateChapter.AiChapter) :
  Chapter.id (Further.answered c v) = Chapter.id c
  /\ Chapter.chapterNumber (Further.answered c v) = Chapter.chapterNumber c
  /\ Chapter.characters (Further.answered c v) = Chapter.characters c
  /\ Chapter.scenes (Further.answered c v) = Chapter.scenes c
  /\ Chapter.status (Further.answered c v) = Chapter.status c.
Proof. destruct v; repeat split. Qed.

Lemma withScenes_keeps (c : Chapter.t) (scenes : list Scene.t) :
  Chapter.id (Further.withScenes c scenes) = Chapter.id c
  /\ Chapter.chapterNumber (Further.withScenes c scenes)
     = Chapter.chapterNumber c
  /\ Chapter.characters (Further.withScenes c scenes) = Chapter.characters c
  /\ Chapter.status (Further.withScenes c scenes) = Chapter.status c.
Proof. destruct scenes; repeat split. Qed.

Lemma sceneIndices_run (n : Z) :
  GenerateChapter.sceneIndices n = Further.run 1 (Z.to_nat n).
Proof.
  unfold GenerateChapter.sceneIndices, Further.run. apply map_ext.
  intros k. lia.
Qed.

Lemma generatedScenes_shape (sb : StoryBible.t) (c : Chapter.t)
    (now : string) (p : GenerateChapter.Params) :
  let scenes := Further.generatedScenes sb c now p in
  List.length scenes
  = (if GenerateChapter.generateScenes p
     then Z.to_nat (GenerateChapter.sceneCount p) else 0%nat)
  /\ map Scene.id scenes
     = Further.run
         (Z.of_nat (List.length (JS.arr_or (StoryBible.scenes sb))) + 1)
         (List.length scenes)
  /\ Forall (fun s => Scene.chapterId s = Chapter.id c
                      /\ Scene.characters s
                         = Some (JS.arr_or (Chapter.characters c))
                      /\ Scene.type s = "scene"
                      /\ Scene.status s = "draft") scenes.
Proof.
  cbn zeta. unfold Further.generatedScenes.
  destruct (GenerateChapter.generateScenes p); [| repeat split; constructor].
  rewrite sceneIndices_run, length_map, run_length.
  split; [reflexivity |]. split.
  - rewrite map_map. unfold Further.run. rewrite !map_map.
    apply map_ext. intros k. cbn [GenerateChapter.placeholderScene Scene.id].
    lia.
  - apply Forall_forall. intros s Hs. apply in_map_iff in Hs.
    destruct Hs as (i & <- & _). repeat split.
Qed.

Lemma update_first_replace (w : Chapter.t) (l : list Chapter.t)
    (c0 : Chapter.t) :
  find (fun c => Chapter.id c =? Chapter.id w) l = Some c0 ->
  find (fun c => Chapter.id c =? Chapter.id w)
    (Checker.update_first (Chapter.id w) (fun _ => w) l) = Some w
  /\ map Chapter.id (Checker.update_first (Chapter.id w) (fun _ => w) l)
     = map Chapter.id l
  /\ (forall c, In c l -> Chapter.id c <> Chapter.id w ->
                 In c (Checker.update_first (Chapter.id w) (fun _ => w) l))
  /\ In w (Checker.update_first (Chapter.id w) (fun _ => w) l).
Proof.
  induction l as [| x l IH]; cbn [find Checker.update_first map];
    [discriminate |].
  destruct (Chapter.id x =? Chapter.id w) eqn:E.
  - intros _. cbn [find map]. rewrite Z.eqb_refl.
    apply Z.eqb_eq in E. repeat split; [now rewrite E | | now left].
    intros c [<- | Hc] Hne; [contradiction | now right].
  - intros Hfind. destruct (IH Hfind) as (H1 & H2 & H3 & H4).
    cbn [find map]. rewrite E, H2. repeat split; [exact H1 | | now right].
    intros c [<- | Hc] Hne; [now left | right; auto].
Qed.

(** X16. What a successful generate-chapter run changes in the story bible.
    It appends the generated scenes to the scenes and touches nothing else
    but the chapters and [meta.updatedAt].  The generated scenes are as
    many as [sceneCount] asks for (none when it is not positive or when
    [generateScenes] is off), numbered on from the number of scenes there
    were; each is a [draft] scene of the generated chapter with the
    chapter's characters.  A new chapter is appended with an id above every
    chapter id in use and status [draft]; an existing chapter is replaced
    in place, the other chapters and the order of the ids staying as they
    were. *)
Theorem generate_chapter_writes
    (file : Fs.BibleFile) (now : string)
    (service : Service.Outcome GenerateChapter.AiChapter)
    (p : GenerateChapter.Params) (d : GenerateChapter.Data) :
  Result.data (fst (GenerateChapter.generateChapterDirect file now service p))
  = Some d ->
  exists sb sb' chapterFile scenes,
    file = Fs.Stored sb
    /\ snd (GenerateChapter.generateChapterDirect file now service p)
       = [Fs.Mkdir Fs.ChaptersDir; chapterFile;
          Fs.WriteFile Fs.StoryBibleJson (Fs.BibleJson sb')]
    /\ StoryBible.with_meta
         (StoryBible.with_chapters (StoryBible.with_scenes sb' None) None)
         None
       = StoryBible.with_meta
           (StoryBible.with_chapters (StoryBible.with_scenes sb None) None)
           None
    /\ StoryBible.meta sb'
       = option_map (fun m => Meta.with_updatedAt m now) (StoryBible.meta sb)
    /\ JS.arr_or (StoryBible.scenes sb')
       = (JS.arr_or (StoryBible.scenes sb) ++ scenes)%list
    /\ List.length scenes
       = (if GenerateChapter.generateScenes p
          then Z.to_nat (GenerateChapter.sceneCount p) else 0%nat)
    /\ map Scene.id scenes
       = Further.run
           (Z.of_nat (List.length (JS.arr_or (StoryBible.scenes sb))) + 1)
           (List.length scenes)
    /\ Forall (fun s => Scene.chapterId s
                        = Chapter.id (GenerateChapter.chapter d)
                        /\ Scene.characters s
                           = Some (JS.arr_or
                                     (Chapter.characters
                                        (GenerateChapter.chapter d)))
                        /\ Scene.type s = "scene"
                        /\ Scene.status s = "draft") scenes
    /\ (if GenerateChapter.isNewChapter d
        then JS.arr_or (StoryBible.chapters sb')
             = (JS.arr_or (StoryBible.chapters sb)
                ++ [GenerateChapter.chapter d])%list
             /\ (forall c, In c (JS.arr_or (StoryBible.chapters sb)) ->
                           Chapter.id c
                           < Chapter.id (GenerateChapter.chapter d))
             /\ Chapter.status (GenerateChapter.chapter d) = "draft"
        else map Chapter.id (JS.arr_or (StoryBible.chapters sb'))
             = map Chapter.id (JS.arr_or (StoryBible.chapters sb))
             /\ In (GenerateChapter.chapter d)
                  (JS.arr_or (StoryBible.chapters sb'))
             /\ (forall c, In c (JS.arr_or (StoryBible.chapters sb)) ->
                           Chapter.id c
                           <> Chapter.id (GenerateChapter.chapter d) ->
                           In c (JS.arr_or (StoryBible.chapters sb')))).
Proof.
  intros Hd.
  destruct (generate_success_inv file now service p d Hd)
    as (sb & m & w0 & v & number & -> & Hmeta & Hv & Hcases & Hchapter
        & Hnum & Htrace).
  set (w1 := Further.answered w0 v) in *.
  set (scenes := Further.generatedScenes sb w1 now p) in *.
  destruct (answered_keeps w0 v) as (Hid1 & Hn1 & Hc1 & Hs1 & Hst1).
  destruct (withScenes_keeps w1 scenes) as (Hid2 & Hn2 & Hc2 & Hst2).
  fold w1 in Hid1, Hn1, Hc1, Hs1, Hst1.
  destruct (generatedScenes_shape sb w1 now p) as (Hlen & Hids & Hall).
  fold scenes in Hlen, Hids, Hall.
  exists sb. eexists. eexists. exists scenes.
  split; [reflexivity |]. split; [exact Htrace |].
  unfold Further.generatedBible.
  split.
  { destruct (GenerateChapter.generateScenes p); now destruct sb. }
  split.
  { cbn [StoryBible.meta StoryBible.with_meta]. now rewrite Hmeta. }
  split.
  { unfold scenes, Further.generatedScenes.
    destruct (GenerateChapter.generateScenes p); cbn; [reflexivity |].
    now rewrite app_nil_r. }
  split; [exact Hlen |]. split; [exact Hids |].
  split.
  { eapply Forall_impl; [| exact Hall]. cbn. intros s (H1 & H2 & H3 & H4).
    rewrite Hchapter, Hid2, Hc2. auto. }
  cbn [StoryBible.chapters StoryBible.with_meta StoryBible.with_chapters
       JS.arr_or].
  destruct Hcases as [(Htruthy & Hfind & ->) | (Htruthy & Hw0 & ->)].
  - assert (Hsame : Chapter.id (GenerateChapter.chapter d)
                    = JS.num_or (GenerateChapter.chapterId p) 0).
    { rewrite Hchapter, Hid2, Hid1. apply find_some in Hfind.
      now apply Z.eqb_eq. }
    rewrite <- Hsame in Hfind.
    destruct (update_first_replace _ _ _ Hfind) as (_ & H2 & H3 & H4).
    auto.
  - split; [reflexivity |].
    assert (Hnew : Chapter.id (GenerateChapter.chapter d)
                   = Common.nextId Chapter.id
                       (JS.arr_or (StoryBible.chapters sb))).
    { rewrite Hchapter, Hid2, Hid1, Hw0. reflexivity. }
    split.
    + intros c Hc. rewrite Hnew. now apply nextId_above.
    + rewrite Hchapter, Hst2, Hst1, Hw0. reflexivity.
Qed.

(* ---------------------------------------------------------------------- *)

Lemma find_app_fresh (l : list Chapter.t) (w : Chapter.t) :
  (forall c, In c l -> Chapter.id c < Chapter.id w) ->
  find (fun c => Chapter.id c =? Chapter.id w) (l ++ [w]) = Some w.
Proof.
  intros Hfresh. induction l as [| x l IH]; cbn [app find].
  - now rewrite Z.eqb_refl.
  - destruct (Z.eqb_spec (Chapter.id x) (Chapter.id w)) as [E | _].
    + specialize (Hfresh x (or_introl eq_refl)). lia.
    + apply IH. intros c Hc. apply Hfresh. now right.
Qed.

(** X17. generate-chapter and the character check agree: in the story
    bible a successful run writes, the chapter found for each generated
    scene is the generated chapter, and it lists every character of the
    scene; so the character check, run on the generated scenes against the
    written chapters, reports no [character-unlisted] issue, whatever the
    characters are. *)
Theorem generated_scenes_raise_no_unlisted_issue
    (file : Fs.BibleFile) (now : string)
    (service : Service.Outcome GenerateChapter.AiChapter)
    (p : GenerateChapter.Params) (d : GenerateChapter.Data)
    (characters : list Character.t) :
  Result.data (fst (GenerateChapter.generateChapterDirect file now service p))
  = Some d ->
  exists sb sb' chapterFile,
    file = Fs.Stored sb
    /\ snd (GenerateChapter.generateChapterDirect file now service p)
       = [Fs.Mkdir Fs.ChaptersDir; chapterFile;
          Fs.WriteFile Fs.StoryBibleJson (Fs.BibleJson sb')]
    /\ filter (Issue.has_type "character-unlisted")
         (Checker.checkCharacterConsistency characters
            (JS.arr_or (StoryBible.chapters sb'))
            (skipn (List.length (JS.arr_or (StoryBible.scenes sb)))
               (JS.arr_or (StoryBible.scenes sb'))))
       = [].
Proof.
  intros Hd.
  destruct (generate_success_inv file now service p d Hd)
    as (sb & m & w0 & v & number & -> & Hmeta & Hv & Hcases & Hchapter
        & Hnum & Htrace).
  set (w1 := Further.answered w0 v) in *.
  set (scenes := Further.generatedScenes sb w1 now p) in *.
  destruct (answered_keeps w0 v) as (Hid1 & _ & _ & _ & _).
  destruct (withScenes_keeps w1 scenes) as (Hid2 & _ & Hc2 & _).
  fold w1 in Hid1.
  destruct (generatedScenes_shape sb w1 now p) as (_ & _ & Hall).
  fold scenes in Hall.
  pose proof Hchapter as Hw.
  exists sb. eexists. eexists.
  split; [reflexivity |]. split; [exact Htrace |].
  set (sb' := Further.generatedBible sb m now p scenes
                (GenerateChapter.chapter d)
                (GenerateChapter.isNewChapter d)).
  assert (Hscenes : skipn (List.length (JS.arr_or (StoryBible.scenes sb)))
                      (JS.arr_or (StoryBible.scenes sb')) = scenes).
  { unfold sb', Further.generatedBible.
    cbn [StoryBible.scenes StoryBible.with_meta StoryBible.with_chapters].
    assert (Hoff : GenerateChapter.generateScenes p = false -> scenes = []).
    { intros Hgen. unfold scenes, Further.generatedScenes.
      now rewrite Hgen. }
    destruct (GenerateChapter.generateScenes p).
    - cbn [StoryBible.scenes StoryBible.with_scenes JS.arr_or].
      rewrite skipn_app, skipn_all, Nat.sub_diag. reflexivity.
    - rewrite (Hoff eq_refl). apply skipn_all. }
  rewrite Hscenes.
  assert (Hfind :
    find (fun c => Chapter.id c =? Chapter.id (GenerateChapter.chapter d))
      (JS.arr_or (StoryBible.chapters sb'))
    = Some (GenerateChapter.chapter d)).
  { unfold sb', Further.generatedBible.
    cbn [StoryBible.chapters StoryBible.with_meta StoryBible.with_chapters
         JS.arr_or].
    destruct Hcases as [(Htruthy & Hfind & ->) | (Htruthy & Hw0 & ->)].
    - assert (Hsame : Chapter.id (GenerateChapter.chapter d)
                      = JS.num_or (GenerateChapter.chapterId p) 0).
      { rewrite Hw, Hid2, Hid1. apply find_some in Hfind.
        now apply Z.eqb_eq. }
      rewrite <- Hsame in Hfind.
      now destruct (update_first_replace _ _ _ Hfind) as (H1 & _).
    - apply find_app_fresh. intros c Hc.
      replace (Chapter.id (GenerateChapter.chapter d))
        with (Common.nextId Chapter.id (JS.arr_or (StoryBible.chapters sb)))
        by (rewrite Hw, Hid2, Hid1, Hw0; reflexivity).
      now apply nextId_above. }
  destruct (filter (Issue.has_type "character-unlisted") _)
    as [| x rest] eqn:Hfilter; [reflexivity |].
  exfalso.
  assert (Hx : In x (filter (Issue.has_type "character-unlisted")
                       (Checker.checkCharacterConsistency characters
                          (JS.arr_or (StoryBible.chapters sb')) scenes)))
    by (rewrite Hfilter; now left).
  clear Hfilter. apply filter_In in Hx. destruct Hx as [Hx Hty].
  unfold Checker.checkCharacterConsistency in Hx.
  apply in_flat_map in Hx. destruct Hx as (c & _ & Hx).
  unfold Checker.check_character in Hx.
  apply in_app_or in Hx. destruct Hx as [Hx | Hx].
  - apply in_flat_map in Hx. destruct Hx as (s & Hs & Hx).
    apply filter_In in Hs. destruct Hs as [Hs Hlisted].
    rewrite Forall_forall in Hall.
    destruct (Hall s Hs) as (Hparent & Hchars & _).
    unfold Checker.unlisted_in_scene in Hx.
    rewrite Hparent in Hx.
    replace (Chapter.id w1) with (Chapter.id (GenerateChapter.chapter d)) in Hx
      by (now rewrite Hw, Hid2).
    rewrite Hfind in Hx.
    rewrite Hchars in Hlisted. cbn [JS.opt_includes] in Hlisted.
    assert (Hin : JS.opt_includes
                    (Chapter.characters (GenerateChapter.chapter d))
                    (Character.id c)
                  = true).
    { rewrite Hw, Hc2.
      destruct (Chapter.characters w1) as [l |]; [exact Hlisted |].
      discriminate Hlisted. }
    rewrite Hin in Hx. contradiction.
  - unfold Checker.arc_check in Hx.
    destruct (Character.arc c); [| contradiction].
    destruct (1 <? _); [| contradiction].
    destruct (Checker.arc_summary_undefined _); [| contradiction].
    destruct Hx as [<- | []]. discriminate Hty.
Qed.

Lemma generated_scenes_sample :
  Result.data
    (fst (GenerateChapter.generateChapterDirect
            (Fs.Stored Samples.unlisted_bible) Samples.now
            (Service.ReturnsText "Sorry, I cannot help." None)
            MoreSamples.chapter_params))
  <> None
  /\ exists sb sb' chapterFile,
       Fs.Stored Samples.unlisted_bible = Fs.Stored sb
       /\ snd (GenerateChapter.generateChapterDirect
                 (Fs.Stored Samples.unlisted_bible) Samples.now
                 (Service.ReturnsText "Sorry, I cannot help." None)
                 MoreSamples.chapter_params)
          = [Fs.Mkdir Fs.ChaptersDir; chapterFile;
             Fs.WriteFile Fs.StoryBibleJson (Fs.BibleJson sb')]
       /\ filter (Issue.has_type "character-unlisted")
            (Checker.checkCharacterConsistency [Samples.K]
               (JS.arr_or (StoryBible.chapters sb'))
               (skipn (List.length (JS.arr_or (StoryBible.scenes sb)))
                  (JS.arr_or (StoryBible.scenes sb'))))
          = [].
Proof.
  split; [discriminate |].
  exact (generated_scenes_raise_no_unlisted_issue
           (Fs.Stored Samples.unlisted_bible) Samples.now
           (Service.ReturnsText "Sorry, I cannot help." None)
           MoreSamples.chapter_params _ [Samples.K] eq_refl).
Defined.

Lemma generate_chapter_sample :
  Result.data
    (fst (GenerateChapter.generateChapterDirect
            (Fs.Stored Samples.unlisted_bible) Samples.now
            (Service.ReturnsText "Sorry, I cannot help." None)
            MoreSamples.chapter_params))
  <> None
  /\ exists sb sb' chapterFile scenes,
       Fs.Stored Samples.unlisted_bible = Fs.Stored sb
       /\ snd (GenerateChapter.generateChapterDirect
                 (Fs.Stored Samples.unlisted_bible) Samples.now
                 (Service.ReturnsText "Sorry, I cannot help." None)
                 MoreSamples.chapter_params)
          = [Fs.Mkdir Fs.ChaptersDir; chapterFile;
             Fs.WriteFile Fs.StoryBibleJson (Fs.BibleJson sb')]
       /\ JS.arr_or (StoryBible.scenes sb')
          = (JS.arr_or (StoryBible.scenes sb) ++ scenes)%list
       /\ List.length scenes = 3%nat.
Proof.
  split; [discriminate |].
  destruct (generate_chapter_writes
              (Fs.Stored Samples.unlisted_bible) Samples.now
              (Service.ReturnsText "Sorry, I cannot help." None)
              MoreSamples.chapter_params _ eq_refl)
    as (sb & sb' & chapterFile & scenes & H1 & H2 & _ & _ & H5 & H6 & _).
  exists sb, sb', chapterFile, scenes. auto.
Defined.

(* ---------------------------------------------------------------------- *)

Lemma fold_max_in (t : list Z) :
  forall a, In (fold_left Z.max t a) (a :: t).
Proof.
  induction t as [| x t IH]; intros a; cbn [fold_left]; [now left |].
  specialize (IH (Z.max a x)).
  destruct (Z.max_spec a x) as [[_ E] | [_ E]]; rewrite E in IH |- *.
  - now right.
  - destruct IH as [H | H]; [now left | right; now right].
Qed.

(** The next identifier is the greatest in use plus one. *)
Lemma nextId_max {A : Type} (f : A -> Z) (l : list A) (M : Z) :
  (forall x, In x l -> f x <= M) ->
  (exists x, In x l /\ f x = M) ->
  Common.nextId f l = M + 1.
Proof.
  intros Hle (x & Hx & HM).
  pose proof (nextId_above f l x Hx) as Habove.
  unfold Common.nextId, JS.Math_max in *.
  destruct (map f l) as [| a t] eqn:Hmap.
  { destruct l; [contradiction | discriminate]. }
  pose proof (fold_max_in t a) as Hin. rewrite <- Hmap in Hin.
  apply in_map_iff in Hin. destruct Hin as (y & Hy & Hyin).
  specialize (Hle y Hyin). lia.
Qed.

Lemma numbered_in (chapters : list Chapter.t) (k : Z) :
  In k (Checker.numbered chapters)
  <-> exists c, In c chapters /\ Chapter.chapterNumber c = Some k /\ k <> 0.
Proof.
  unfold Checker.numbered, JS.truthy_numbers.
  rewrite in_flat_map. split.
  - intros (x & Hx & Hk). apply in_map_iff in Hx.
    destruct Hx as (c & <- & Hc).
    destruct (Chapter.chapterNumber c) as [n |] eqn:Hn; [| contradiction].
    destruct (Z.eqb_spec n 0); [contradiction |].
    destruct Hk as [<- | []]. now exists c.
  - intros (c & Hc & Hn & Hk). exists (Some k).
    split; [rewrite <- Hn; now apply in_map |].
    destruct (Z.eqb_spec k 0); [contradiction | now left].
Qed.

Lemma numbered_app (l1 l2 : list Chapter.t) :
  Checker.numbered (l1 ++ l2)
  = (Checker.numbered l1 ++ Checker.numbered l2)%list.
Proof.
  unfold Checker.numbered, JS.truthy_numbers.
  now rewrite map_app, flat_map_app.
Qed.

Lemma run_snoc (m : Z) (k : nat) :
  Further.run m (Datatypes.S k)
  = (Further.run m k ++ [m + Z.of_nat k])%list.
Proof. unfold Further.run. now rewrite seq_S, map_app. Qed.

(** Appending the number after the greatest keeps positive consecutive
    numbers consecutive. *)
Lemma consecutive_next (chapters : list Chapter.t) :
  Forall (fun n => 0 < n) (Checker.numbered chapters) ->
  Further.consecutive (Checker.numbered chapters) ->
  Further.consecutive
    (Checker.numbered chapters
     ++ [Common.nextId (fun c => JS.num_or (Chapter.chapterNumber c) 0)
           chapters])%list.
Proof.
  intros Hpos (m & Hrun). rewrite Forall_forall in Hpos.
  set (g := fun c => JS.num_or (Chapter.chapterNumber c) 0).
  assert (Hg : forall c, In c chapters ->
                 g c = 0 \/ In (g c) (Checker.numbered chapters)).
  { intros c Hc. unfold g, JS.num_or.
    destruct (Chapter.chapterNumber c) as [n |] eqn:Hn; [| now left].
    destruct (Z.eqb_spec n 0); [now left | right].
    apply numbered_in. now exists c. }
  unfold Further.consecutive. rewrite length_app. cbn [List.length].
  rewrite Nat.add_1_r.
  destruct (Checker.numbered chapters) as [| n0 nums] eqn:Hnums.
  - (* no numbered chapter: the next number is 1 *)
    assert (Hnext : Common.nextId g chapters = 1).
    { destruct chapters as [| c l]; [reflexivity |].
      apply (nextId_max g (c :: l) 0).
      - intros x Hx. destruct (Hg x Hx) as [-> | []]. lia.
      - exists c. split; [now left |].
        destruct (Hg c (or_introl eq_refl)) as [E | []]. exact E. }
    rewrite Hnext. exists 1. cbn. unfold Further.run. cbn. reflexivity.
  - set (k := List.length (n0 :: nums)) in *.
    assert (Hk : (0 < k)%nat) by (unfold k; cbn; lia).
    set (M := m + Z.of_nat k - 1).
    assert (HM : In M (n0 :: nums)).
    { eapply Permutation_in; [symmetry; exact Hrun |].
      unfold Further.run. apply in_map_iff. exists (k - 1)%nat.
      split; [unfold M; lia | apply in_seq; lia]. }
    assert (Hnext : Common.nextId g chapters = M + 1).
    { apply nextId_max.
      - intros x Hx. specialize (Hpos M HM).
        destruct (Hg x Hx) as [-> | Hin]; [lia |].
        apply (Permutation_in _ Hrun) in Hin. apply run_in in Hin.
        unfold M. lia.
      - rewrite <- Hnums in HM. apply numbered_in in HM.
        destruct HM as (c & Hc & Hn & Hne). exists c. split; [exact Hc |].
        unfold g, JS.num_or. rewrite Hn.
        now destruct (Z.eqb_spec M 0). }
    rewrite Hnext. exists m. rewrite run_snoc.
    replace (M + 1) with (m + Z.of_nat k) by (unfold M; lia).
    apply Permutation_app_tail. exact Hrun.
Qed.

Lemma next_number_positive (chapters : list Chapter.t) :
  Forall (fun n => 0 < n) (Checker.numbered chapters) ->
  0 < Common.nextId (fun c => JS.num_or (Chapter.chapterNumber c) 0) chapters.
Proof.
  intros Hpos. rewrite Forall_forall in Hpos.
  destruct chapters as [| c l]; [reflexivity |].
  pose proof (nextId_above
                (fun c => JS.num_or (Chapter.chapterNumber c) 0)
                (c :: l) c (or_introl eq_refl)) as Habove.
  cbn beta in Habove.
  assert (0 <= JS.num_or (Chapter.chapterNumber c) 0); [| lia].
  unfold JS.num_or.
  destruct (Chapter.chapterNumber c) as [n |] eqn:Hn; [| lia].
  destruct (Z.eqb_spec n 0); [lia |].
  assert (0 < n); [| lia].
  apply Hpos. apply numbered_in. exists c. split; [now left | auto].
Qed.

(** X18. The chapter number generate-chapter gives a new chapter when the
    caller names none is above the number of every chapter there is; and on
    a story bible whose chapter numbers are positive, if the timeline check
    was silent on the chapters before the run, it is silent on the chapters
    the run writes. *)
Theorem default_chapter_number_keeps_the_timeline_silent
    (file : Fs.BibleFile) (now : string)
    (service : Service.Outcome GenerateChapter.AiChapter)
    (p : GenerateChapter.Params) (d : GenerateChapter.Data) :
  Result.data (fst (GenerateChapter.generateChapterDirect file now service p))
  = Some d ->
  GenerateChapter.isNewChapter d = true ->
  JS.truthy_num (GenerateChapter.chapterNumber p) = false ->
  exists sb sb' chapterFile number,
    file = Fs.Stored sb
    /\ snd (GenerateChapter.generateChapterDirect file now service p)
       = [Fs.Mkdir Fs.ChaptersDir; chapterFile;
          Fs.WriteFile Fs.StoryBibleJson (Fs.BibleJson sb')]
    /\ Chapter.chapterNumber (GenerateChapter.chapter d) = Some number
    /\ (forall c, In c (JS.arr_or (StoryBible.chapters sb)) ->
                  JS.num_or (Chapter.chapterNumber c) 0 < number)
    /\ (Forall (fun n => 0 < n)
          (Checker.numbered (JS.arr_or (StoryBible.chapters sb))) ->
        Checker.checkTimelineConsistency (JS.arr_or (StoryBible.chapters sb))
          (JS.arr_or (StoryBible.scenes sb)) = [] ->
        Checker.checkTimelineConsistency (JS.arr_or (StoryBible.chapters sb'))
          (JS.arr_or (StoryBible.scenes sb')) = []).
Proof.
  intros Hd HisNew Hdefault.
  destruct (generate_success_inv file now service p d Hd)
    as (sb & m & w0 & v & number & -> & Hmeta & Hv & Hcases & Hchapter
        & Hnum & Htrace).
  destruct Hcases as [(_ & _ & Hold) | (_ & Hw0 & _)]; [congruence |].
  destruct (answered_keeps w0 v) as (_ & Hn1 & _).
  destruct (withScenes_keeps (Further.answered w0 v)
              (Further.generatedScenes sb (Further.answered w0 v) now p))
    as (_ & Hn2 & _).
  set (existing := JS.arr_or (StoryBible.chapters sb)) in *.
  set (g := fun c => JS.num_or (Chapter.chapterNumber c) 0).
  assert (Hnumber : number = Common.nextId g existing).
  { rewrite Hchapter, Hn2, Hn1, Hw0 in Hnum.
    cbn [GenerateChapter.newChapter Chapter.chapterNumber] in Hnum.
    injection Hnum as <-. unfold JS.num_or, JS.truthy_num in *.
    destruct (GenerateChapter.chapterNumber p) as [n |]; [| reflexivity].
    destruct (n =? 0); [reflexivity | discriminate Hdefault]. }
  exists sb. eexists. eexists. exists number.
  split; [reflexivity |]. split; [exact Htrace |]. split; [exact Hnum |].
  split.
  { intros c Hc. rewrite Hnumber. now apply (nextId_above g). }
  intros Hpos Hsilent.
  apply silent_consecutive in Hsilent. apply consecutive_silent.
  unfold Further.generatedBible. rewrite HisNew.
  cbn [StoryBible.chapters StoryBible.with_meta StoryBible.with_chapters
       JS.arr_or].
  fold existing. rewrite numbered_app.
  assert (Hlast : Checker.numbered [GenerateChapter.chapter d]
                  = [Common.nextId g existing]).
  { unfold Checker.numbered, JS.truthy_numbers. cbn [map flat_map].
    rewrite Hnum, Hnumber, app_nil_r.
    destruct (Z.eqb_spec (Common.nextId g existing) 0) as [E | _];
      [| reflexivity].
    pose proof (next_number_positive existing Hpos) as Hgt.
    fold g in Hgt. lia. }
  rewrite Hlast. now apply consecutive_next.
Qed.

Lemma default_chapter_number_sample :
  Result.data
    (fst (GenerateChapter.generateChapterDirect
            (Fs.Stored Samples.unlisted_bible) Samples.now
            (Service.ReturnsText "Sorry, I cannot help." None)
            MoreSamples.chapter_params))
  <> None
  /\ exists number,
       forall c, In c (JS.arr_or (StoryBible.chapters Samples.unlisted_bible))
                 -> JS.num_or (Chapter.chapterNumber c) 0 < number.
Proof.
  split; [discriminate |].
  destruct (default_chapter_number_keeps_the_timeline_silent
              (Fs.Stored Samples.unlisted_bible) Samples.now
              (Service.ReturnsText "Sorry, I cannot help." None)
              MoreSamples.chapter_params _ eq_refl eq_refl eq_refl)
    as (sb & sb' & chapterFile & number & H1 & _ & _ & H4 & _).
  injection H1 as <-. exists number. exact H4.
Defined.

(* ====================================================================== *)
(** ** next-chapter and get-story-status *)
(* ====================================================================== *)

(** X19. get-story-status and next-chapter only read: whatever the state of
    the story bible file and the parameters, they make no [mkdir] and no
    [writeFile] call; and on a story bible that parses they succeed,
    whichever of its parts are missing. *)
Theorem status_and_next_chapter_only_read
    (parseInt : string -> option Z) (file : Fs.BibleFile)
    (ps : GetStoryStatus.Params) (pn : NextChapter.Params) :
  snd (GetStoryStatus.getStoryStatusDirect file ps) = []
  /\ snd (NextChapter.nextChapterDirect parseInt file pn) = []
  /\ (forall sb, file = Fs.Stored sb ->
        Result.success (fst (GetStoryStatus.getStoryStatusDirect file ps))
        = true
        /\ Result.success
             (fst (NextChapter.nextChapterDirect parseInt file pn))
           = true).
Proof.
  destruct file as [| message | sb].
  - repeat split; discriminate.
  - repeat split; discriminate.
  - assert (Hnext :
      snd (NextChapter.nextChapterDirect parseInt (Fs.Stored sb) pn) = []
      /\ Result.success
           (fst (NextChapter.nextChapterDirect parseInt (Fs.Stored sb) pn))
         = true).
    { destruct (NextChapter.nextChapterDirect parseInt (Fs.Stored sb) pn)
        as [res tr] eqn:Hrun.
      unfold NextChapter.nextChapterDirect, Eff.try_boundary,
        NextChapter.body in Hrun.
      cbn [Common.load] in Hrun. unfold Eff.bind at 1 in Hrun.
      cbn [Eff.ret] in Hrun. cbv zeta in Hrun.
      destruct (JS.arr_or (StoryBible.chapters sb)) as [| c l];
        [injection Hrun as <- <-; split; reflexivity |].
      destruct (NextChapter.pick _) as [[next why] |];
        injection Hrun as <- <-; split; reflexivity. }
    destruct Hnext as [Htrace Hok].
    repeat split; assumption.
Qed.

(* ---------------------------------------------------------------------- *)

Section DraftOrder.










End DraftOrder.



(** X21. next-chapter and generate-chapter agree on the number of the next
    chapter: when next-chapter recommends no chapter to work on, the
    chapter number it proposes is above the number of every chapter of the
    story bible, and it is the number a generate-chapter run on the same
    story bible gives the chapter it creates when the caller names neither
    a chapter nor a number. *)
Theorem proposed_chapter_number_is_the_one_generated
    (parseInt : string -> option Z) (sb : StoryBible.t)
    (pn : NextChapter.Params) (dn : NextChapter.Data) :
  Result.data (fst (NextChapter.nextChapterDirect parseInt (Fs.Stored sb) pn))
  = Some dn ->
  NextChapter.nextChapter dn = None ->
  exists n,
    NextChapter.chapterNumber dn = Some n
    /\ (forall c, In c (JS.arr_or (StoryBible.chapters sb)) ->
                  JS.num_or (Chapter.chapterNumber c) 0 < n)
    /\ forall (now : string)
              (service : Service.Outcome GenerateChapter.AiChapter)
              (pg : GenerateChapter.Params) (dg : GenerateChapter.Data),
         JS.truthy_num (GenerateChapter.chapterId pg) = false ->
         JS.truthy_num (GenerateChapter.chapterNumber pg) = false ->
         Result.data
           (fst (GenerateChapter.generateChapterDirect (Fs.Stored sb) now
                   service pg))
         = Some dg ->
         Chapter.chapterNumber (GenerateChapter.chapter dg) = Some n.
Proof.
  intros Hd Hnone.
  set (g := fun c => JS.num_or (Chapter.chapterNumber c) 0).
  assert (Hn : NextChapter.chapterNumber dn
               = Some (Common.nextId g (JS.arr_or (StoryBible.chapters sb)))).
  { unfold NextChapter.nextChapterDirect, Eff.try_boundary, NextChapter.body
      in Hd.
    cbn [Common.load] in Hd. unfold Eff.bind at 1 in Hd.
    cbn [Eff.ret] in Hd. cbv zeta in Hd.
    destruct (JS.arr_or (StoryBible.chapters sb)) as [| c0 l].
    - cbn in Hd. injection Hd as <-. reflexivity.
    - destruct (NextChapter.pick _) as [[next why] |];
        cbn in Hd; injection Hd as <-; [discriminate Hnone | reflexivity]. }
  eexists. split; [exact Hn |]. split.
  - intros c Hc. now apply (nextId_above g).
  - intros now service pg dg Hid Hnumber Hdg.
    destruct (generate_success_inv _ now service pg dg Hdg)
      as (sb' & m & w0 & v & number & Hfile & _ & _ & Hcases & Hchapter
          & _ & _).
    injection Hfile as <-.
    destruct Hcases as [(Htruthy & _) | (_ & Hw0 & _)]; [congruence |].
    destruct (answered_keeps w0 v) as (_ & Hn1 & _).
    destruct (withScenes_keeps (Further.answered w0 v)
                (Further.generatedScenes sb (Further.answered w0 v) now pg))
      as (_ & Hn2 & _).
    rewrite Hchapter, Hn2, Hn1, Hw0.
    cbn [GenerateChapter.newChapter Chapter.chapterNumber].
    f_equal. unfold JS.num_or at 1. unfold JS.truthy_num in Hnumber.
    destruct (GenerateChapter.chapterNumber pg) as [k |]; [| reflexivity].
    destruct (k =? 0); [reflexivity | discriminate Hnumber].
Qed.

Lemma proposed_chapter_number_sample :
  Result.data
    (fst (NextChapter.nextChapterDirect MoreSamples.no_parseInt
            (Fs.Stored MoreSamples.all_completed) MoreSamples.next_params))
  <> None
  /\ exists n,
       n = 3
       /\ forall c,
            In c (JS.arr_or (StoryBible.chapters MoreSamples.all_completed))
            -> JS.num_or (Chapter.chapterNumber c) 0 < n.
Proof.
  split; [discriminate |].
  destruct (proposed_chapter_number_is_the_one_generated
              MoreSamples.no_parseInt MoreSamples.all_completed
              MoreSamples.next_params _ eq_refl eq_refl)
    as (n & Hn & Habove & _).
  exists n. split; [| exact Habove].
  cbn in Hn. now injection Hn as <-.
Defined.

(* ---------------------------------------------------------------------- *)

Lemma count_where_cons {A : Type} (f : A -> string) (v : string) (x : A)
    (l : list A) :
  Status.count_where f v (x :: l)
  = ((if String.eqb (f x) v then 1 else 0) + Status.count_where f v l)%nat.
Proof.
  unfold Status.count_where. cbn [filter].
  now destruct (String.eqb (f x) v).
Qed.

(** X22. The per-status counts get-story-status reports for the chapters
    never add up to more than the number of chapters, and they add up to
    it exactly when every chapter's status is one of the six the counts are
    taken for: a chapter with any other status, or none, is in [total] and
    in no count. *)
Theorem chapter_status_counts_partition (sb : StoryBible.t) :
  let s := Stats.chapters (Status.getStats sb) in
  let counted :=
    (ChapterStats.draft s + ChapterStats.inProgress s
     + ChapterStats.completed s + ChapterStats.review s
     + ChapterStats.needsRevision s + ChapterStats.published s)%nat in
  (counted <= ChapterStats.total s)%nat
  /\ (counted = ChapterStats.total s
      <-> Forall (fun c => In (Chapter.status c)
                            ["draft"; "in-progress"; "completed"; "review";
                             "needs-revision"; "published"])
            (JS.arr_or (StoryBible.chapters sb))).
Proof.
  cbv zeta. unfold Status.getStats.
  cbn [Stats.chapters ChapterStats.draft ChapterStats.inProgress
       ChapterStats.completed ChapterStats.review ChapterStats.needsRevision
       ChapterStats.published ChapterStats.total].
  induction (JS.arr_or (StoryBible.chapters sb)) as [| c l [IHle IHiff]].
  - cbn. split; [lia |]. split; [constructor | reflexivity].
  - rewrite !count_where_cons. cbn [List.length].
    assert (Hc :
      ((if String.eqb (Chapter.status c) "draft" then 1 else 0)
       + (if String.eqb (Chapter.status c) "in-progress" then 1 else 0)
       + (if String.eqb (Chapter.status c) "completed" then 1 else 0)
       + (if String.eqb (Chapter.status c) "review" then 1 else 0)
       + (if String.eqb (Chapter.status c) "needs-revision" then 1 else 0)
       + (if String.eqb (Chapter.status c) "published" then 1 else 0)
       = 1
       /\ In (Chapter.status c)
            ["draft"; "in-progress"; "completed"; "review";
             "needs-revision"; "published"])%nat
      \/ ((if String.eqb (Chapter.status c) "draft" then 1 else 0)
          + (if String.eqb (Chapter.status c) "in-progress" then 1 else 0)
          + (if String.eqb (Chapter.status c) "completed" then 1 else 0)
          + (if String.eqb (Chapter.status c) "review" then 1 else 0)
          + (if String.eqb (Chapter.status c) "needs-revision" then 1 else 0)
          + (if String.eqb (Chapter.status c) "published" then 1 else 0)
          = 0
          /\ ~ In (Chapter.status c)
                 ["draft"; "in-progress"; "completed"; "review";
                  "needs-revision"; "published"])%nat).
    { destruct (String.eqb_spec (Chapter.status c) "draft") as [-> | N1];
        [left; split; [reflexivity | cbn; tauto] |].
      destruct (String.eqb_spec (Chapter.status c) "in-progress")
        as [-> | N2]; [left; split; [reflexivity | cbn; tauto] |].
      destruct (String.eqb_spec (Chapter.status c) "completed")
        as [-> | N3]; [left; split; [reflexivity | cbn; tauto] |].
      destruct (String.eqb_spec (Chapter.status c) "review")
        as [-> | N4]; [left; split; [reflexivity | cbn; tauto] |].
      destruct (String.eqb_spec (Chapter.status c) "needs-revision")
        as [-> | N5]; [left; split; [reflexivity | cbn; tauto] |].
      destruct (String.eqb_spec (Chapter.status c) "published")
        as [-> | N6]; [left; split; [reflexivity | cbn; tauto] |].
      right. split; [reflexivity |]. cbn. intuition congruence. }
    destruct Hc as [[Hone Hin] | [Hzero Hout]].
    + split; [lia |]. split.
      * intros Hsum. constructor; [exact Hin |]. apply IHiff. lia.
      * intros Hall. inversion Hall as [| ? ? _ Hl]; subst.
        apply IHiff in Hl. lia.
    + split; [lia |]. split.
      * intros Hsum. exfalso. lia.
      * intros Hall. inversion Hall as [| ? ? Hin _]; subst. contradiction.
Qed.

(* ====================================================================== *)
(** ** Schemas: what validation returns *)
(* ====================================================================== *)

Section SchemaInduction.

Variable P : Zod.Schema -> Prop.
Hypothesis P_string : forall n, P (Zod.ZString n).
Hypothesis P_number : forall b, P (Zod.ZNumber b).
Hypothesis P_boolean : P Zod.ZBoolean.
Hypothesis P_enum : forall options, P (Zod.ZEnum options).
Hypothesis P_literal : forall value, P (Zod.ZLiteral value).
Hypothesis P_array : forall item, P item -> P (Zod.ZArray item).
Hypothesis P_object :
  forall shape, Forall (fun kv => P (snd kv)) shape -> P (Zod.ZObject shape).
Hypothesis P_optional : forall inner, P inner -> P (Zod.ZOptional inner).

(** Induction on schemas, with the hypothesis for every field of a shape. *)
Lemma schema_induction : forall s, P s.
Proof using P_string P_number P_boolean P_enum P_literal P_array P_object
  P_optional.
  fix IH 1. intros [n | b | | options | value | item | shape | inner].
  - apply P_string.
  - apply P_number.
  - apply P_boolean.
  - apply P_enum.
  - apply P_literal.
  - apply P_array, IH.
  - apply P_object. induction shape as [| [k fs] rest IHrest].
    + constructor.
    + constructor; [apply IH | exact IHrest].
  - apply P_optional, IH.
Qed.

End SchemaInduction.

Lemma accepts_object (shape : list (string * Zod.Schema))
    (fields : list (string * Json.t)) :
  Zod.accepts (Zod.ZObject shape) (Json.Obj fields)
  = BibleSchemas.accepts_fields fields shape.
Proof.
  unfold BibleSchemas.accepts_fields. cbn [Zod.accepts].
  induction shape as [| [k fs] rest IH]; [reflexivity |].
  cbn [forallb fst snd]. now rewrite IH.
Qed.

Lemma strip_object (shape : list (string * Zod.Schema))
    (fields : list (string * Json.t)) :
  Zod.strip (Zod.ZObject shape) (Json.Obj fields)
  = Json.Obj (BibleSchemas.kept_fields fields shape).
Proof.
  unfold BibleSchemas.kept_fields. cbn [Zod.strip]. f_equal.
  induction shape as [| [k fs] rest IH]; [reflexivity |].
  cbn [flat_map fst snd]. rewrite IH.
  now destruct (Json.lookup k fields).
Qed.

Lemma well_formed_object (shape : list (string * Zod.Schema)) :
  BibleSchemas.well_formed (Zod.ZObject shape) = true ->
  BibleSchemas.distinct_keys (map fst shape) = true
  /\ Forall (fun kv => BibleSchemas.well_formed (snd kv) = true) shape.
Proof.
  cbn [BibleSchemas.well_formed]. intros H.
  apply andb_true_iff in H. destruct H as [Hkeys Hall].
  split; [exact Hkeys |]. clear Hkeys.
  induction shape as [| [k fs] rest IH]; [constructor |].
  apply andb_true_iff in Hall. destruct Hall as [Hfs Hrest].
  constructor; [exact Hfs | now apply IH].
Qed.

Lemma lookup_kept_absent (fields : list (string * Json.t))
    (shape : list (string * Zod.Schema)) (k : string) :
  existsb (String.eqb k) (map fst shape) = false ->
  Json.lookup k (BibleSchemas.kept_fields fields shape) = None.
Proof.
  unfold BibleSchemas.kept_fields.
  induction shape as [| [k' fs'] rest IH]; [reflexivity |].
  cbn [map fst snd existsb flat_map]. intros H.
  apply orb_false_iff in H. destruct H as [Hk Hrest].
  destruct (Json.lookup k' fields); [| now apply IH].
  cbn [app Json.lookup]. rewrite String.eqb_sym, Hk. now apply IH.
Qed.

(** With distinct keys, the kept fields hold under each key of the shape
    the stripped value of the field. *)
Lemma lookup_kept (fields : list (string * Json.t))
    (shape : list (string * Zod.Schema)) (k : string) (fs : Zod.Schema) :
  BibleSchemas.distinct_keys (map fst shape) = true ->
  In (k, fs) shape ->
  Json.lookup k (BibleSchemas.kept_fields fields shape)
  = option_map (Zod.strip fs) (Json.lookup k fields).
Proof.
  induction shape as [| [k' fs'] rest IH]; [contradiction |].
  cbn [map fst BibleSchemas.distinct_keys]. intros Hkeys Hin.
  apply andb_true_iff in Hkeys. destruct Hkeys as [Hfresh Hrest].
  apply negb_true_iff in Hfresh.
  unfold BibleSchemas.kept_fields. cbn [flat_map fst snd].
  fold (BibleSchemas.kept_fields fields rest).
  destruct Hin as [[= -> ->] | Hin].
  - destruct (Json.lookup k fields) as [x |].
    + cbn [app Json.lookup]. now rewrite String.eqb_refl.
    + cbn [app option_map]. now apply lookup_kept_absent.
  - assert (Hne : String.eqb k' k = false).
    { destruct (String.eqb_spec k' k) as [-> | _]; [| reflexivity].
      exfalso. apply (in_map fst) in Hin. cbn [fst] in Hin.
      assert (Hex : existsb (String.eqb k) (map fst rest) = true).
      { apply existsb_exists. exists k. split; [exact Hin |].
        apply String.eqb_refl. }
      congruence. }
    destruct (Json.lookup k' fields);
      cbn [app Json.lookup]; rewrite ?Hne; now apply IH.
Qed.

(** What [parse] returns is accepted again, and parsing it changes
    nothing. *)
Lemma strip_stable :
  forall s v,
    BibleSchemas.well_formed s = true -> Zod.accepts s v = true ->
    Zod.accepts s (Zod.strip s v) = true
    /\ Zod.strip s (Zod.strip s v) = Zod.strip s v.
Proof.
  intros s. induction s as [n | b | | options | value | item IH | shape IH
                            | inner IH] using schema_induction;
    intros v Hwf Hacc; try (split; [exact Hacc | reflexivity]).
  - (* arrays *)
    destruct v as [| | | | items |]; cbn [Zod.accepts] in Hacc;
      try discriminate Hacc.
    cbn [Zod.accepts Zod.strip] in *.
    assert (Hitems : forallb (Zod.accepts item) (map (Zod.strip item) items)
                     = true
                     /\ map (Zod.strip item) (map (Zod.strip item) items)
                        = map (Zod.strip item) items).
    { induction items as [| x items IHitems]; [split; reflexivity |].
      cbn [forallb map] in *. apply andb_true_iff in Hacc.
      destruct Hacc as [Hx Hrest].
      destruct (IH x Hwf Hx) as [H1 H2].
      destruct (IHitems Hrest) as [H3 H4].
      rewrite H1, H2, H3, H4. split; reflexivity. }
    destruct Hitems as [H1 H2]. rewrite H1, H2. split; reflexivity.
  - (* objects *)
    destruct v as [| | | | | fields];
      [cbn [Zod.accepts] in Hacc; discriminate Hacc .. |].
    rewrite strip_object, accepts_object, strip_object.
    rewrite accepts_object in Hacc.
    destruct (well_formed_object shape Hwf) as [Hkeys Hwfs].
    unfold BibleSchemas.accepts_fields in *.
    rewrite forallb_forall in Hacc.
    rewrite Forall_forall in IH, Hwfs.
    split.
    + apply forallb_forall. intros [k fs] Hin. cbn [fst snd].
      rewrite (lookup_kept fields shape k fs Hkeys Hin).
      specialize (Hacc (k, fs) Hin). cbn [fst snd] in Hacc.
      destruct (Json.lookup k fields) as [x |]; cbn [option_map];
        [| exact Hacc].
      apply (IH (k, fs) Hin x (Hwfs (k, fs) Hin) Hacc).
    + f_equal. unfold BibleSchemas.kept_fields at 1 3.
      assert (Hext : forall l,
                (forall kv, In kv l -> In kv shape) ->
                flat_map
                  (fun kv =>
                     match Json.lookup (fst kv)
                             (BibleSchemas.kept_fields fields shape) with
                     | Some x => [(fst kv, Zod.strip (snd kv) x)]
                     | None => []
                     end) l
                = flat_map
                    (fun kv =>
                       match Json.lookup (fst kv) fields with
                       | Some x => [(fst kv, Zod.strip (snd kv) x)]
                       | None => []
                       end) l).
      { induction l as [| [k fs] l IHl]; intros Hsub; [reflexivity |].
        cbn [flat_map fst snd].
        rewrite IHl by (intros kv Hkv; apply Hsub; now right).
        assert (Hin : In (k, fs) shape) by (apply Hsub; now left).
        rewrite (lookup_kept fields shape k fs Hkeys Hin).
        specialize (Hacc (k, fs) Hin). cbn [fst snd] in Hacc.
        destruct (Json.lookup k fields) as [x |]; cbn [option_map];
          [| reflexivity].
        destruct (IH (k, fs) Hin x (Hwfs (k, fs) Hin) Hacc) as [_ H2].
        cbn [snd] in H2. now rewrite H2. }
      apply Hext. auto.
  - (* optional *)
    cbn [Zod.accepts Zod.strip BibleSchemas.well_formed] in *.
    now apply IH.
Qed.

Lemma accepted_field (shape : list (string * Zod.Schema))
    (fields : list (string * Json.t)) (k : string) (fs : Zod.Schema) :
  BibleSchemas.accepts_fields fields shape = true ->
  In (k, fs) shape ->
  Zod.is_optional fs = false ->
  exists x, Json.lookup k fields = Some x /\ Zod.accepts fs x = true.
Proof.
  unfold BibleSchemas.accepts_fields. rewrite forallb_forall.
  intros Hacc Hin Hreq. specialize (Hacc (k, fs) Hin). cbn [fst snd] in Hacc.
  destruct (Json.lookup k fields) as [x |]; [| congruence].
  now exists x.
Qed.

(** The table of [validateStoryElement]: each entry is an object schema
    without repeated keys whose [type] is the literal of its key, and the
    keys are the story element types. *)
Lemma schemas_entry (type : string) (schema : Zod.Schema) :
  Json.lookup type Schemas.schemas = Some schema ->
  StoryElements.isValidStoryElementType type = true
  /\ BibleSchemas.well_formed schema = true
  /\ exists shape,
       schema = Zod.ZObject shape /\ In ("type", Zod.ZLiteral type) shape.
Proof.
  unfold Schemas.schemas. cbn [Json.lookup].
  repeat match goal with
         | |- context [String.eqb ?a type] =>
             destruct (String.eqb_spec a type) as [<- | ?]
         end;
    try discriminate;
    intros [= <-];
    (split; [reflexivity |]); (split; [vm_compute; reflexivity |]);
    eexists; (split; [reflexivity |]); cbn; tauto.
Qed.

Lemma story_bible_schema_well_formed :
  BibleSchemas.well_formed BibleSchemas.StoryBibleSchema = true.
Proof. vm_compute. reflexivity. Qed.

(** X23. What [validateStoryElement] returns is a fixed point of
    validation.  It returns only for the six story element types; the
    element returned is an object whose [type] is the type asked for; and
    validating the returned element again returns it unchanged (the first
    validation has dropped every key the schema does not declare).  The
    same holds for [validateStoryBible]. *)
Theorem validation_returns_a_fixed_point
    (element parsed : Json.t) (type : string) :
  Schemas.validateStoryElement element type = Eff.Returned parsed ->
  StoryElements.isValidStoryElementType type = true
  /\ (exists fields,
        parsed = Json.Obj fields
        /\ Json.lookup "type" fields = Some (Json.Str type))
  /\ Schemas.validateStoryElement parsed type = Eff.Returned parsed
  /\ forall storyBible validated,
       BibleSchemas.validateStoryBible storyBible = Eff.Returned validated ->
       BibleSchemas.validateStoryBible validated = Eff.Returned validated.
Proof.
  intros Hreturned.
  destruct (validate_returns _ _ _ Hreturned)
    as (schema & Hschema & Hacc & ->).
  destruct (schemas_entry _ _ Hschema) as (Hvalid & Hwf & shape & -> & Hin).
  split; [exact Hvalid |].
  destruct (strip_stable _ _ Hwf Hacc) as [Hacc' Hstrip'].
  split.
  - destruct element as [| | | | | fields];
      [cbn in Hacc; discriminate Hacc .. |].
    rewrite strip_object. eexists. split; [reflexivity |].
    destruct (well_formed_object shape Hwf) as [Hkeys _].
    rewrite (lookup_kept fields shape "type" _ Hkeys Hin).
    rewrite accepts_object in Hacc.
    destruct (accepted_field _ _ _ _ Hacc Hin eq_refl) as (x & -> & Hx).
    destruct x as [| | | s | |]; cbn [Zod.accepts] in Hx;
      try discriminate Hx.
    apply String.eqb_eq in Hx. now subst.
  - split.
    + unfold Schemas.validateStoryElement, Zod.parse.
      rewrite Hschema, Hacc', Hstrip'. reflexivity.
    + intros storyBible validated. unfold BibleSchemas.validateStoryBible,
        Zod.parse.
      destruct (Zod.accepts BibleSchemas.StoryBibleSchema storyBible)
        eqn:Hb; [| intros H; discriminate H].
      intros H.
      assert (Hv : validated
                   = Zod.strip BibleSchemas.StoryBibleSchema storyBible)
        by congruence.
      destruct (strip_stable BibleSchemas.StoryBibleSchema storyBible
                  story_bible_schema_well_formed Hb) as [H1 H2].
      rewrite Hv, H1, H2. reflexivity.
Qed.

Lemma validation_fixed_point_sample :
  (exists parsed,
      Schemas.validateStoryElement MoreSamples.premise_json "premise"
      = Eff.Returned parsed
      /\ Schemas.validateStoryElement parsed "premise" = Eff.Returned parsed
      /\ parsed <> MoreSamples.premise_json).
Proof.
  destruct (Schemas.validateStoryElement MoreSamples.premise_json "premise")
    as [parsed | e] eqn:H; [| vm_compute in H; discriminate H].
  exists parsed. split; [reflexivity |].
  destruct (validation_returns_a_fixed_point _ _ _ H) as (_ & _ & H3 & _).
  split; [exact H3 |].
  vm_compute in H. injection H as <-. discriminate.
Defined.

(* ====================================================================== *)
(** ** parse-premise: the story bible it creates *)
(* ====================================================================== *)

Lemma strip_strings (l : list Json.t) :
  map (Zod.strip Zod.zstring) l = l.
Proof.
  induction l as [| x l IH]; [reflexivity |].
  cbn [map]. rewrite IH. reflexivity.
Qed.

(** The analysis [AiPremiseSchema.parse] returns: the five fields, typed. *)
Lemma validated_analysis_form (analysis validated : Json.t) :
  Zod.parse BibleSchemas.AiPremiseSchema analysis = Some validated ->
  exists content genre themes audience words,
    validated
    = Json.Obj [("content", Json.Str content);
                ("genre", Json.Str genre);
                ("themes", Json.Arr themes);
                ("targetAudience", Json.Str audience);
                ("wordCountTarget", Json.Num words)]
    /\ existsb (String.eqb genre) Schemas.GENRE_TYPES = true
    /\ forallb (Zod.accepts Zod.zstring) themes = true
    /\ 0 < words.
Proof.
  unfold Zod.parse.
  destruct (Zod.accepts BibleSchemas.AiPremiseSchema analysis) eqn:Hacc;
    [| discriminate].
  intros H.
  assert (Hv : validated = Zod.strip BibleSchemas.AiPremiseSchema analysis)
    by congruence.
  clear H. subst validated.
  unfold BibleSchemas.AiPremiseSchema in *.
  destruct analysis as [| | | | | fields];
    [cbn in Hacc; discriminate Hacc .. |].
  rewrite accepts_object in Hacc. rewrite strip_object.
  destruct (accepted_field _ _ "content" _ Hacc ltac:(cbn; tauto) eq_refl)
    as (x1 & H1 & A1).
  destruct (accepted_field _ _ "genre" _ Hacc ltac:(cbn; tauto) eq_refl)
    as (x2 & H2 & A2).
  destruct (accepted_field _ _ "themes" _ Hacc ltac:(cbn; tauto) eq_refl)
    as (x3 & H3 & A3).
  destruct (accepted_field _ _ "targetAudience" _ Hacc ltac:(cbn; tauto)
              eq_refl) as (x4 & H4 & A4).
  destruct (accepted_field _ _ "wordCountTarget" _ Hacc ltac:(cbn; tauto)
              eq_refl) as (x5 & H5 & A5).
  unfold BibleSchemas.kept_fields. cbn [flat_map fst snd app].
  rewrite H1, H2, H3, H4, H5.
  destruct x1 as [| | | content | |]; cbn in A1; try discriminate A1.
  destruct x2 as [| | | genre | |]; cbn [Zod.accepts] in A2;
    try discriminate A2.
  destruct x3 as [| | | | themes |]; cbn [Zod.accepts] in A3;
    try discriminate A3.
  destruct x4 as [| | | audience | |]; cbn in A4; try discriminate A4.
  destruct x5 as [| | words | | |]; cbn [Zod.accepts Zod.zposint] in A5;
    try discriminate A5.
  exists content, genre, (map (Zod.strip Zod.zstring) themes), audience,
    words.
  split; [reflexivity |]. split; [exact A2 |].
  split; [now rewrite strip_strings | now apply Z.ltb_lt].
Qed.

Lemma forallb_zstrings (l : list Json.t) :
  forallb (Zod.accepts Zod.zstring) l = true ->
  forallb (fun v => match v with
                    | Json.Str x => (0 <=? String.length x)%nat
                    | _ => false
                    end) l = true.
Proof. intros H. exact H. Qed.

(** The initial story bible satisfies the story bible schema, and its
    premise the premise schema. *)
Lemma initial_story_bible_valid (now content genre audience : string)
    (themes : list Json.t) (words : Z) :
  existsb (String.eqb genre) Schemas.GENRE_TYPES = true ->
  forallb (Zod.accepts Zod.zstring) themes = true ->
  0 < words ->
  exists meta premise,
    ParsePremise.initialStoryBible now
      (Json.Obj [("content", Json.Str content);
                 ("genre", Json.Str genre);
                 ("themes", Json.Arr themes);
                 ("targetAudience", Json.Str audience);
                 ("wordCountTarget", Json.Num words)])
    = Json.Obj [("meta", meta); ("premise", premise)]
    /\ Zod.accepts BibleSchemas.StoryBibleSchema
         (Json.Obj [("meta", meta); ("premise", premise)]) = true
    /\ Zod.accepts Schemas.PremiseSchema premise = true.
Proof.
  intros Hgenre Hthemes Hwords. apply Z.ltb_lt in Hwords.
  unfold ParsePremise.initialStoryBible, ParsePremise.property.
  cbn [Json.lookup String.eqb Ascii.eqb Bool.eqb app].
  eexists. eexists. split; [reflexivity |].
  unfold BibleSchemas.StoryBibleSchema, BibleSchemas.MetaSchema,
    Schemas.PremiseSchema.
  cbn -[existsb forallb Z.ltb Nat.leb String.length
        Schemas.GENRE_TYPES Schemas.PRIORITIES
        Schemas.STORY_STATUS_OPTIONS].
  rewrite Hgenre, Hwords, (forallb_zstrings _ Hthemes).
  split; reflexivity.
Qed.

Section ParsePremiseRuns.

Variable JSON_parse : string -> Json.t + string.

(** X24. parse-premise writes [story-bible.json] exactly when it succeeds,
    and as its last mutating call; the document it writes holds the story's
    [meta] and a [premise] marked [completed] and nothing else, it passes
    [validateStoryBible], and its premise passes [validateStoryElement] as
    a [premise].  A run that fails has made at most the three [mkdir] calls
    and written [premise.md]. *)
Theorem parse_premise_writes_a_valid_story_bible
    (env : ParsePremise.Env) (p : ParsePremise.Params) :
  if ParsePremise.success
       (fst (ParsePremise.parsePremiseDirect JSON_parse env p))
  then
    exists before meta premise parsed validated,
      snd (ParsePremise.parsePremiseDirect JSON_parse env p)
      = (before
         ++ [ParsePremise.WriteFile ParsePremise.StoryBibleJson
               (ParsePremise.BibleDocument
                  (Json.Obj [("meta", meta); ("premise", premise)]))])%list
      /\ (forall content,
            ~ In (ParsePremise.WriteFile ParsePremise.StoryBibleJson content)
                before)
      /\ BibleSchemas.validateStoryBible
           (Json.Obj [("meta", meta); ("premise", premise)])
         = Eff.Returned parsed
      /\ Schemas.validateStoryElement premise "premise"
         = Eff.Returned validated
      /\ exists fields,
           premise = Json.Obj fields
           /\ Json.lookup "status" fields = Some (Json.Str "completed")
  else
    (forall content,
        ~ In (ParsePremise.WriteFile ParsePremise.StoryBibleJson content)
            (snd (ParsePremise.parsePremiseDirect JSON_parse env p)))
    /\ (snd (ParsePremise.parsePremiseDirect JSON_parse env p) = []
        \/ snd (ParsePremise.parsePremiseDirect JSON_parse env p)
           = [ParsePremise.Mkdir ParsePremise.StoryBibleDir;
              ParsePremise.Mkdir ParsePremise.CharactersDir;
              ParsePremise.Mkdir ParsePremise.ChaptersDir]
        \/ exists written,
             snd (ParsePremise.parsePremiseDirect JSON_parse env p)
             = [ParsePremise.Mkdir ParsePremise.StoryBibleDir;
                ParsePremise.Mkdir ParsePremise.CharactersDir;
                ParsePremise.Mkdir ParsePremise.ChaptersDir;
                ParsePremise.WriteFile ParsePremise.PremiseMd written]).
Proof.
  destruct (ParsePremise.parsePremiseDirect JSON_parse env p) as [res tr]
    eqn:Hrun.
  cbn [fst snd].
  unfold ParsePremise.parsePremiseDirect in Hrun.
  assert (Hnone : forall content,
            ~ In (ParsePremise.WriteFile ParsePremise.StoryBibleJson content)
                []) by (intros content []).
  destruct (ParsePremise.premiseText env p) as [text | e].
  2:{ injection Hrun as <- <-. cbn. split; [exact Hnone | now left]. }
  destruct (match text with
            | Some s => String.eqb s "" || ParsePremise.blank s
            | None => true
            end).
  { injection Hrun as <- <-. cbn. split; [exact Hnone | now left]. }
  cbv zeta in Hrun.
  destruct (ParsePremise.analysisOf JSON_parse (ParsePremise.analysis env))
    as [analysis | e].
  2:{ injection Hrun as <- <-. cbn. split.
      - intros content [H | [H | [H | []]]]; discriminate H.
      - right; now left. }
  destruct (Zod.parse BibleSchemas.AiPremiseSchema analysis)
    as [validatedAnalysis |] eqn:Hparse.
  2:{ injection Hrun as <- <-. cbn. split.
      - intros content [H | [H | [H | []]]]; discriminate H.
      - right; now left. }
  destruct (validated_analysis_form _ _ Hparse)
    as (content & genre & themes & audience & words & -> & Hgenre & Hthemes
        & Hwords).
  destruct (initial_story_bible_valid (ParsePremise.now env) content genre
              audience themes words Hgenre Hthemes Hwords)
    as (meta & premise & Hdoc & Hbible & Hpremise).
  destruct (if ParsePremise.generateOutline p
            then match ParsePremise.outline env with
                 | ParsePremise.Rejects m => Eff.Thrown (ServiceError m)
                 | ParsePremise.Resolves outlineResponse =>
                     Eff.Returned
                       [ParsePremise.WriteFile ParsePremise.OutlineMd
                          (ParsePremise.OutlineDocument
                             (ParsePremise.structureType p) outlineResponse
                             (ParsePremise.now env))]
                 end
            else Eff.Returned []) as [outlineWritten | e] eqn:Houtline.
  2:{ injection Hrun as <- <-. cbn. split.
      - intros c [H | [H | [H | [H | []]]]]; discriminate H.
      - right; right. eexists. reflexivity. }
  injection Hrun as <- <-. cbn [ParsePremise.success].
  rewrite Hdoc.
  exists ([ParsePremise.Mkdir ParsePremise.StoryBibleDir;
           ParsePremise.Mkdir ParsePremise.CharactersDir;
           ParsePremise.Mkdir ParsePremise.ChaptersDir;
           ParsePremise.WriteFile ParsePremise.PremiseMd
             (ParsePremise.PremiseDocument (JS.str_or text "")
                (Json.Obj
                   [("content", Json.Str content);
                    ("genre", Json.Str genre);
                    ("themes", Json.Arr themes);
                    ("targetAudience", Json.Str audience);
                    ("wordCountTarget", Json.Num words)])
                (ParsePremise.targetWordCount p)
                (ParsePremise.structureType p) (ParsePremise.now env))]
          ++ outlineWritten)%list.
  exists meta, premise.
  unfold BibleSchemas.validateStoryBible, Schemas.validateStoryElement,
    Zod.parse.
  cbn [Json.lookup Schemas.schemas String.eqb Ascii.eqb Bool.eqb].
  rewrite Hbible, Hpremise. eexists. eexists.
  split; [reflexivity |].
  split.
  { intros c Hin. apply in_app_or in Hin.
    destruct Hin as [[H | [H | [H | [H | []]]]] | Hin]; try discriminate H.
    destruct (ParsePremise.generateOutline p).
    - destruct (ParsePremise.outline env); [discriminate Houtline |].
      injection Houtline as <-. destruct Hin as [H | []]. discriminate H.
    - injection Houtline as <-. contradiction. }
  split; [reflexivity |]. split; [reflexivity |].
  unfold ParsePremise.initialStoryBible, ParsePremise.property in Hdoc.
  cbn [Json.lookup String.eqb Ascii.eqb Bool.eqb app] in Hdoc.
  injection Hdoc as _ <-. eexists. split; reflexivity.
Qed.

(** X25. parse-premise stops before any mutation when it has no text to
    work on.  A premise parameter that is not empty but holds white space
    only is rejected with [No premise text provided], and the premise file
    is not consulted for it; a missing or empty parameter sends the
    operation to the premise file, and a file that cannot be read fails the
    operation with the reader's message.  Once there is a text (an ASCII
    text that is not white space only; outside ASCII [trim] knows more
    spaces than the embedding), a rejected analysis request fails the
    operation after the three directories were created and before any file
    is written. *)
Theorem parse_premise_needs_a_text
    (env : ParsePremise.Env) (p : ParsePremise.Params) :
  (forall s, ParsePremise.premise p = Some s -> s <> "" ->
             ParsePremise.blank s = true ->
             ParsePremise.parsePremiseDirect JSON_parse env p
             = (ParsePremise.failed (PlainError "No premise text provided"),
                []))
  /\ (forall message,
        JS.truthy_str (ParsePremise.premise p) = false ->
        ParsePremise.filePath p <> "" ->
        ParsePremise.premiseFile env = inr message ->
        ParsePremise.parsePremiseDirect JSON_parse env p
        = (ParsePremise.failed
             (PlainError ("Could not read premise file at "
                            ++ ParsePremise.resolve env
                                 (ParsePremise.filePath p)
                            ++ ": " ++ message)),
           []))
  /\ (forall s message,
        ParsePremise.premise p = Some s ->
        Further.ascii_text s = true ->
        ParsePremise.blank s = false ->
        ParsePremise.analysis env = ParsePremise.Rejects message ->
        ParsePremise.parsePremiseDirect JSON_parse env p
        = (ParsePremise.failed (ServiceError message),
           [ParsePremise.Mkdir ParsePremise.StoryBibleDir;
            ParsePremise.Mkdir ParsePremise.CharactersDir;
            ParsePremise.Mkdir ParsePremise.ChaptersDir])).
Proof.
  split; [| split].
  - intros s Hs Hne Hblank.
    unfold ParsePremise.parsePremiseDirect, ParsePremise.premiseText.
    rewrite Hs. cbn [JS.truthy_str].
    apply String.eqb_neq in Hne. rewrite Hne. cbn [negb andb].
    rewrite Hne, Hblank. reflexivity.
  - intros message Hfalsy Hpath Hfile.
    unfold ParsePremise.parsePremiseDirect, ParsePremise.premiseText.
    apply String.eqb_neq in Hpath. rewrite Hfalsy, Hpath, Hfile.
    reflexivity.
  - intros s message Hs _ Hblank Hrejects.
    assert (Hne : String.eqb s "" = false).
    { destruct s; [discriminate Hblank | reflexivity]. }
    unfold ParsePremise.parsePremiseDirect, ParsePremise.premiseText.
    rewrite Hs. cbn [JS.truthy_str]. rewrite Hne. cbn [negb andb].
    rewrite Hne, Hblank. cbn [orb]. rewrite Hrejects. reflexivity.
Qed.

End ParsePremiseRuns.

Lemma parse_premise_sample :
  ParsePremise.success
    (fst (ParsePremise.parsePremiseDirect MoreSamples.no_JSON_parse
            MoreSamples.premise_env
            (ParsePremise.defaults (Some "A thief steals a crown."))))
  = true
  /\ exists before document parsed,
       snd (ParsePremise.parsePremiseDirect MoreSamples.no_JSON_parse
              MoreSamples.premise_env
              (ParsePremise.defaults (Some "A thief steals a crown.")))
       = (before
          ++ [ParsePremise.WriteFile ParsePremise.StoryBibleJson
                (ParsePremise.BibleDocument document)])%list
       /\ BibleSchemas.validateStoryBible document = Eff.Returned parsed.
Proof.
  assert (Hok : ParsePremise.success
                  (fst (ParsePremise.parsePremiseDirect
                          MoreSamples.no_JSON_parse MoreSamples.premise_env
                          (ParsePremise.defaults
                             (Some "A thief steals a crown."))))
                = true) by (vm_compute; reflexivity).
  split; [exact Hok |].
  pose proof (parse_premise_writes_a_valid_story_bible
                MoreSamples.no_JSON_parse MoreSamples.premise_env
                (ParsePremise.defaults (Some "A thief steals a crown.")))
    as H.
  rewrite Hok in H.
  destruct H as (before & meta & premise & parsed & validated & Htrace & _
                 & Hvalid & _).
  exists before. eexists. exists parsed. split; [exact Htrace | exact Hvalid].
Defined.

Lemma parse_premise_blank_sample :
  ParsePremise.parsePremiseDirect MoreSamples.no_JSON_parse
    MoreSamples.premise_env (ParsePremise.defaults (Some "   "))
  = (ParsePremise.failed (PlainError "No premise text provided"), [])
  /\ ParsePremise.parsePremiseDirect MoreSamples.no_JSON_parse
       MoreSamples.unavailable_env
       (ParsePremise.defaults (Some "A thief steals a crown."))
     = (ParsePremise.failed (ServiceError "503 Service Unavailable"),
        [ParsePremise.Mkdir ParsePremise.StoryBibleDir;
         ParsePremise.Mkdir ParsePremise.CharactersDir;
         ParsePremise.Mkdir ParsePremise.ChaptersDir]).
Proof.
  split.
  - apply (proj1 (parse_premise_needs_a_text MoreSamples.no_JSON_parse
                    MoreSamples.premise_env
                    (ParsePremise.defaults (Some "   "))) "   ");
      [reflexivity | discriminate | reflexivity].
  - apply (proj2 (proj2 (parse_premise_needs_a_text MoreSamples.no_JSON_parse
                           MoreSamples.unavailable_env
                           (ParsePremise.defaults
                              (Some "A thief steals a crown."))))
             "A thief steals a crown." "503 Service Unavailable");
      reflexivity.
Defined.

(* ====================================================================== *)
(** ** The element types and their hierarchy *)
(* ====================================================================== *)

Lemma valid_element_type_cases (type : string) :
  StoryElements.isValidStoryElementType type = true ->
  In type ["premise"; "outline"; "character"; "chapter"; "scene";
           "plot-thread"].
Proof.
  unfold StoryElements.isValidStoryElementType. intros H.
  apply existsb_exists in H. destruct H as (x & Hx & E).
  apply String.eqb_eq in E. now subst.
Qed.

(** X26. The two tables of the element hierarchy agree with each other and
    with the schema table.  On the story element types, an element type is
    listed among the children of another exactly when that other is its
    parent; [premise] is the only type without a parent; parents and
    children are story element types; and [validateStoryElement] has a
    schema for exactly the story element types. *)
Theorem element_hierarchy_is_consistent :
  (forall child parent,
      StoryElements.isValidStoryElementType child = true ->
      StoryElements.isValidStoryElementType parent = true ->
      (StoryElements.getParentElementType child = Some parent
       <-> In child (StoryElements.getChildElementTypes parent)))
  /\ (forall type,
        StoryElements.isValidStoryElementType type = true ->
        (StoryElements.getParentElementType type = None
         <-> type = "premise"))
  /\ (forall type parent,
        StoryElements.getParentElementType type = Some parent ->
        StoryElements.isValidStoryElementType type = true
        /\ StoryElements.isValidStoryElementType parent = true)
  /\ (forall type child,
        In child (StoryElements.getChildElementTypes type) ->
        StoryElements.isValidStoryElementType type = true
        /\ StoryElements.isValidStoryElementType child = true)
  /\ (forall type,
        Json.lookup type Schemas.schemas <> None
        <-> StoryElements.isValidStoryElementType type = true).
Proof.
  split; [| split; [| split; [| split]]].
  - intros child parent Hc Hp.
    apply valid_element_type_cases in Hc, Hp. cbn [In] in Hc, Hp.
    destruct Hc as [<- | [<- | [<- | [<- | [<- | [<- | []]]]]]];
      destruct Hp as [<- | [<- | [<- | [<- | [<- | [<- | []]]]]]];
      cbn; split; intros H;
      try discriminate H; try reflexivity; try tauto;
      repeat (destruct H as [H | H]; try discriminate H); try contradiction.
  - intros type Ht. apply valid_element_type_cases in Ht. cbn [In] in Ht.
    destruct Ht as [<- | [<- | [<- | [<- | [<- | [<- | []]]]]]];
      cbn; split; intros H; try discriminate H; reflexivity.
  - intros type parent.
    unfold StoryElements.getParentElementType, StoryElements.hierarchy.
    cbn [Json.lookup].
    repeat match goal with
           | |- context [String.eqb ?a type] =>
               destruct (String.eqb_spec a type) as [<- | ?]
           end;
      intros H; try discriminate H; injection H as <-; split; reflexivity.
  - intros type child.
    unfold StoryElements.getChildElementTypes, StoryElements.children.
    cbn [Json.lookup].
    repeat match goal with
           | |- context [String.eqb ?a type] =>
               destruct (String.eqb_spec a type) as [<- | ?]
           end;
      cbn [In]; intros H;
      repeat (destruct H as [<- | H]; [split; reflexivity |]);
      contradiction.
  - intros type. split.
    + unfold Schemas.schemas. cbn [Json.lookup].
      repeat match goal with
             | |- context [String.eqb ?a type] =>
                 destruct (String.eqb_spec a type) as [<- | ?]
             end;
        intros H; try reflexivity. now contradiction H.
    + intros Ht. apply valid_element_type_cases in Ht. cbn [In] in Ht.
      destruct Ht as [<- | [<- | [<- | [<- | [<- | [<- | []]]]]]];
        cbn; discriminate.
Qed.

(* ====================================================================== *)
(** ** The tool adapters *)
(* ====================================================================== *)

Lemma failed_passed_on {D : Type} (what : string) (e : JsError) :
  Further.passed_on (Result.message (Common.failed (D := D) what e)).
Proof.
  unfold Common.failed. cbn [Result.message]. unfold Further.passed_on.
  destruct ("Failed to " ++ what ++ ": " ++ error_message e) eqn:E;
    [discriminate E | exact I].
Qed.

Lemma message_or_passed_on (m : Message) (fallback : string) :
  Further.passed_on m -> Tools.message_or m fallback = m.
Proof.
  destruct m as [[| c s] | | | | | | |]; cbn; intros H;
    [contradiction | reflexivity ..].
Qed.

Lemma check_consistency_message (file : Fs.BibleFile)
    (env : CheckConsistency.Env) (p : Checker.Params) :
  Further.passed_on
    (Result.message
       (fst (CheckConsistency.checkConsistencyDirect file env p))).
Proof.
  destruct file as [| message | sb]; [exact I | apply failed_passed_on |].
  destruct (CheckConsistency.checkConsistencyDirect (Fs.Stored sb) env p)
    as [res tr] eqn:Hrun.
  unfold CheckConsistency.checkConsistencyDirect, Eff.try_boundary in Hrun.
  destruct (CheckConsistency.body (Fs.Stored sb) env p []) as [[a | e] tr']
    eqn:Hbody; injection Hrun as <- <-; cbn [fst];
    [| apply failed_passed_on].
  unfold CheckConsistency.body in Hbody.
  cbn [Common.load] in Hbody. unfold Eff.bind at 1 in Hbody.
  cbn [Eff.ret] in Hbody. cbv zeta in Hbody.
  unfold Eff.bind at 1 in Hbody.
  destruct (match Checker.detectIssues sb p with
            | [] => Eff.ret []
            | _ :: _ => _
            end []) as [[fixed | e] tr1]; [| discriminate Hbody].
  unfold Eff.bind at 1 in Hbody.
  destruct (Checker.generateReport p);
    unfold Eff.bind, Eff.perform, Eff.ret in Hbody;
    injection Hbody as <- _; exact I.
Qed.

Lemma create_character_message (file : Fs.BibleFile) (now : string)
    (service : Service.Outcome CreateCharacter.AiCharacter)
    (p : CreateCharacter.Params) :
  Further.passed_on
    (Result.message
       (fst (CreateCharacter.createCharacterDirect file now service p))).
Proof.
  destruct file as [| message | sb]; [exact I | apply failed_passed_on |].
  destruct (StoryBible.premise sb) as [premise |] eqn:Hpremise.
  2:{ rewrite (create_without_premise sb now service p Hpremise). exact I. }
  assert (Hrejected : forall message,
            CreateCharacter.generateProfile p || CreateCharacter.generateArc p
            || CreateCharacter.generateVoice p = true ->
            service = Service.Rejects message ->
            Further.passed_on
              (Result.message
                 (fst (CreateCharacter.createCharacterDirect (Fs.Stored sb)
                         now service p)))).
  { intros message Hon ->.
    rewrite (create_with_rejection sb premise Hpremise now p message Hon).
    apply failed_passed_on. }
  assert (Hcases :
    CreateCharacter.generateProfile p || CreateCharacter.generateArc p
    || CreateCharacter.generateVoice p = false
    \/ (exists v, Service.await_parsed service = Eff.ret v)
    \/ (CreateCharacter.generateProfile p || CreateCharacter.generateArc p
        || CreateCharacter.generateVoice p = true
        /\ exists message, service = Service.Rejects message)).
  { destruct (CreateCharacter.generateProfile p
              || CreateCharacter.generateArc p
              || CreateCharacter.generateVoice p); [| now left].
    right.
    destruct service as [message | text [v |] | v];
      [right; split; [reflexivity | now exists message]
      | left; eexists; reflexivity ..]. }
  destruct Hcases as [Hoff | [(v & Hv) | (Hon & message & Hrej)]];
    [| | now apply (Hrejected message)].
  - destruct (StoryBible.meta sb) as [m |] eqn:Hmeta.
    + rewrite (create_without_enrichment sb m premise Hmeta Hpremise now p
                 service Hoff). exact I.
    + destruct (create_without_meta sb now service p) as (profile & -> & _);
        [congruence | assumption | now left | apply failed_passed_on].
  - destruct (StoryBible.meta sb) as [m |] eqn:Hmeta.
    + destruct (CreateCharacter.generateProfile p
                || CreateCharacter.generateArc p
                || CreateCharacter.generateVoice p) eqn:Hflags.
      * rewrite (create_with_answer sb m premise Hmeta Hpremise now p
                   service v Hv Hflags). exact I.
      * rewrite (create_without_enrichment sb m premise Hmeta Hpremise now p
                   service Hflags). exact I.
    + destruct (create_without_meta sb now service p) as (profile & -> & _);
        [congruence | assumption | right; now exists v
        | apply failed_passed_on].
Qed.

(** X27. The tool adapters add nothing to what the operations return.  The
    check-consistency and create-character tools pass on the operation's
    message as their text, the fallback texts never being used, and the
    mutations are those of the operation; [isError] is [false] whatever
    the operation returned, also for [success: false].  The arguments left
    out get the defaults of the tool, so check-consistency called without
    arguments checks all rule families from chapter 1 with the report and
    without auto-fix, and does not write the story bible. *)
Theorem tool_adapters_pass_results_through :
  (forall file env args session,
      Tools.CheckConsistencyTool.handler file env args session
      = (Tools.mkResponse
           (Result.message
              (fst (CheckConsistency.checkConsistencyDirect file env
                      (Tools.CheckConsistencyTool.params args session))))
           false,
         snd (CheckConsistency.checkConsistencyDirect file env
                (Tools.CheckConsistencyTool.params args session))))
  /\ (forall file now service args,
        Tools.CreateCharacterTool.handler file now service args
        = (Tools.mkResponse
             (Result.message
                (fst (CreateCharacter.createCharacterDirect file now service
                        (Tools.CreateCharacterTool.params args))))
             false,
           snd (CreateCharacter.createCharacterDirect file now service
                  (Tools.CreateCharacterTool.params args))))
  /\ (forall session,
        Tools.CheckConsistencyTool.params
          Tools.CheckConsistencyTool.no_arguments session
        = Checker.mkParams "all" None None 1 None true false "conservative"
            session)
  /\ (forall file env session,
        SpecWording.writes_story_bible
          (snd (Tools.CheckConsistencyTool.handler file env
                  Tools.CheckConsistencyTool.no_arguments session))
        = false)
  /\ (forall env args session,
        Tools.CheckConsistencyTool.handler Fs.Missing env args session
        = (Tools.mkResponse (Text (Common.cross_mark ++ Common.advice)) false,
           [])).
Proof.
  split; [| split; [| split; [| split]]].
  - intros file env args session.
    unfold Tools.CheckConsistencyTool.handler. cbv zeta.
    now rewrite message_or_passed_on by apply check_consistency_message.
  - intros file now service args.
    unfold Tools.CreateCharacterTool.handler. cbv zeta.
    now rewrite message_or_passed_on by apply create_character_message.
  - reflexivity.
  - intros file env session.
    unfold Tools.CheckConsistencyTool.handler. cbv zeta. cbn [snd].
    destruct file as [| message | sb]; [reflexivity | reflexivity |].
    destruct (CheckConsistency.checkConsistencyDirect (Fs.Stored sb) env
                (Tools.CheckConsistencyTool.params
                   Tools.CheckConsistencyTool.no_arguments session))
      as [res tr] eqn:Hrun.
    unfold CheckConsistency.checkConsistencyDirect, Eff.try_boundary,
      CheckConsistency.body in Hrun.
    cbn [Common.load] in Hrun. unfold Eff.bind at 1 in Hrun.
    cbn [Eff.ret] in Hrun. cbv zeta in Hrun.
    cbn [Tools.CheckConsistencyTool.params
         Tools.CheckConsistencyTool.no_arguments Tools.default
         Tools.CheckConsistencyTool.autoFix
         Tools.CheckConsistencyTool.generateReport Checker.autoFix
         Checker.generateReport] in Hrun.
    destruct (Checker.detectIssues sb _) as [| i issues];
      unfold Eff.bind, Eff.perform, Eff.ret in Hrun; cbn in Hrun;
      injection Hrun as <- <-; reflexivity.
  - reflexivity.
Qed.

(* ====================================================================== *)
(** ** The rule families together *)
(* ====================================================================== *)

(** X28. The check of all rule families is the four checks one after the
    other: with [checkType = 'all'] the issues are those of the character
    check, then those of the plot check, then the timeline's, then the
    style's, each as a run with that one check type reports them on the
    same story bible and range. *)
Theorem check_all_is_the_four_checks_in_order
    (sb : StoryBible.t) (p : Checker.Params) :
  Checker.detectIssues sb (Further.with_checkType p "all")
  = (Checker.detectIssues sb (Further.with_checkType p "character")
     ++ Checker.detectIssues sb (Further.with_checkType p "plot")
     ++ Checker.detectIssues sb (Further.with_checkType p "timeline")
     ++ Checker.detectIssues sb (Further.with_checkType p "style"))%list.
Proof.
  unfold Checker.detectIssues, Checker.is_type, Checker.targetChapters,
    Further.with_checkType.
  cbn [Checker.checkType Checker.characterId Checker.plotThreadId
       Checker.startChapter Checker.endChapter String.eqb Ascii.eqb Bool.eqb
       orb].
  now rewrite !app_nil_r.
Qed.

(** X29. The style check pushes one issue at most, of type [pov-undefined]
    and severity [minor], naming no element; it pushes none exactly when
    the style guide is missing or names no point of view, or every chapter
    in scope has its [pov]. *)
Theorem style_check_is_one_issue_at_most
    (chapters : list Chapter.t) (styleGuide : option Style.t) :
  (List.length (Checker.checkStyleConsistency chapters styleGuide) <= 1)%nat
  /\ (forall i, In i (Checker.checkStyleConsistency chapters styleGuide) ->
                Issue.type i = "pov-undefined"
                /\ Issue.severity i = "minor"
                /\ Issue.characterId i = None
                /\ Issue.chapterId i = None
                /\ Issue.plotThreadId i = None)
  /\ (Checker.checkStyleConsistency chapters styleGuide = []
      <-> JS.truthy_str match styleGuide with
                        | Some sg => Style.pov sg
                        | None => None
                        end = false
          \/ forall c, In c chapters -> JS.truthy_str (Chapter.pov c) = true).
Proof.
  unfold Checker.checkStyleConsistency.
  destruct styleGuide as [sg |].
  2:{ split; [cbn; lia |]. split; [intros i [] |].
      split; [now left | reflexivity]. }
  destruct (JS.truthy_str (Style.pov sg)).
  2:{ split; [cbn; lia |]. split; [intros i [] |].
      split; [now left | reflexivity]. }
  set (missing := filter (fun c => negb (JS.truthy_str (Chapter.pov c)))
                    chapters).
  assert (Hmissing : missing = []
                     <-> forall c, In c chapters ->
                                   JS.truthy_str (Chapter.pov c) = true).
  { split.
    - intros Hnil c Hc.
      destruct (JS.truthy_str (Chapter.pov c)) eqn:E; [reflexivity |].
      assert (Hin : In c missing)
        by (apply filter_In; split; [exact Hc | now rewrite E]).
      rewrite Hnil in Hin. contradiction.
    - intros Hall. destruct missing as [| c l] eqn:Hm; [reflexivity |].
      assert (Hin : In c missing) by (rewrite Hm; now left).
      apply filter_In in Hin. destruct Hin as [Hc Hno].
      rewrite (Hall c Hc) in Hno. discriminate Hno. }
  destruct missing as [| c l].
  - cbn. split; [lia |]. split; [intros i [] |].
    split; [intros _; right; now apply Hmissing | reflexivity].
  - cbn [List.length].
    replace (0 <? Z.of_nat (Datatypes.S (List.length l))) with true
      by (symmetry; apply Z.ltb_lt; lia).
    split; [cbn; lia |].
    split; [intros i [<- | []]; repeat split |].
    split; [discriminate |].
    intros [H | H]; [discriminate H |].
    apply Hmissing in H. discriminate H.
Qed.

(** X30. A character check scoped to one character reports on that
    character only: with [checkType = 'character'] and a [characterId] that
    is not 0, every issue carries that [characterId].  (A [characterId] of
    0 is falsy and scopes nothing.) *)
Theorem scoped_character_check_reports_that_character
    (sb : StoryBible.t) (p : Checker.Params) (k : Z) :
  Checker.checkType p = "character" ->
  Checker.characterId p = Some k ->
  k <> 0 ->
  forall i, In i (Checker.detectIssues sb p) -> Issue.characterId i = Some k.
Proof.
  intros Hty Hid Hk i Hi.
  unfold Checker.detectIssues, Checker.is_type in Hi.
  rewrite Hty, Hid in Hi.
  cbn [String.eqb Ascii.eqb Bool.eqb orb app] in Hi.
  rewrite !app_nil_r in Hi.
  unfold Checker.select_by_id in Hi.
  apply Z.eqb_neq in Hk. rewrite Hk in Hi.
  unfold Checker.checkCharacterConsistency in Hi.
  apply in_flat_map in Hi. destruct Hi as (c & Hc & Hi).
  apply filter_In in Hc. destruct Hc as [_ Hc]. apply Z.eqb_eq in Hc.
  unfold Checker.check_character in Hi.
  apply in_app_or in Hi. destruct Hi as [Hi | Hi].
  - apply in_flat_map in Hi. destruct Hi as (s & _ & Hi).
    unfold Checker.unlisted_in_scene in Hi.
    destruct (find _ _); [| contradiction].
    destruct (negb _); [| contradiction].
    destruct Hi as [<- | []]. cbn. now rewrite Hc.
  - unfold Checker.arc_check in Hi.
    destruct (Character.arc c); [| contradiction].
    destruct (1 <? _); [| contradiction].
    destruct (Checker.arc_summary_undefined _); [| contradiction].
    destruct Hi as [<- | []]. cbn. now rewrite Hc.
Qed.

Lemma scoped_character_check_sample :
  Checker.detectIssues Samples.unlisted_bible MoreSamples.one_character_check
  = [Checker.unlisted_issue Samples.K Samples.C]
  /\ forall i,
       In i (Checker.detectIssues Samples.unlisted_bible
               MoreSamples.one_character_check) ->
       Issue.characterId i = Some 7.
Proof.
  split; [reflexivity |].
  apply (scoped_character_check_reports_that_character Samples.unlisted_bible
           MoreSamples.one_character_check 7);
    [reflexivity | reflexivity | discriminate].
Defined.
